(** * FullSpectrumWebID: analysis orchestration and energy calibration

    A shallow embedding of the parts of [src/Analysis.cpp] and
    [src/EnergyCal.cpp] that the specification talks about: the GADRAS
    configuration cache, the three analysis strategies with their result
    delivery, the search-mode windowing loop, the JSON form of a result and
    the least-squares energy-calibration fitters; and of what surrounds
    them: the request queue and the analysis thread, the choice of the
    foreground and the background in [src/AnalysisFromFiles.cpp] and the
    inputs of the command line in [src/CommandLineAna.cpp].

    The file has two parts.  Part I holds the model (definitions only),
    Part II the properties proved about it. *)

From Stdlib Require Import ZArith List Bool Lia String.
From Stdlib Require Import Floats.SpecFloat.
From stdpp Require Import base gmap strings list sorting pretty.

Set Warnings "-register-all,-abstract-large-number".
Open Scope Z_scope.

(* ===================================================================== *)
(** * Part I: the model                                                   *)
(* ===================================================================== *)

(** ** Outcomes of fallible code

    C++ code either returns, throws a [std::exception] (every [throw] in the
    two files is a [std::runtime_error] with a message), or steps outside an
    array or matrix.  The last case is kept apart from exceptions: it is not
    something a [catch] can rely on. *)

Inductive outcome (A : Type) : Type :=
  | Ok (a : A)
  | Throw (what : string)
  | Fault (where_ : string).
Arguments Ok {A} a.
Arguments Throw {A} what.
Arguments Fault {A} where_.

Definition obind {A B} (m : outcome A) (k : A -> outcome B) : outcome B :=
  match m with
  | Ok a => k a
  | Throw w => Throw w
  | Fault w => Fault w
  end.

#[global] Instance outcome_ret : MRet outcome := @Ok.
#[global] Instance outcome_bind : MBind outcome := fun A B k m => obind m k.
#[global] Instance outcome_fmap : FMap outcome := fun A B f m =>
  obind m (fun a => Ok (f a)).

Definition throw_if {A} (c : bool) (what : string) (k : outcome A) : outcome A :=
  if c then Throw what else k.

Definition is_ok {A} (m : outcome A) : bool :=
  match m with Ok _ => true | _ => false end.

Definition is_throw {A} (m : outcome A) : bool :=
  match m with Throw _ => true | _ => false end.

(** [v[i]] on a [std::vector]: reading past the end is a fault. *)
Definition vec_at {A} (where_ : string) (v : list A) (i : nat) : outcome A :=
  match v !! i with
  | Some x => Ok x
  | None => Fault where_
  end.

(** [v.resize(n, x)]. *)
Definition vec_resize {A} (n : nat) (x : A) (v : list A) : list A :=
  take n v ++ replicate (n - length v) x.

(** ** Machine numbers

    [float] is IEEE binary32 and [double] is binary64, both through the
    Standard Library's executable specification of IEEE arithmetic.
    [int32_t] values are integers; the one narrowing cast is written out. *)

Definition float := spec_float.
Definition double := spec_float.

Module F32.
Definition prec : Z := 24.
Definition emax : Z := 128.
Definition of_Z (z : Z) : float := binary_normalize prec emax z 0 false.
Definition add : float -> float -> float := SFadd prec emax.
Definition sub : float -> float -> float := SFsub prec emax.
Definition mul : float -> float -> float := SFmul prec emax.
Definition div : float -> float -> float := SFdiv prec emax.
Definition ltb : float -> float -> bool := SFltb.
Definition leb : float -> float -> bool := SFleb.
(** A decimal literal [n/d] rounded once, as the compiler rounds it. *)
Definition lit (n d : Z) : float := div (of_Z n) (of_Z d).
Definition zero : float := S754_zero false.
(** [std::max(a, b)] is [(a < b) ? b : a]. *)
Definition max (a b : float) : float := if ltb a b then b else a.
Definition is_nan (x : float) : bool :=
  match x with S754_nan => true | _ => false end.
Definition is_inf (x : float) : bool :=
  match x with S754_infinity _ => true | _ => false end.
End F32.

Module F64.
Definition prec : Z := 53.
Definition emax : Z := 1024.
Definition of_Z (z : Z) : double := binary_normalize prec emax z 0 false.
Definition add : double -> double -> double := SFadd prec emax.
Definition sub : double -> double -> double := SFsub prec emax.
Definition mul : double -> double -> double := SFmul prec emax.
Definition div : double -> double -> double := SFdiv prec emax.
Definition sqrt : double -> double := SFsqrt prec emax.
Definition fabs : double -> double := SFabs.
Definition ltb : double -> double -> bool := SFltb.
Definition leb : double -> double -> bool := SFleb.
Definition eqb : double -> double -> bool := SFeqb.
Definition lit (n d : Z) : double := div (of_Z n) (of_Z d).
Definition zero : double := S754_zero false.
Definition one : double := of_Z 1.
Definition max (a b : double) : double := if ltb a b then b else a.
Definition of_nat (n : nat) : double := of_Z (Z.of_nat n).
End F64.

(** Conversions between the two formats: widening is exact, narrowing
    ([static_cast<float>]) rounds to nearest even. *)
Definition renormalize (prec emax : Z) (x : spec_float) : spec_float :=
  match x with
  | S754_finite s m e => binary_normalize prec emax (cond_Zopp s (Z.pos m)) e s
  | _ => x
  end.
Definition to_double (x : float) : double := renormalize F64.prec F64.emax x.
Definition to_float (x : double) : float := renormalize F32.prec F32.emax x.

(** [static_cast<int32_t>] of an integer value. *)
Definition to_int32 (z : Z) : Z := (z + 2 ^ 31) mod 2 ^ 32 - 2 ^ 31.

(** ** The GADRAS configuration cache ([Analysis.cpp], 172-417) *)

Inductive AutoGainAdjustType := AGA_None | AGA_K40 | AGA_Th232.

Definition AutoGainAdjustType_eqb (a b : AutoGainAdjustType) : bool :=
  match a, b with
  | AGA_None, AGA_None | AGA_K40, AGA_K40 | AGA_Th232, AGA_Th232 => true
  | _, _ => false
  end.

(** The five file-level variables that record what GADRAS is initialised
    for. *)
Record EngineConfigState := {
  g_gad_drf : string;
  g_gad_nchannel : Z;
  g_gad_calibrated : bool;
  g_num_detectors : Z;
  g_gad_cal_adjust : AutoGainAdjustType
}.

(** Their initial values. *)
Definition uninitialized : EngineConfigState :=
  {| g_gad_drf := ""; g_gad_nchannel := -1; g_gad_calibrated := false;
     g_num_detectors := -1; g_gad_cal_adjust := AGA_None |}.

(** What the cache holds after a successful initialisation for the raw
    (multi-detector) methods. *)
Definition raw_tuple (drf : string) (nchannel num_detectors : Z)
    (cal_type : AutoGainAdjustType) : EngineConfigState :=
  {| g_gad_drf := drf; g_gad_nchannel := nchannel; g_gad_calibrated := false;
     g_num_detectors := num_detectors; g_gad_cal_adjust := cal_type |}.

(** What a call of the calibrated initialisation that returned [rc] leaves
    in the cache. *)
Definition calibrated_after (c : EngineConfigState) (drf : string)
    (nchannel rc : Z) : EngineConfigState :=
  {| g_gad_drf := if rc =? 0 then drf else "";
     g_gad_nchannel := if rc =? 0 then nchannel else -1;
     g_gad_calibrated := rc =? 0;
     g_num_detectors := g_num_detectors c;
     g_gad_cal_adjust := g_gad_cal_adjust c |}.

(** A call made into the GADRAS library; the analysis run keeps a log of
    them so that the number and order of calls can be stated. *)
Inductive AnalysisMode := INITIALIZE | ANALYZE | RESET.

Inductive EngineCall :=
  | CallInitRaw (app_folder drf : string) (nchannel num_detectors : Z) (calTag : string)
  | CallInitCalibrated (app_folder drf : string) (nchannel : Z)
  | CallStreamingSearch (mode : AnalysisMode) (samples : list Z)
  | CallStaticIsotopeID
  | CallPortalIsotopeID.

(** The library itself is outside the repository: its behaviour is an
    interface over a hidden state [Eng]. *)
Class Gadras (Eng : Type) := {
  InitializeIsotopeIdRaw :
    string -> string -> Z -> Z -> string -> Eng -> Z * Eng;
  InitializeIsotopeIdCalibrated :
    string -> string -> Z -> Eng -> Z * Eng;
  (** [StreamingSearch] on the data of a set of samples; the buffers are
      prepared by [fill_inputs] from the samples. *)
  StreamingSearch : AnalysisMode -> list Z -> Eng -> Z * Eng
}.

(** [check_init_results]: negative codes throw, each with its message. *)
Definition check_init_results (status : Z) : outcome unit :=
  if status =? 0 then Ok tt
  else if status =? -1 then Throw "DRF Init Error: error initializing application directory"
  else if status =? -2 then Throw "DRF Init Error: general error initializing application"
  else if status =? -3 then Throw "DRF Init Error: error initializing detector directory"
  else if status =? -4 then Throw "DRF Init Error: Detector.dat read error"
  else if status =? -5 then Throw "DRF Init Error: Response.win out of date"
  else if status =? -6 then Throw "DRF Init Error: Response.win does not exist"
  else if (status =? -7) || (status =? -8) || (status =? -9)
       then Throw "DRF Init Error: General response read errors"
  else if status <? 0 then Throw ("DRF Init Error: Unknown error code " +:+ pretty status)
  else Ok tt.
(** [stream_search_result_str] (306-319) *)
Definition stream_search_result_str (status : Z) : string :=
  if status =? 0 then "Energy calibration was not performed (e.g., calTag=)"
  else if status =? 1 then "Calibration was successful"
  else if status =? -1 then "Spectrum not suitable for energy calibration"
  else if status =? -2 then "The specified background peak was not found"
  else if status =? -3
  then "There was a large error (based on chi-square) in the fit to the photopeak"
  else if status =? -4
  then "There were large uncertainties in the peak characteristics"
  else "Other code " +:+ pretty status.

Section EngineCache.
Context {Eng : Type} `{!Gadras Eng}.

(** What the worker thread owns: the cache, the library's hidden state and
    the log of calls made into it. *)
Record Worker := {
  g_gad_app_folder : string;
  cache : EngineConfigState;
  engine : Eng;
  calls : list EngineCall
}.

Definition set_cache (c : EngineConfigState) (e : Eng) (call : EngineCall)
    (w : Worker) : Worker :=
  {| g_gad_app_folder := g_gad_app_folder w; cache := c; engine := e;
     calls := calls w ++ [call] |}.

Definition calTag_of (cal_type : AutoGainAdjustType) : string :=
  match cal_type with
  | AGA_None => ""
  | AGA_K40 => "k"
  | AGA_Th232 => "t"
  end.

Definition init_gadras_drf_raw (drf : string) (nchannel num_detectors : Z)
    (cal_type : AutoGainAdjustType) (w : Worker) : Z * Worker :=
  let c := cache w in
  if String.eqb drf (g_gad_drf c)
     && (nchannel =? g_gad_nchannel c)
     && Bool.eqb (g_gad_calibrated c) false
     && (g_num_detectors c =? num_detectors)
     && AutoGainAdjustType_eqb (g_gad_cal_adjust c) cal_type
  then (0, w)
  else
    let calTag := calTag_of cal_type in
    let '(rval, e) :=
      InitializeIsotopeIdRaw (g_gad_app_folder w) drf nchannel num_detectors
        calTag (engine w) in
    let call := CallInitRaw (g_gad_app_folder w) drf nchannel num_detectors calTag in
    if rval =? 0
    then (rval,
          set_cache {| g_gad_drf := drf; g_gad_nchannel := nchannel;
                       g_gad_calibrated := false;
                       g_num_detectors := num_detectors;
                       g_gad_cal_adjust := cal_type |} e call w)
    else (rval,
          set_cache {| g_gad_drf := ""; g_gad_nchannel := -1;
                       g_gad_calibrated := false; g_num_detectors := -1;
                       g_gad_cal_adjust := AGA_None |} e call w).

Definition init_gadras_drf_calibrated (drf : string) (nchannel : Z)
    (w : Worker) : Z * Worker :=
  let c := cache w in
  if String.eqb drf (g_gad_drf c)
     && (nchannel =? g_gad_nchannel c)
     && Bool.eqb (g_gad_calibrated c) true
  then (0, w)
  else
    let '(rval, e) :=
      InitializeIsotopeIdCalibrated (g_gad_app_folder w) drf nchannel (engine w) in
    let call := CallInitCalibrated (g_gad_app_folder w) drf nchannel in
    if rval =? 0
    then (rval,
          set_cache {| g_gad_drf := drf; g_gad_nchannel := nchannel;
                       g_gad_calibrated := true;
                       g_num_detectors := g_num_detectors c;
                       g_gad_cal_adjust := g_gad_cal_adjust c |} e call w)
    else (rval,
          set_cache {| g_gad_drf := ""; g_gad_nchannel := -1;
                       g_gad_calibrated := false;
                       g_num_detectors := g_num_detectors c;
                       g_gad_cal_adjust := g_gad_cal_adjust c |} e call w).

End EngineCache.

Arguments Worker Eng : clear implicits.

(** ** Spectrum files as the analysis reads them

    [SpecUtils::SpecFile], [Measurement] and [EnergyCalibration] belong to
    the SpecUtils library.  They are modelled by what their accessors return.
    A [shared_ptr<const EnergyCalibration>] is an address together with the
    (immutable) object it points to; [==] on two such pointers compares the
    addresses only. *)

Inductive SourceType :=
  IntrinsicActivity | Calibration | Background | Foreground | Unknown.

Inductive OccupancyStatus := NotOccupied | Occupied | UnknownOccupancy.

Inductive EnergyCalType :=
  | Polynomial
  | FullRangeFraction
  | LowerChannelEdge
  | UnspecifiedUsingDefaultPolynomial
  | InvalidEquationType.

Definition EnergyCalType_eqb (a b : EnergyCalType) : bool :=
  match a, b with
  | Polynomial, Polynomial
  | FullRangeFraction, FullRangeFraction
  | LowerChannelEdge, LowerChannelEdge
  | UnspecifiedUsingDefaultPolynomial, UnspecifiedUsingDefaultPolynomial
  | InvalidEquationType, InvalidEquationType => true
  | _, _ => false
  end.

Record EnergyCalibration := {
  cal_type : EnergyCalType;
  cal_valid : bool;
  cal_num_channels : nat;
  cal_coefficients : list float;
  cal_deviation_pairs : list (float * float);
  cal_channel_energies : option (list float);
  cal_lower_energy : float;
  cal_upper_energy : float
}.

(** What a default-constructed [EnergyCalibration] shows: no equation yet. *)
Definition EnergyCalibration_new : EnergyCalibration :=
  {| cal_type := InvalidEquationType; cal_valid := false;
     cal_num_channels := 0; cal_coefficients := []; cal_deviation_pairs := [];
     cal_channel_energies := None;
     cal_lower_energy := F32.zero; cal_upper_energy := F32.zero |}.

Record CalRef := { cal_addr : positive; cal_obj : EnergyCalibration }.

(** A possibly null [shared_ptr<const EnergyCalibration>]. *)
Definition cal_ptr := option CalRef.

Definition ptr_eqb (a b : cal_ptr) : bool :=
  match a, b with
  | None, None => true
  | Some x, Some y => Pos.eqb (cal_addr x) (cal_addr y)
  | _, _ => false
  end.

Record Measurement := {
  sample_number : Z;
  detector_name : string;
  source_type : SourceType;
  occupied : OccupancyStatus;
  real_time : float;
  live_time : float;
  num_gamma_channels : nat;
  contained_neutron : bool;
  energy_calibration : cal_ptr
}.

Record SpecFile := {
  measurements : list Measurement;
  (** [SpecFile::num_gamma_channels()] *)
  file_num_gamma_channels : nat;
  (** [SpecFile::sample_numbers()], a [std::set<int>] in increasing order *)
  sample_numbers : list Z;
  detector_names : list string
}.

Definition sample_measurements (f : SpecFile) (sample : Z) : list Measurement :=
  filter (fun m => sample_number m = sample) (measurements f).

Definition measurement (f : SpecFile) (sample : Z) (name : string) : option Measurement :=
  head (filter (fun m => sample_number m = sample /\ detector_name m = name)
               (measurements f)).

(** ** Requests and results ([Analysis.h]) *)

Inductive AnalysisType := Simple | Search | Portal.

Record AnalysisOutput := {
  ana_number : nat;
  drf_used : string;
  gadras_intialization_error : Z;
  gadras_analysis_error : Z;
  error_message : string;
  analysis_warnings : list string;
  stuff_of_interest : float;
  rate_not_norm : float;
  isotopes : string;
  chi_sqr : float;
  alarm_basis_duration : float;
  isotope_names : list string;
  isotope_types : list string;
  isotope_count_rates : list float;
  isotope_confidences : list float;
  isotope_confidence_strs : list string;
  spec_file : option SpecFile
}.

(** The [AnalysisOutput()] constructor. *)
Definition AnalysisOutput_new : AnalysisOutput :=
  {| ana_number := 0%nat; drf_used := "";
     gadras_intialization_error := -999; gadras_analysis_error := -999;
     error_message := ""; analysis_warnings := [];
     stuff_of_interest := F32.zero; rate_not_norm := F32.zero;
     isotopes := "";
     chi_sqr := F32.of_Z (-1); alarm_basis_duration := F32.of_Z (-1);
     isotope_names := []; isotope_types := [];
     isotope_count_rates := []; isotope_confidences := [];
     isotope_confidence_strs := []; spec_file := None |}.

(** Field updates, one per assignment the strategies make. *)
Definition set_request (n : nat) (drf : string) (file : option SpecFile)
    (r : AnalysisOutput) : AnalysisOutput :=
  {| ana_number := n; drf_used := drf;
     gadras_intialization_error := gadras_intialization_error r;
     gadras_analysis_error := gadras_analysis_error r;
     error_message := error_message r;
     analysis_warnings := analysis_warnings r;
     stuff_of_interest := stuff_of_interest r;
     rate_not_norm := rate_not_norm r; isotopes := isotopes r;
     chi_sqr := chi_sqr r; alarm_basis_duration := alarm_basis_duration r;
     isotope_names := isotope_names r; isotope_types := isotope_types r;
     isotope_count_rates := isotope_count_rates r;
     isotope_confidences := isotope_confidences r;
     isotope_confidence_strs := isotope_confidence_strs r;
     spec_file := file |}.

Definition set_gadras_intialization_error (code : Z) (r : AnalysisOutput)
    : AnalysisOutput :=
  {| ana_number := ana_number r; drf_used := drf_used r;
     gadras_intialization_error := code;
     gadras_analysis_error := gadras_analysis_error r;
     error_message := error_message r;
     analysis_warnings := analysis_warnings r;
     stuff_of_interest := stuff_of_interest r;
     rate_not_norm := rate_not_norm r; isotopes := isotopes r;
     chi_sqr := chi_sqr r; alarm_basis_duration := alarm_basis_duration r;
     isotope_names := isotope_names r; isotope_types := isotope_types r;
     isotope_count_rates := isotope_count_rates r;
     isotope_confidences := isotope_confidences r;
     isotope_confidence_strs := isotope_confidence_strs r;
     spec_file := spec_file r |}.

Definition set_gadras_analysis_error (code : Z) (r : AnalysisOutput)
    : AnalysisOutput :=
  {| ana_number := ana_number r; drf_used := drf_used r;
     gadras_intialization_error := gadras_intialization_error r;
     gadras_analysis_error := code;
     error_message := error_message r;
     analysis_warnings := analysis_warnings r;
     stuff_of_interest := stuff_of_interest r;
     rate_not_norm := rate_not_norm r; isotopes := isotopes r;
     chi_sqr := chi_sqr r; alarm_basis_duration := alarm_basis_duration r;
     isotope_names := isotope_names r; isotope_types := isotope_types r;
     isotope_count_rates := isotope_count_rates r;
     isotope_confidences := isotope_confidences r;
     isotope_confidence_strs := isotope_confidence_strs r;
     spec_file := spec_file r |}.

Definition set_error_message (what : string) (r : AnalysisOutput)
    : AnalysisOutput :=
  {| ana_number := ana_number r; drf_used := drf_used r;
     gadras_intialization_error := gadras_intialization_error r;
     gadras_analysis_error := gadras_analysis_error r;
     error_message := what;
     analysis_warnings := analysis_warnings r;
     stuff_of_interest := stuff_of_interest r;
     rate_not_norm := rate_not_norm r; isotopes := isotopes r;
     chi_sqr := chi_sqr r; alarm_basis_duration := alarm_basis_duration r;
     isotope_names := isotope_names r; isotope_types := isotope_types r;
     isotope_count_rates := isotope_count_rates r;
     isotope_confidences := isotope_confidences r;
     isotope_confidence_strs := isotope_confidence_strs r;
     spec_file := spec_file r |}.

Definition push_warning (msg : string) (r : AnalysisOutput) : AnalysisOutput :=
  {| ana_number := ana_number r; drf_used := drf_used r;
     gadras_intialization_error := gadras_intialization_error r;
     gadras_analysis_error := gadras_analysis_error r;
     error_message := error_message r;
     analysis_warnings := analysis_warnings r ++ [msg];
     stuff_of_interest := stuff_of_interest r;
     rate_not_norm := rate_not_norm r; isotopes := isotopes r;
     chi_sqr := chi_sqr r; alarm_basis_duration := alarm_basis_duration r;
     isotope_names := isotope_names r; isotope_types := isotope_types r;
     isotope_count_rates := isotope_count_rates r;
     isotope_confidences := isotope_confidences r;
     isotope_confidence_strs := isotope_confidence_strs r;
     spec_file := spec_file r |}.

Record AnalysisInput := {
  in_ana_number : nat;
  wt_app_id : string;
  drf_folder : string;
  input_warnings : list string;
  analysis_type : AnalysisType;
  input : option SpecFile;
  (** [std::function<void(AnalysisOutput)>]: empty, or a callable named by
      an identifier *)
  callback : option nat
}.

(** What a strategy makes happen outside the worker: the callback is called
    in the analysis thread, or posted to a Wt session. *)
Inductive Event :=
  | CallbackCalled (cb : nat) (r : AnalysisOutput)
  | CallbackPosted (session : string) (cb : nat) (r : AnalysisOutput).

(** ** A state-and-exception monad for the try blocks

    The strategies update [result] and the GADRAS state while they run, and
    what was written before a [throw] stays written when the exception is
    caught.  So the state is returned on every outcome. *)

Definition Ana (St A : Type) : Type := St -> outcome A * St.

#[global] Instance Ana_ret {St} : MRet (Ana St) := fun A a s => (Ok a, s).
#[global] Instance Ana_bind {St} : MBind (Ana St) := fun A B k m s =>
  match m s with
  | (Ok a, s') => k a s'
  | (Throw w, s') => (Throw w, s')
  | (Fault w, s') => (Fault w, s')
  end.

Definition throw {St A} (what : string) : Ana St A := fun s => (Throw what, s).
Definition lift {St A} (o : outcome A) : Ana St A := fun s => (o, s).
Definition modify {St} (f : St -> St) : Ana St unit := fun s => (Ok tt, f s).
Definition when_throw {St} (c : bool) (what : string) : Ana St unit :=
  if c then throw what else mret tt.

(** ** The strategies ([Analysis.cpp], 421-2085) *)

Section Strategies.
Context {Eng : Type} `{!Gadras Eng}.

(** The state a try block works on: [result] and what the worker owns. *)
Definition RunState : Type := AnalysisOutput * Worker Eng.

Definition on_result (f : AnalysisOutput -> AnalysisOutput) : Ana RunState unit :=
  modify (fun s => (f (fst s), snd s)).

Definition on_worker {A} (f : Worker Eng -> A * Worker Eng) : Ana RunState A :=
  fun s => let '(a, w) := f (snd s) in (Ok a, (fst s, w)).

(** The parts of the strategies that only move data between SpecUtils, the
    GADRAS buffers and [result].  Each may update the state and may throw. *)
Class Collaborators := {
  (** [SpecUtils::append_path] *)
  append_path : string -> string -> string;
  (** [do_simple_analysis] after [check_init_results] (493-827): the
      calibration checks, the optional K40 recalibration, [StaticIsotopeID]
      and the extraction of its results *)
  simple_after_init :
    SpecFile -> Measurement -> option Measurement -> nat -> Ana RunState unit;
  (** [do_search_analysis] 1170-1270: bringing the detectors' calibrations to
      one channel count *)
  search_prepare_cals : gmap string CalRef -> Z -> Ana RunState unit;
  (** [do_search_analysis] 1593-1688: reading the identification results of
      one window into [result] *)
  search_collect_window : gset Z -> Ana RunState unit;
  (** [do_search_analysis] 1693-1742: the summary string and the removal of
      low-confidence isotopes *)
  search_summarize : Z -> Ana RunState unit;
  (** [do_portal_analysis] after [check_init_results] (1835-2045) *)
  portal_after_init : AnalysisInput -> Ana RunState unit;
  (** [callback( result )] (852, 1783, 2078): the callable named by the
      identifier is the caller's code; it returns or throws *)
  call_callback : nat -> AnalysisOutput -> outcome unit;
  (** [server->post( wt_app_id, ... )] (842-848, 1773-1779, 2068-2074):
      [Wt::WServer::post] takes the callback for the session *)
  server_post : string -> nat -> AnalysisOutput -> outcome unit
}.
Context `{!Collaborators}.

(** *** Delivery of a result (834-858, 1765-1789, 2060-2084)

    The three strategies end with the same lines. *)
Record Host := {
  worker : Worker Eng;
  (** whether [Wt::WServer::instance()] is non-null *)
  server_instance : bool;
  events : list Event
}.

Definition deliver (inp : AnalysisInput) (result : AnalysisOutput)
    (server : bool) : list Event :=
  match callback inp with
  | Some cb =>
      if server && negb (String.eqb (wt_app_id inp) "")
      then [CallbackPosted (wt_app_id inp) cb result]
      else if String.eqb (wt_app_id inp) ""
      then [CallbackCalled cb result]
      else []
  | None => []
  end.

(** The hand-over itself is made of calls that leave the file, after the
    [catch] and outside any [try]: what they throw is not caught. *)
Definition perform (e : Event) : outcome unit :=
  match e with
  | CallbackCalled cb r => call_callback cb r
  | CallbackPosted session cb r => server_post session cb r
  end.

Fixpoint perform_all (todo : list Event) : outcome unit :=
  match todo with
  | [] => Ok tt
  | e :: rest => perform e ;; perform_all rest
  end.

(** [try { body } catch( std::exception &e ){ result.error_message = e.what(); }]
    followed by the delivery.  A fault is not an exception: nothing is
    promised about it, and the model stops there. *)
Definition run_strategy (inp : AnalysisInput) (result0 : AnalysisOutput)
    (body : Ana RunState unit) (h : Host) : outcome Host :=
  let finish (result : AnalysisOutput) (w : Worker Eng) : outcome Host :=
    let todo := deliver inp result (server_instance h) in
    perform_all todo ;;
    Ok {| worker := w; server_instance := server_instance h;
          events := events h ++ todo |} in
  match body (result0, worker h) with
  | (Ok _, (result, w)) => finish result w
  | (Throw what, (result, w)) => finish (set_error_message what result) w
  | (Fault where_, _) => Fault where_
  end.

(** *** Simple analysis (421-859) *)

(** How the loop below sorts the measurements by source type. *)
Definition is_foreground (m : Measurement) : bool :=
  match source_type m with Foreground | Unknown => true | _ => false end.

Definition is_background (m : Measurement) : bool :=
  match source_type m with Background => true | _ => false end.

Definition is_calibration_or_intrinsic (m : Measurement) : bool :=
  match source_type m with
  | Calibration | IntrinsicActivity => true
  | _ => false
  end.

(** The loop over the measurements (451-472). *)
Fixpoint classify_measurements (nchannel : nat) (ms : list Measurement)
    (backgrounds foregrounds : list Measurement)
    : outcome (list Measurement * list Measurement) :=
  match ms with
  | [] => Ok (backgrounds, foregrounds)
  | m :: rest =>
      if negb (num_gamma_channels m =? nchannel)%nat
      then Throw "Measurements somehow have different number of channels."
      else
        match source_type m with
        | IntrinsicActivity | Calibration =>
            Throw "Somehow an intrinsic or calibration spectrum made it to analysis"
        | Foreground | Unknown =>
            classify_measurements nchannel rest backgrounds (foregrounds ++ [m])
        | Background =>
            classify_measurements nchannel rest (backgrounds ++ [m]) foregrounds
        end
  end.

(** The checks made before GADRAS is touched (441-481), returning the file,
    the foreground, the background if any and the channel count. *)
Definition simple_validate (inp : AnalysisInput)
    : outcome (SpecFile * Measurement * option Measurement * nat) :=
  match input inp with
  | None => Throw "Invalid input SpecUtils::SpecFile ptr"
  | Some input_file =>
      let nmeas := length (measurements input_file) in
      if negb (nmeas =? 1)%nat && negb (nmeas =? 2)%nat
      then Throw "Invalid number of measurements"
      else
        let nchannel := file_num_gamma_channels input_file in
        '(backgrounds, foregrounds) ←
          classify_measurements nchannel (measurements input_file) [] [];
        match foregrounds with
        | [foreground] =>
            if (1 <? length backgrounds)%nat
            then Throw "Somehow sent more than one background to analysis"
            else if (Z.of_nat nchannel <? 32) || (64 * 1024 <? Z.of_nat nchannel)
            then Throw ("Invalid number of channels (" +:+ pretty nchannel +:+ ")")
            else Ok (input_file, foreground, head backgrounds, nchannel)
        | _ => Throw "Somehow we didnt send a single foreground to analysis"
        end
  end.

Definition simple_body (inp : AnalysisInput) : Ana RunState unit :=
  let drf_folder := append_path "drfs" (drf_folder inp) in
  '(input_file, foreground, background, nchannel) ← lift (simple_validate inp);
  init_code ← on_worker
    (init_gadras_drf_calibrated drf_folder (to_int32 (Z.of_nat nchannel)));
  on_result (set_gadras_intialization_error init_code);;
  lift (check_init_results init_code);;
  simple_after_init input_file foreground background nchannel.

Definition do_simple_analysis (inp : AnalysisInput) (h : Host) : outcome Host :=
  let result :=
    set_request (in_ana_number inp) (drf_folder inp) None AnalysisOutput_new in
  run_strategy inp result (simple_body inp) h.

(** *** Search analysis (863-1790) *)

(** A measurement with a valid energy calibration and at least
    [min_channels] gamma channels. *)
Definition is_spectrum (min_channels : nat) (m : Measurement) : bool :=
  match energy_calibration m with
  | Some cal => cal_valid (cal_obj cal) && (min_channels <=? num_gamma_channels m)%nat
  | None => false
  end.

(** The [real_time_of_sample] lambda (899-911). *)
Definition real_time_of_sample (f : SpecFile) (sample : Z) : float :=
  fold_left
    (fun rt m => if is_spectrum 32 m then F32.max rt (real_time m) else rt)
    (sample_measurements f sample) F32.zero.

(** The locals of the first loop (914-925). *)
Record Detectors := {
  nchannels : Z;
  background_samples : gset Z;
  neutron_detector_names : gset string;
  energy_cals : gmap string CalRef
}.

Definition is_background_like (m : Measurement) : bool :=
  match occupied m, source_type m with
  | NotOccupied, _ => true
  | _, Background => true
  | _, _ => false
  end.

Definition energy_range (cal : CalRef) : float :=
  SFabs (F32.sub (cal_upper_energy (cal_obj cal)) (cal_lower_energy (cal_obj cal))).

(** The body of the loop over detector names (929-976). *)
Definition scan_detector (is_portal : bool) (f : SpecFile) (sample : Z)
    (d : Detectors) (name : string) : Detectors :=
  match measurement f sample name with
  | None => d
  | Some m =>
      if is_portal && negb (is_background_like m) then d
      else
        let neutrons :=
          if contained_neutron m
          then {[name]} ∪ neutron_detector_names d
          else neutron_detector_names d in
        let backgrounds := {[sample]} ∪ background_samples d in
        match energy_calibration m with
        | Some cal =>
            if cal_valid (cal_obj cal) && (32 <=? num_gamma_channels m)%nat
            then
              let prev := default cal (energy_cals d !! name) in
              let kept :=
                if negb (Pos.eqb (cal_addr prev) (cal_addr cal))
                   && F32.ltb (energy_range prev) (energy_range cal)
                then cal else prev in
              {| nchannels :=
                   Z.max (nchannels d)
                         (to_int32 (Z.of_nat (cal_num_channels (cal_obj kept))));
                 background_samples := backgrounds;
                 neutron_detector_names := neutrons;
                 energy_cals := <[name := kept]> (energy_cals d) |}
            else
              {| nchannels := nchannels d; background_samples := backgrounds;
                 neutron_detector_names := neutrons;
                 energy_cals := energy_cals d |}
        | None =>
            {| nchannels := nchannels d; background_samples := backgrounds;
               neutron_detector_names := neutrons;
               energy_cals := energy_cals d |}
        end
  end.

(** The loop over the sample numbers (927-984), with its [break]. *)
Fixpoint scan_samples (is_portal : bool) (f : SpecFile) (samples : list Z)
    (d : Detectors) : Detectors :=
  match samples with
  | [] => d
  | sample :: rest =>
      let d' := fold_left (scan_detector is_portal f sample) (detector_names f) d in
      if negb is_portal && negb (bool_decide (energy_cals d' = ∅))
      then d'
      else scan_samples is_portal f rest d'
  end.

(** A [std::set<int>] is walked in increasing order. *)
Definition in_order (s : gset Z) : list Z := merge_sort Z.le (elements s).

(** Preferring one long background sample (1007-1049). *)
Definition longest_background (f : SpecFile) (backgrounds : gset Z) : Z * float :=
  fold_left
    (fun '(longest_sample, longest_rt) sample =>
       let rt := real_time_of_sample f sample in
       if F32.ltb F32.zero rt && negb (F32.is_nan rt) && negb (F32.is_inf rt)
          && F32.ltb longest_rt rt
       then (sample, rt)
       else (longest_sample, longest_rt))
    (in_order backgrounds) (-999999, F32.lit (-9999) 10).

Definition select_background (f : SpecFile) (ndet : nat) (backgrounds : gset Z)
    : gset Z :=
  if (1 <? size backgrounds)%nat
  then
    let '(longest_sample, longest_rt) := longest_background f backgrounds in
    if F32.ltb (F32.of_Z 55) longest_rt
    then
      let nmeas_back :=
        length (filter (fun m => is_spectrum 64 m = true)
                       (sample_measurements f longest_sample)) in
      if (nmeas_back =? ndet)%nat then {[longest_sample]} else backgrounds
    else backgrounds
  else backgrounds.

(** A call of [g_StreamingSearch], logged.  The buffers passed are those
    [fill_inputs] prepared from [samples]. *)
Definition streaming_search (mode : AnalysisMode) (samples : list Z)
    : Ana RunState Z :=
  on_worker (fun w =>
    let '(stat, e) := StreamingSearch mode samples (engine w) in
    (stat, {| g_gad_app_folder := g_gad_app_folder w; cache := cache w;
              engine := e;
              calls := calls w ++ [CallStreamingSearch mode samples] |})).

(** [fill_inputs] (1285-1391) throws when it is given no sample at all (there
    is at least one detector when it is called); what it writes is the
    buffers that the next [StreamingSearch] call reads. *)
Definition fill_inputs (samples_to_get : gset Z) : Ana RunState unit :=
  when_throw (size samples_to_get =? 0)%nat
    "Logic error - now samples specified for fill_inputs lambda".

(** [DoWorkOnDestruct do_reset_ana] (1486-1513): the reset runs when the
    scope is left, by return or by exception. *)
Definition with_reset {A} (body : Ana RunState A) : Ana RunState A :=
  fun s =>
    let '(o, s') := body s in
    let '(_, s'') := streaming_search RESET [] s' in
    (o, s'').

(** The samples of a walk that are not background samples, and the real
    time summed over samples in order, as the inner loop below adds it up. *)
Definition foreground_of (backgrounds : gset Z) (walked : list Z) : list Z :=
  filter (fun sample => sample ∉ backgrounds) walked.

Definition summed_real_time (f : SpecFile) (samples : list Z) (start : float)
    : float :=
  fold_left (fun rt sample => F32.add rt (real_time_of_sample f sample))
            samples start.

(** The inner loop (1529-1538).  It declares an iterator of its own, which
    starts at the first sample number. *)
Fixpoint sum_samples (f : SpecFile) (backgrounds : gset Z) (iter : list Z)
    (real_time : float) (samples : gset Z) : float * gset Z :=
  match iter with
  | [] => (real_time, samples)
  | sample :: rest =>
      if F32.ltb real_time (F32.lit 425 1000)
      then
        if bool_decide (sample ∈ backgrounds)
        then sum_samples f backgrounds rest real_time samples
        else sum_samples f backgrounds rest
               (F32.add real_time (real_time_of_sample f sample))
               ({[sample]} ∪ samples)
      else (real_time, samples)
  end.

(** The outer loop (1520-1689): [outer] is what is left for the outer
    iterator, the sample under it included. *)
Fixpoint analyze_windows (f : SpecFile) (backgrounds : gset Z) (outer : list Z)
    (real_time_and_samples : list (float * gset Z))
    : Ana RunState (list (float * gset Z)) :=
  match outer with
  | [] => mret real_time_and_samples
  | _ :: outer' =>
      let '(real_time, samples) :=
        sum_samples f backgrounds (sample_numbers f) F32.zero ∅ in
      if bool_decide (samples = ∅)
      then throw "Logic-error: did the file only contain background?"
      else if F32.leb real_time (F32.lit 1 100000)
      then
        (* the outer iterator is on a sample here, so never at the end *)
        throw "Logic-error: zero-second time interval sum, but we didnt reach end of samples"
      else
        let windows := real_time_and_samples ++ [(real_time, samples)] in
        fill_inputs samples;;
        call_stat ← streaming_search ANALYZE (in_order samples);
        (if call_stat <? 0
         then on_result (set_gadras_analysis_error call_stat);;
              throw ("Failed to initialize StreamingSearch: "
                     +:+ stream_search_result_str call_stat)
         else mret tt);;
        search_collect_window samples;;
        analyze_windows f backgrounds outer' windows
  end.


Definition portal_warning : string :=
  "The search-mode analysis algorithm was used for this RPM data, pending proper RPM replay implementation".

Definition no_recal_warning : string :=
  "The displayed data has not been updated to the fit energy calibration, pending implementation.".

Definition search_body (inp : AnalysisInput)
    : Ana RunState (list (float * gset Z)) :=
  let drf_folder := append_path "drfs" (drf_folder inp) in
  let is_portal := match analysis_type inp with Portal => true | _ => false end in
  match input inp with
  | None => throw "Invalid input SpecUtils::SpecFile ptr"
  | Some input_file =>
      let d := scan_samples is_portal input_file (sample_numbers input_file)
                 {| nchannels := 0; background_samples := ∅;
                    neutron_detector_names := ∅; energy_cals := ∅ |} in
      when_throw (bool_decide (energy_cals d = ∅) || (nchannels d <? 32)
                  || bool_decide (background_samples d = ∅))
        "No gamma spectra with valid energy calibrations found.";;
      let ndet := size (energy_cals d) in
      init_code ← on_worker
        (init_gadras_drf_raw drf_folder (nchannels d)
           (to_int32 (Z.of_nat ndet)) AGA_K40);
      on_result (set_gadras_intialization_error init_code);;
      lift (check_init_results init_code);;
      let backgrounds := select_background input_file ndet (background_samples d) in
      search_prepare_cals (energy_cals d) (nchannels d);;
      fill_inputs backgrounds;;
      call_stat ← streaming_search INITIALIZE (in_order backgrounds);
      (if call_stat <? 0
       then on_result (set_gadras_analysis_error call_stat);;
            throw ("Failed to initialize StreamingSearch: "
                     +:+ stream_search_result_str call_stat)
       else mret tt);;
      call_stat ← streaming_search ANALYZE (in_order backgrounds);
      (if call_stat <? 0
       then on_result (set_gadras_analysis_error call_stat);;
            throw ("Failed to analyze background in StreamingSearch: "
                   +:+ stream_search_result_str call_stat)
       else mret tt);;
      with_reset (
        windows ← analyze_windows input_file backgrounds
                    (sample_numbers input_file) [];
        search_summarize (nchannels d);;
        (if is_portal then on_result (push_warning portal_warning) else mret tt);;
        on_result (push_warning no_recal_warning);;
        on_result (set_gadras_analysis_error 0);;
        mret windows)
  end.

Definition do_search_analysis (inp : AnalysisInput) (h : Host) : outcome Host :=
  let result :=
    set_request (in_ana_number inp) (drf_folder inp) (input inp) AnalysisOutput_new in
  run_strategy inp result (search_body inp ;; mret tt) h.

(** *** Portal analysis (1794-2085) *)

Definition portal_body (inp : AnalysisInput) : Ana RunState unit :=
  let drf_rel_path := append_path "drfs" (drf_folder inp) in
  init_code ← on_worker (init_gadras_drf_calibrated drf_rel_path 0);
  on_result (set_gadras_intialization_error init_code);;
  lift (check_init_results init_code);;
  portal_after_init inp.

Definition do_portal_analysis (inp : AnalysisInput) (h : Host) : outcome Host :=
  let result :=
    push_warning
      "Portal analysis is still under development - interpret results with care."
      (set_request (in_ana_number inp) (drf_folder inp) (input inp)
         AnalysisOutput_new) in
  run_strategy inp result (portal_body inp) h.

(** The [result] each strategy starts from and its try block, by type. *)
Definition initial_result (inp : AnalysisInput) : AnalysisOutput :=
  match analysis_type inp with
  | Simple =>
      set_request (in_ana_number inp) (drf_folder inp) None AnalysisOutput_new
  | Search =>
      set_request (in_ana_number inp) (drf_folder inp) (input inp)
        AnalysisOutput_new
  | Portal =>
      push_warning
        "Portal analysis is still under development - interpret results with care."
        (set_request (in_ana_number inp) (drf_folder inp) (input inp)
           AnalysisOutput_new)
  end.

Definition try_block (inp : AnalysisInput) : Ana RunState unit :=
  match analysis_type inp with
  | Simple => simple_body inp
  | Search => search_body inp ;; mret tt
  | Portal => portal_body inp
  end.

(** *** The dispatch of one request (2115-2131) *)

Definition dispatch (inp : AnalysisInput) (h : Host) : outcome Host :=
  match analysis_type inp with
  | Simple => do_simple_analysis inp h
  | Search => do_search_analysis inp h
  | Portal => do_portal_analysis inp h
  end.

End Strategies.

Arguments Collaborators Eng : clear implicits.
Arguments Host Eng : clear implicits.
Arguments RunState Eng : clear implicits.

(** ** The JSON form of a result ([AnalysisOutput::toJson], 2535-2604)

    A [Wt::Json::Object] is a map from member names to values, and
    [object[name] = value] inserts or overwrites. *)

Inductive JsonValue :=
  | JInt (z : Z)
  | JFloat (x : float)
  | JString (s : string)
  | JArray (items : list JsonValue)
  | JObject (members : gmap string JsonValue).

Definition isotope_record (name type_ : string) (count_rate confidence : float)
    (confidence_str : string) : JsonValue :=
  JObject (<["confidenceStr" := JString confidence_str]>
          (<["confidence" := JFloat confidence]>
          (<["countRate" := JFloat count_rate]>
          (<["type" := JString type_]>
          (<["name" := JString name]> ∅))))).

(** The loop over the first [num_isotopes] entries of the five arrays
    (2585-2601). *)
Fixpoint isotope_records (num_isotopes : nat) (names types : list string)
    (count_rates confidences : list float) (confidence_strs : list string)
    : list JsonValue :=
  match num_isotopes, names, types, count_rates, confidences, confidence_strs with
  | S n, name :: names', type_ :: types', rate :: rates', conf :: confs', str :: strs' =>
      isotope_record name type_ rate conf str
        :: isotope_records n names' types' rates' confs' strs'
  | _, _, _, _, _, _ => []
  end.

(** A member of a JSON object, if the value is an object that has it. *)
Definition member (v : JsonValue) (name : string) : option JsonValue :=
  match v with
  | JObject members => members !! name
  | _ => None
  end.

(** The members that only a successful result carries. *)
Definition result_members : list string :=
  ["analysisWarnings"; "drf"; "stuffOfInterest"; "isotopeString"; "chi2";
   "alarmBasisDuration"; "isotopes"].

Definition toJson (r : AnalysisOutput) : gmap string JsonValue :=
  let resultjson : gmap string JsonValue :=
    <["analysisError" := JInt (gadras_analysis_error r)]> ∅ in
  let resultjson :=
    if negb (String.eqb (error_message r) "")
    then <["errorMessage" := JString (error_message r)]> resultjson
    else resultjson in
  if (gadras_intialization_error r <? 0) || (gadras_analysis_error r <? 0)
  then
    let resultjson := <["code" := JInt 6]> resultjson in
    if gadras_intialization_error r <? 0
    then <["initializationError" := JInt (gadras_intialization_error r)]> resultjson
    else resultjson
  else
    let resultjson := <["code" := JInt 0]> resultjson in
    let resultjson :=
      if negb (bool_decide (analysis_warnings r = []))
      then <["analysisWarnings" := JArray (JString <$> analysis_warnings r)]> resultjson
      else resultjson in
    let resultjson := <["drf" := JString (drf_used r)]> resultjson in
    let resultjson := <["stuffOfInterest" := JFloat (stuff_of_interest r)]> resultjson in
    let resultjson := <["isotopeString" := JString (isotopes r)]> resultjson in
    let resultjson := <["chi2" := JFloat (chi_sqr r)]> resultjson in
    let resultjson :=
      <["alarmBasisDuration" := JFloat (alarm_basis_duration r)]> resultjson in
    let num_isotopes := length (isotope_names r) in
    let num_isotopes := Nat.min num_isotopes (length (isotope_names r)) in
    let num_isotopes := Nat.min num_isotopes (length (isotope_types r)) in
    let num_isotopes := Nat.min num_isotopes (length (isotope_count_rates r)) in
    let num_isotopes := Nat.min num_isotopes (length (isotope_confidences r)) in
    let num_isotopes := Nat.min num_isotopes (length (isotope_confidence_strs r)) in
    <["isotopes" :=
        JArray (isotope_records num_isotopes (isotope_names r) (isotope_types r)
                  (isotope_count_rates r) (isotope_confidences r)
                  (isotope_confidence_strs r))]> resultjson.

(** ** Energy calibration fits ([EnergyCal.cpp]) *)

(** *** Dense matrices and vectors

    A [ublas::matrix<double>] has its two sizes and its cells; an access
    outside the sizes is a fault (an exception in a checked build, a write
    into a neighbouring cell or past the buffer otherwise).  A fresh matrix
    is given zero cells: every path that reads a cell has written it first. *)

Record matrix := {
  size1 : nat;
  size2 : nat;
  cell : nat -> nat -> double
}.

Definition matrix_new (n m : nat) : matrix :=
  {| size1 := n; size2 := m; cell := fun _ _ => F64.zero |}.

Definition matrix_set (where_ : string) (A : matrix) (row col : nat) (v : double)
    : outcome matrix :=
  if (row <? size1 A)%nat && (col <? size2 A)%nat
  then Ok {| size1 := size1 A; size2 := size2 A;
             cell := fun i j =>
               if (i =? row)%nat && (j =? col)%nat then v else cell A i j |}
  else Fault where_.

Definition matrix_get (where_ : string) (A : matrix) (row col : nat)
    : outcome double :=
  if (row <? size1 A)%nat && (col <? size2 A)%nat
  then Ok (cell A row col)
  else Fault where_.

Definition vec_set {A} (where_ : string) (v : list A) (i : nat) (x : A)
    : outcome (list A) :=
  if (i <? length v)%nat then Ok (<[i := x]> v) else Fault where_.

Definition identity_matrix (n : nat) : matrix :=
  {| size1 := n; size2 := n;
     cell := fun i j => if (i =? j)%nat then F64.one else F64.zero |}.

(** [ublas::trans] and [ublas::prod]; sums run over the index in order. *)
Definition trans (A : matrix) : matrix :=
  {| size1 := size2 A; size2 := size1 A; cell := fun i j => cell A j i |}.

Definition dot (n : nat) (f g : nat -> double) : double :=
  fold_left (fun acc k => F64.add acc (F64.mul (f k) (g k))) (seq 0 n) F64.zero.

Definition prod (A B : matrix) : matrix :=
  {| size1 := size1 A; size2 := size2 B;
     cell := fun i j => dot (size2 A) (cell A i) (fun k => cell B k j) |}.

Definition prod_vec (A : matrix) (v : list double) : list double :=
  map (fun i => dot (size2 A) (cell A i) (fun k => default F64.zero (v !! k)))
      (seq 0 (size1 A)).

(** A counted loop whose body may fail. *)
Fixpoint for_each {A S} (l : list A) (body : A -> S -> outcome S) (s : S)
    : outcome S :=
  match l with
  | [] => Ok s
  | x :: l' => s' ← body x s; for_each l' body s'
  end.

(** *** What the fits take from libraries

    [std::pow], Boost's LU routines (which work in place: they change cells,
    never sizes) and the SpecUtils calibration functions. *)
Class NumericLib := {
  pow : double -> double -> double;
  lu_factorize : matrix -> nat * (nat -> nat -> double) * list nat;
  lu_substitute : matrix -> list nat -> matrix -> nat -> nat -> double;
  correction_due_to_dev_pairs : double -> list (float * float) -> double;
  deviation_pair_correction : double -> list (float * float) -> double;
  fullrangefraction_energy :
    double -> list float -> nat -> list (float * float) -> double;
  polynomial_energy : double -> list float -> list (float * float) -> double;
  find_polynomial_channel :
    double -> list float -> nat -> list (float * float) -> double -> outcome double;
  find_fullrangefraction_channel :
    double -> list float -> nat -> list (float * float) -> double -> outcome double;
  channel_for_energy : EnergyCalibration -> double -> outcome double;
  energy_for_channel : EnergyCalibration -> double -> outcome double;
  set_polynomial :
    nat -> list float -> list (float * float) -> outcome EnergyCalibration;
  set_full_range_fraction :
    nat -> list float -> list (float * float) -> outcome EnergyCalibration;
  set_lower_channel_energy : nat -> list float -> outcome EnergyCalibration
}.

Section EnergyCal.
Context `{!NumericLib}.

(** [matrix_invert] (53-66) *)
Definition matrix_invert (input : matrix) : option matrix :=
  let '(res, cells, pm) := lu_factorize input in
  let A := {| size1 := size1 input; size2 := size2 input; cell := cells |} in
  if negb (res =? 0)%nat then None
  else
    let inverse := identity_matrix (size1 A) in
    Some {| size1 := size1 inverse; size2 := size2 inverse;
            cell := lu_substitute A pm inverse |}.

(** The normal equations shared by all fits: [alpha = A^T A], its inverse
    [C], and [a = C (A^T b)]. *)
Definition solve_normal (what : string) (A : matrix) (b : list double)
    : outcome (matrix * list double) :=
  let A_transpose := trans A in
  let alpha := prod A_transpose A in
  match matrix_invert alpha with
  | None => Throw what
  | Some C =>
      let beta := prod_vec A_transpose b in
      Ok (C, prod_vec C beta)
  end.

(** The copy of the solution into a [vector<float>] of [n] entries. *)
Definition narrow_solution (n : nat) (a : list double) : outcome (list float) :=
  for_each (seq 0 n)
    (fun coef out =>
       v ← vec_at "a(coef)" a coef;
       vec_set "coeffs[coef]" out coef (to_float v))
    (replicate n F32.zero).

(** [fit_for_poly_coefs] (70-103) *)
Definition poly_design (channels_energies : list (double * double))
    (poly_terms : nat) : outcome (matrix * list double) :=
  let npoints := length channels_energies in
  for_each (seq 0 npoints)
    (fun row '(A, b) =>
       point ← vec_at "channels_energies[row]" channels_energies row;
       b ← vec_set "b(row)" b row (snd point);
       A ← for_each (seq 0 poly_terms)
              (fun col A =>
                 matrix_set "A(row,col)" A row col
                   (pow (fst point) (F64.of_nat col)))
              A;
       Ok (A, b))
    (matrix_new npoints poly_terms, replicate npoints F64.zero).

Definition fit_for_poly_coefs (channels_energies : list (double * double))
    (poly_terms : nat) : outcome (list float) :=
  '(A, b) ← poly_design channels_energies poly_terms;
  '(_, a) ← solve_normal "fit_for_poly_coefs(...): trouble inverting matrix" A b;
  narrow_solution poly_terms a.

(** [fit_for_fullrangefraction_coefs] (106-145) *)
Definition frf_design (channels_energies : list (double * double))
    (nchannels : nat) (nterms : nat) : outcome (matrix * list double) :=
  let polyterms := Nat.min nterms 5 in
  let npoints := length channels_energies in
  for_each (seq 0 npoints)
    (fun row '(A, b) =>
       point ← vec_at "channels_energies[row]" channels_energies row;
       let x := F64.div (fst point) (F64.of_nat nchannels) in
       b ← vec_set "b(row)" b row (snd point);
       A ← for_each (seq 0 (Nat.min 4 polyterms))
              (fun col A =>
                 matrix_set "A(row,col)" A row col (pow x (F64.of_nat col)))
              A;
       A ← (if (4 <? polyterms)%nat
            then matrix_set "A(row,5)" A row 5
                   (F64.div F64.one
                      (F64.add F64.one (F64.mul (F64.of_Z 60) x)))
            else Ok A);
       Ok (A, b))
    (matrix_new npoints polyterms, replicate npoints F64.zero).

Definition fit_for_fullrangefraction_coefs
    (channels_energies : list (double * double)) (nchannels : nat) (nterms : nat)
    : outcome (list float) :=
  let polyterms := Nat.min nterms 5 in
  '(A, b) ← frf_design channels_energies nchannels nterms;
  '(_, a) ← solve_normal
              "fit_for_fullrangefraction_coefs(...): trouble inverting matrix" A b;
  narrow_solution polyterms a.

(** [poly_coef_fcn] and [frf_coef_fcn] (148-159) *)
Definition poly_coef_fcn (order : nat) (channel : double) (nchannel : nat)
    : double :=
  pow channel (F64.of_nat order).

Definition frf_coef_fcn (order : nat) (channel : double) (nchannel : nat)
    : double :=
  let x := F64.div channel (F64.of_nat nchannel) in
  if (order =? 4)%nat
  then F64.div F64.one (F64.add F64.one (F64.mul (F64.of_Z 60) x))
  else pow x (F64.of_nat order).

(** *** Fitting from peaks: [fit_energy_cal_imp] (162-267) *)

Record RecalPeakInfo := {
  peakMean : double;
  peakMeanUncert : double;
  peakMeanBinNumber : double;
  photopeakEnergy : double
}.

Definition coef_fcn : Type := nat -> double -> nat -> double.

(** The three per-peak vectors (189-195). *)
Definition mean_bin_of (peakinfos : list RecalPeakInfo) : list float :=
  map (fun p => to_float (peakMeanBinNumber p)) peakinfos.

Definition true_energies_of (peakinfos : list RecalPeakInfo) : list float :=
  map (fun p => to_float (photopeakEnergy p)) peakinfos.

Definition energy_uncerts_of (peakinfos : list RecalPeakInfo) : list float :=
  map (fun p =>
         to_float (F64.div
                     (F64.mul (to_double (to_float (photopeakEnergy p)))
                              (peakMeanUncert p))
                     (F64.max (peakMean p) F64.one)))
      peakinfos.

(** [std::count(begin(fitfor), end(fitfor), true)] *)
Definition nparsfit_of (fitfor : list bool) : nat :=
  length (filter (fun b : bool => b = true) fitfor).

(** The indices below [n] of the coefficients that are held fixed. *)
Definition fixed_indices (fitfor : list bool) (n : nat) : list nat :=
  filter (fun i => fitfor !! i = Some false) (seq 0 n).

(** One row of the design matrix and of the target vector (206-227): the
    free coefficients fill the columns from left to right, the fixed ones
    are taken off the target. *)
Definition design_row (fitfor : list bool) (nchannels : nat)
    (coefs : list float) (coeffcn : coef_fcn) (row : nat)
    (mean_bin data_y_uncert : double) (A : matrix) (data_y : double)
    : outcome (nat * matrix * double) :=
  for_each (seq 0 (length fitfor))
    (fun coef_index '(col, A, data_y) =>
       free ← vec_at "fitfor[coef_index]" fitfor coef_index;
       if free : bool
       then
         A ← matrix_set "A(row,col)" A row col
               (F64.div (coeffcn coef_index mean_bin nchannels) data_y_uncert);
         Ok (S col, A, data_y)
       else
         c ← vec_at "coefs[coef_index]" coefs coef_index;
         Ok (col, A,
             F64.sub data_y
               (F64.mul (to_double c) (coeffcn coef_index mean_bin nchannels))))
    (0%nat, A, data_y).

Definition design_system (peakinfos : list RecalPeakInfo) (fitfor : list bool)
    (nchannels : nat) (dev_pairs : list (float * float)) (coefs : list float)
    (coeffcn : coef_fcn) : outcome (matrix * list double) :=
  let npeaks := length peakinfos in
  let nparsfit := nparsfit_of fitfor in
  let mean_bin := mean_bin_of peakinfos in
  let true_energies := true_energies_of peakinfos in
  let energy_uncerts := energy_uncerts_of peakinfos in
  for_each (seq 0 npeaks)
    (fun row '(A, b) =>
       true_energy ← vec_at "true_energies[row]" true_energies row;
       energy_uncert ← vec_at "energy_uncerts[row]" energy_uncerts row;
       bin ← vec_at "mean_bin[row]" mean_bin row;
       let data_y := to_double true_energy in
       let data_y_uncert := to_double (SFabs energy_uncert) in
       let data_y :=
         F64.sub data_y
           (correction_due_to_dev_pairs (to_double true_energy) dev_pairs) in
       '(_, A, data_y) ←
         design_row fitfor nchannels coefs coeffcn row (to_double bin)
           data_y_uncert A data_y;
       b ← vec_set "b(row)" b row (F64.div data_y data_y_uncert);
       Ok (A, b))
    (matrix_new npeaks nparsfit, replicate npeaks F64.zero).

(** What a row's target is once the terms of the fixed coefficients are
    taken off the peak's energy, one after the other, and the rest is divided
    by the uncertainty. *)
Definition fixed_target (peakinfos : list RecalPeakInfo) (fitfor : list bool)
    (nchannels : nat) (dev_pairs : list (float * float)) (coefs : list float)
    (coeffcn : coef_fcn) (row : nat) : option double :=
  true_energy ← true_energies_of peakinfos !! row;
  energy_uncert ← energy_uncerts_of peakinfos !! row;
  bin ← mean_bin_of peakinfos !! row;
  Some (F64.div
          (fold_left
             (fun data_y i =>
                F64.sub data_y
                  (F64.mul (to_double (default F32.zero (coefs !! i)))
                           (coeffcn i (to_double bin) nchannels)))
             (fixed_indices fitfor (length fitfor))
             (F64.sub (to_double true_energy)
                (correction_due_to_dev_pairs (to_double true_energy) dev_pairs)))
          (to_double (SFabs energy_uncert))).

(** Whether the normal-equation matrix of a design can be inverted. *)
Definition normal_invertible (design : outcome (matrix * list double)) : bool :=
  match design with
  | Ok (A, _) =>
      match matrix_invert (prod (trans A) A) with
      | Some _ => true
      | None => false
      end
  | _ => false
  end.

(** Writing the solution back (239-254). *)
Definition store_solution (fitfor : list bool) (C : matrix) (a : list double)
    (coefs coefs_uncert : list float) : outcome (list float * list float) :=
  let coefs := vec_resize (length fitfor) F32.zero coefs in
  let coefs_uncert := vec_resize (length fitfor) F32.zero coefs_uncert in
  '(_, coefs, coefs_uncert) ←
    for_each (seq 0 (length fitfor))
      (fun coef_index '(col, coefs, coefs_uncert) =>
         free ← vec_at "fitfor[coef_index]" fitfor coef_index;
         if free : bool
         then
           v ← vec_at "a(col)" a col;
           c ← matrix_get "C(col,col)" C col col;
           coefs ← vec_set "coefs[coef_index]" coefs coef_index (to_float v);
           coefs_uncert ← vec_set "coefs_uncert[coef_index]" coefs_uncert
                            coef_index (to_float (F64.sqrt c));
           Ok (S col, coefs, coefs_uncert)
         else
           coefs_uncert ← vec_set "coefs_uncert[coef_index]" coefs_uncert
                            coef_index F32.zero;
           Ok (col, coefs, coefs_uncert))
      (0%nat, coefs, coefs_uncert);
  Ok (coefs, coefs_uncert).

(** The chi-square of the solution (256-264). *)
Definition chi2_of (peakinfos : list RecalPeakInfo) (fitfor : list bool)
    (nchannels : nat) (dev_pairs : list (float * float)) (coefs : list float)
    (coeffcn : coef_fcn) : outcome double :=
  let mean_bin := mean_bin_of peakinfos in
  let true_energies := true_energies_of peakinfos in
  let energy_uncerts := energy_uncerts_of peakinfos in
  for_each (seq 0 (length peakinfos))
    (fun bin chi2 =>
       channel ← vec_at "mean_bin[bin]" mean_bin bin;
       true_energy ← vec_at "true_energies[bin]" true_energies bin;
       energy_uncert ← vec_at "energy_uncerts[bin]" energy_uncerts bin;
       y_pred ← for_each (seq 0 (length fitfor))
                  (fun i y_pred =>
                     c ← vec_at "coefs[i]" coefs i;
                     Ok (F64.add y_pred
                           (F64.mul (to_double c)
                              (coeffcn i (to_double channel) nchannels))))
                  F64.zero;
       let y_pred := F64.add y_pred (deviation_pair_correction y_pred dev_pairs) in
       Ok (F64.add chi2
             (pow (F64.div (F64.sub y_pred (to_double true_energy))
                           (to_double energy_uncert))
                  (F64.of_Z 2))))
    F64.zero.

(** The function returns the chi-square and leaves the coefficients and
    their uncertainties in its two reference parameters. *)
Definition fit_energy_cal_imp (peakinfos : list RecalPeakInfo)
    (fitfor : list bool) (nchannels : nat) (dev_pairs : list (float * float))
    (coefs coefs_uncert : list float) (coeffcn : coef_fcn)
    : outcome (double * list float * list float) :=
  let npeaks := length peakinfos in
  let nparsfit := nparsfit_of fitfor in
  if (npeaks <? 1)%nat then Throw "Must have at least one peak"
  else if (nparsfit <? 1)%nat then Throw "Must fit for at least one coefficient"
  else if (npeaks <? nparsfit)%nat
  then Throw "Must have at least as many peaks as coefficients fitting for"
  else if negb (nparsfit =? length fitfor)%nat
          && negb (length coefs =? length fitfor)%nat
  then Throw "You must supply input coefficient when any of the coefficients are fixed"
  else
    '(A, b) ← design_system peakinfos fitfor nchannels dev_pairs coefs coeffcn;
    '(C, a) ← solve_normal "Trouble inverting least linear squares matrix" A b;
    '(coefs, coefs_uncert) ← store_solution fitfor C a coefs coefs_uncert;
    chi2 ← chi2_of peakinfos fitfor nchannels dev_pairs coefs coeffcn;
    Ok (chi2, coefs, coefs_uncert).

Definition fit_energy_cal_frf (peaks : list RecalPeakInfo) (fitfor : list bool)
    (nchannels : nat) (dev_pairs : list (float * float))
    (coefs uncert : list float) : outcome (double * list float * list float) :=
  fit_energy_cal_imp peaks fitfor nchannels dev_pairs coefs uncert frf_coef_fcn.

Definition fit_energy_cal_poly (peaks : list RecalPeakInfo) (fitfor : list bool)
    (nchannels : nat) (dev_pairs : list (float * float))
    (coefs uncert : list float) : outcome (double * list float * list float) :=
  fit_energy_cal_imp peaks fitfor nchannels dev_pairs coefs uncert poly_coef_fcn.

(** *** Fitting from channel energies:
        [fit_from_channel_energies_imp] (270-333) *)

(** The check that the energies increase (288-290). *)
Definition check_increasing (channel_energies : list float) : outcome unit :=
  for_each (seq 1 (length channel_energies - 1))
    (fun i _ =>
       prev ← vec_at "channel_energies[i-1]" channel_energies (i - 1);
       cur ← vec_at "channel_energies[i]" channel_energies i;
       if F32.leb cur prev
       then Throw "fit_from_channel_energies_imp: Input energies must be stricktly increasing"
       else Ok tt)
    tt.

(** The design matrix (297-307).  [coeffcn] is called with the row where its
    order parameter stands and the column where its channel stands. *)
Definition channel_design (ncoeffs : nat) (channel_energies : list float)
    (coeffcn : coef_fcn) : outcome (matrix * list double) :=
  let nenergies := length channel_energies in
  let nchannel := (nenergies - 1)%nat in
  for_each (seq 0 nenergies)
    (fun row '(A, b) =>
       let uncert := F64.one in
       A ← for_each (seq 0 ncoeffs)
              (fun col A =>
                 matrix_set "A(row,col)" A row col
                   (F64.div (coeffcn row (F64.of_nat col) nchannel) uncert))
              A;
       e ← vec_at "channel_energies[row]" channel_energies row;
       b ← vec_set "b(row)" b row (F64.div (to_double e) uncert);
       Ok (A, b))
    (matrix_new nenergies ncoeffs, replicate nenergies F64.zero).

(** The sum of the absolute differences (323-330). *)
Definition sum_abs_diffs (ncoeffs : nat) (channel_energies coefs : list float)
    (coeffcn : coef_fcn) : outcome double :=
  let nchannel := (length channel_energies - 1)%nat in
  for_each (seq 0 (length channel_energies))
    (fun i avrgdiffs =>
       energy ← for_each (seq 0 ncoeffs)
                  (fun col energy =>
                     c ← vec_at "coefs[col]" coefs col;
                     Ok (F64.add energy
                           (F64.mul (to_double c)
                              (coeffcn i (F64.of_nat col) nchannel))))
                  F64.zero;
       e ← vec_at "channel_energies[i]" channel_energies i;
       Ok (F64.add avrgdiffs (F64.fabs (F64.sub energy (to_double e)))))
    F64.zero.

Definition fit_from_channel_energies_imp (ncoeffs : nat)
    (channel_energies : list float) (coeffcn : coef_fcn) (coefs : list float)
    : outcome (double * list float) :=
  if (ncoeffs <? 2)%nat
  then Throw "fit_from_channel_energies_imp: You must request at least two coefficients"
  else if (6 <=? ncoeffs)%nat
  then Throw "fit_from_channel_energies_imp: You must request less than 6 coefficients"
  else
    let nenergies := length channel_energies in
    if (nenergies <=? 6)%nat
    then Throw "fit_from_channel_energies_imp: Input energies must have at least 6 entries"
    else
      check_increasing channel_energies;;
      '(A, b) ← channel_design ncoeffs channel_energies coeffcn;
      '(_, a) ← solve_normal "Trouble inverting least linear squares matrix" A b;
      let coefs := vec_resize ncoeffs F32.zero coefs in
      coefs ← for_each (seq 0 ncoeffs)
                (fun col coefs =>
                   v ← vec_at "a(col)" a col;
                   vec_set "coefs[col]" coefs col (to_float v))
                coefs;
      avrgdiffs ← sum_abs_diffs ncoeffs channel_energies coefs coeffcn;
      Ok (F64.div avrgdiffs (F64.of_nat nenergies), coefs).

Definition fit_poly_from_channel_energies (ncoeffs : nat)
    (channel_energies coefs : list float) : outcome (double * list float) :=
  fit_from_channel_energies_imp ncoeffs channel_energies poly_coef_fcn coefs.

Definition fit_full_range_fraction_from_channel_energies (ncoeffs : nat)
    (channel_energies coefs : list float) : outcome (double * list float) :=
  if (5 <=? ncoeffs)%nat
  then Throw "fit_full_range_fraction_from_channel_energies: You must request less than 5 coefficients"
  else fit_from_channel_energies_imp ncoeffs channel_energies frf_coef_fcn coefs.

(** *** Propagating a calibration change:
        [propogate_energy_cal_change] (386-567)

    [make_shared] takes the next free address [next]; the function returns
    the pointer it answers with and the next free address afterwards. *)

Definition is_lower_channel_edge (c : CalRef) : bool :=
  EnergyCalType_eqb (cal_type (cal_obj c)) LowerChannelEdge.

(** The case of [other_cal] given by lower channel energies (424-444). *)
Definition propagate_lower_channel (orig new_ other : CalRef)
    : outcome EnergyCalibration :=
  let nchannel := cal_num_channels (cal_obj other) in
  match cal_channel_energies (cal_obj other) with
  | None => Fault "*old_lower_ptr"
  | Some old_lower =>
      if (length old_lower <=? nchannel)%nat
      then Throw "EnergyCal::propogate_energy_cal_change: really unexpected programing error"
      else
        new_lower ← for_each (seq 0 (S nchannel))
          (fun i new_lower =>
             e ← vec_at "old_lower[i]" old_lower i;
             equiv_channel ← channel_for_energy (cal_obj orig) (to_double e);
             energy ← energy_for_channel (cal_obj new_) equiv_channel;
             vec_set "new_lower[i]" new_lower i (to_float energy))
          (replicate (S nchannel) F32.zero);
        set_lower_channel_energy nchannel new_lower
  end.

(** The pairs of a channel of the other detector and the energy it should
    get (461-537).  No deviation pairs are used here. *)
Definition representative_pairs (orig new_ other : CalRef) (order : nat)
    : outcome (list (double * double)) :=
  let prev_disp_coefs := cal_coefficients (cal_obj orig) in
  let new_disp_coefs := cal_coefficients (cal_obj new_) in
  let other_coeffs := cal_coefficients (cal_obj other) in
  let orig_num_channel := cal_num_channels (cal_obj orig) in
  let new_num_channel := cal_num_channels (cal_obj orig) in
  let other_num_channel := cal_num_channels (cal_obj other) in
  let accuracy := F64.lit 1 100000 in
  for_each (seq 0 order)
    (fun i channels_energies =>
       if (order - 1 =? 0)%nat then Fault "division by (order - 1)"
       else
         let display_channel :=
           F64.of_nat (((order - i - 1) * orig_num_channel) / (order - 1)) in
         let '(old_disp_energy, new_disp_energy) :=
           match cal_type (cal_obj orig) with
           | FullRangeFraction =>
               (fullrangefraction_energy display_channel prev_disp_coefs
                  orig_num_channel [],
                fullrangefraction_energy display_channel new_disp_coefs
                  new_num_channel [])
           | Polynomial | UnspecifiedUsingDefaultPolynomial =>
               (polynomial_energy display_channel prev_disp_coefs [],
                polynomial_energy display_channel new_disp_coefs [])
           | LowerChannelEdge | InvalidEquationType => (S754_nan, S754_nan)
           end in
         other_channel ←
           match cal_type (cal_obj other) with
           | Polynomial | UnspecifiedUsingDefaultPolynomial =>
               find_polynomial_channel old_disp_energy other_coeffs
                 other_num_channel [] accuracy
           | FullRangeFraction =>
               find_fullrangefraction_channel old_disp_energy other_coeffs
                 other_num_channel [] accuracy
           | LowerChannelEdge | InvalidEquationType => Ok S754_nan
           end;
         Ok (channels_energies ++ [(other_channel, new_disp_energy)]))
    [].

Definition propogate_energy_cal_change (next : positive)
    (orig_cal new_cal other_cal : cal_ptr) : outcome (CalRef * positive) :=
  match orig_cal, new_cal, other_cal with
  | Some orig, Some new_, Some other =>
      if negb (cal_valid (cal_obj orig)) || negb (cal_valid (cal_obj new_))
         || negb (cal_valid (cal_obj other))
         || is_lower_channel_edge orig || is_lower_channel_edge new_
      then Throw "EnergyCal::propogate_energy_cal_change invalid input"
      else if ptr_eqb orig_cal new_cal
      then Ok (other, next)
      else
        let answer (obj : EnergyCalibration) : CalRef * positive :=
          ({| cal_addr := next; cal_obj := obj |}, Pos.succ next) in
        if is_lower_channel_edge other
        then answer <$> propagate_lower_channel orig new_ other
        else
          let order :=
            Nat.max (length (cal_coefficients (cal_obj other)))
              (Nat.max (length (cal_coefficients (cal_obj orig)))
                       (length (cal_coefficients (cal_obj new_)))) in
          channels_energies ← representative_pairs orig new_ other order;
          let dev_pairs := cal_deviation_pairs (cal_obj other) in
          let other_num_channel := cal_num_channels (cal_obj other) in
          match cal_type (cal_obj other) with
          | Polynomial | UnspecifiedUsingDefaultPolynomial =>
              new_other_coefs ← fit_for_poly_coefs channels_energies order;
              answer <$> set_polynomial other_num_channel new_other_coefs dev_pairs
          | FullRangeFraction =>
              new_other_coefs ←
                fit_for_fullrangefraction_coefs channels_energies
                  other_num_channel order;
              answer <$> set_full_range_fraction other_num_channel
                           new_other_coefs dev_pairs
          | LowerChannelEdge | InvalidEquationType =>
              Ok (answer EnergyCalibration_new)
          end
  | _, _, _ => Throw "EnergyCal::propogate_energy_cal_change invalid input"
  end.

End EnergyCal.

(** What the loop at 288-290 tests: no entry is less than or equal to the
    one before it. *)
Fixpoint energies_increase (channel_energies : list float) : bool :=
  match channel_energies with
  | prev :: (cur :: _) as rest =>
      negb (F32.leb cur prev) && energies_increase rest
  | _ => true
  end.

(** The largest number of coefficients among the three calibrations (453). *)
Definition propagation_order (orig new_ other : CalRef) : nat :=
  Nat.max (length (cal_coefficients (cal_obj other)))
    (Nat.max (length (cal_coefficients (cal_obj orig)))
             (length (cal_coefficients (cal_obj new_)))).

(** ** Reference implementations of the libraries

    Small executable stand-ins for GADRAS, Boost and SpecUtils, so that the
    model can be run on concrete requests.  Nothing proved in general depends
    on them. *)

Module Reference.

(** A GADRAS whose return codes are scripted: every call takes the next code
    from the list, and zero when the list is used up. *)
Definition next_code (script : list Z) : Z * list Z :=
  (hd 0 script, tl script).

Definition scripted_gadras : Gadras (list Z) := {|
  InitializeIsotopeIdRaw := fun _ _ _ _ _ => next_code;
  InitializeIsotopeIdCalibrated := fun _ _ _ => next_code;
  StreamingSearch := fun _ _ => next_code
|}.

(** Collaborators that do nothing, around a callback that does [call]. *)
Definition collaborators_calling (call : nat -> AnalysisOutput -> outcome unit)
    : Collaborators (list Z) := {|
  append_path := fun a b => a +:+ "/" +:+ b;
  simple_after_init := fun _ _ _ _ => mret tt;
  search_prepare_cals := fun _ _ => mret tt;
  search_collect_window := fun _ => mret tt;
  search_summarize := fun _ => mret tt;
  portal_after_init := fun _ => mret tt;
  call_callback := call;
  server_post := fun _ _ _ => Ok tt
|}.

(** A callback that returns, and one that throws. *)
Definition plain_collaborators : Collaborators (list Z) :=
  collaborators_calling (fun _ _ => Ok tt).

Definition throwing_collaborators : Collaborators (list Z) :=
  collaborators_calling (fun _ _ => Throw "callback failed").

Definition fresh_worker (script : list Z) : Worker (list Z) :=
  {| g_gad_app_folder := "gadras_isotope_id_run_directory";
     cache := uninitialized; engine := script; calls := [] |}.

Definition fresh_host (script : list Z) (server : bool) : Host (list Z) :=
  {| worker := fresh_worker script; server_instance := server; events := [] |}.

(** [std::pow] for the exponents the fits use: small non-negative whole
    numbers. *)
Definition whole (y : double) : option nat :=
  match y with
  | S754_zero _ => Some 0%nat
  | S754_finite false m e =>
      if 0 <=? e then Some (Z.to_nat (Z.pos m * 2 ^ e))
      else if Z.pos m mod 2 ^ (- e) =? 0
      then Some (Z.to_nat (Z.pos m / 2 ^ (- e)))
      else None
  | _ => None
  end.

Fixpoint power (x : double) (n : nat) : double :=
  match n with
  | O => F64.one
  | S n' => F64.mul x (power x n')
  end.

Definition pow_whole (x y : double) : double :=
  match whole y with
  | Some n => power x n
  | None => S754_nan
  end.

(** LU factorisation with partial pivoting and the two triangular solves,
    on rows. *)
Definition rows_of (A : matrix) : list (list double) :=
  map (fun i => map (cell A i) (seq 0 (size2 A))) (seq 0 (size1 A)).

Definition cells_of (rows : list (list double)) : nat -> nat -> double :=
  fun i j => default F64.zero (rows !! i ≫= fun row => row !! j).

Definition at2 (rows : list (list double)) (i j : nat) : double :=
  cells_of rows i j.

Definition swap_rows {A} (i j : nat) (rows : list A) : list A :=
  match rows !! i, rows !! j with
  | Some ri, Some rj => <[i := rj]> (<[j := ri]> rows)
  | _, _ => rows
  end.

(** The row at or below [k] whose entry in column [k] is largest in size. *)
Definition pivot_row (k : nat) (rows : list (list double)) : nat :=
  fold_left
    (fun best i =>
       if F64.ltb (F64.fabs (at2 rows best k)) (F64.fabs (at2 rows i k))
       then i else best)
    (seq k (length rows - k)) k.

Definition lu_step (st : nat * list (list double) * list nat) (k : nat)
    : nat * list (list double) * list nat :=
  let '(singular, rows, pm) := st in
  let r := pivot_row k rows in
  let nonzero := negb (F64.eqb (at2 rows r k) F64.zero) in
  let rows := if nonzero then swap_rows k r rows else rows in
  let pm := if nonzero then <[k := r]> pm else pm in
  let singular :=
    if nonzero then singular
    else if (singular =? 0)%nat then S k else singular in
  let pivot := at2 rows k k in
  let rows :=
    imap (fun i row =>
            if (k <? i)%nat && nonzero
            then <[k := F64.div (at2 rows i k) pivot]> row else row) rows in
  let rows :=
    imap (fun i row =>
            if (k <? i)%nat
            then imap (fun j x =>
                         if (k <? j)%nat
                         then F64.sub x (F64.mul (at2 rows i k) (at2 rows k j))
                         else x) row
            else row) rows in
  (singular, rows, pm).

Definition lu_factorize_rows (A : matrix) : nat * list (list double) * list nat :=
  fold_left lu_step (seq 0 (Nat.min (size1 A) (size2 A)))
    (0%nat, rows_of A, seq 0 (size1 A)).

Definition row_sub (x y : list double) (f : double) : list double :=
  zip_with (fun a b => F64.sub a (F64.mul f b)) x y.

Definition forward_solve (lu x : list (list double)) : list (list double) :=
  fold_left
    (fun x i =>
       let xi :=
         fold_left (fun acc j => row_sub acc (default [] (x !! j)) (at2 lu i j))
                   (seq 0 i) (default [] (x !! i)) in
       <[i := xi]> x)
    (seq 0 (length x)) x.

Definition backward_solve (lu x : list (list double)) : list (list double) :=
  let n := length x in
  fold_left
    (fun x i =>
       let xi :=
         fold_left (fun acc j => row_sub acc (default [] (x !! j)) (at2 lu i j))
                   (seq (S i) (n - S i)) (default [] (x !! i)) in
       <[i := map (fun v => F64.div v (at2 lu i i)) xi]> x)
    (rev (seq 0 n)) x.

Definition lu_substitute_rows (A : matrix) (pm : list nat) (X : matrix)
    : list (list double) :=
  let x :=
    fold_left (fun x i => swap_rows i (default i (pm !! i)) x)
              (seq 0 (length pm)) (rows_of X) in
  backward_solve (rows_of A) (forward_solve (rows_of A) x).

(** Calibration functions without deviation pairs. *)
Definition eval_terms (coefs : list float) (term : nat -> double) : double :=
  fold_left (fun acc i =>
               F64.add acc (F64.mul (to_double (default F32.zero (coefs !! i)))
                                    (term i)))
            (seq 0 (length coefs)) F64.zero.

Definition poly_energy (channel : double) (coefs : list float) : double :=
  eval_terms coefs (fun i => power channel i).

Definition frf_energy (channel : double) (coefs : list float) (nchannel : nat)
    : double :=
  let x := F64.div channel (F64.of_nat nchannel) in
  eval_terms coefs (fun i =>
    if (i =? 4)%nat
    then F64.div F64.one (F64.add F64.one (F64.mul (F64.of_Z 60) x))
    else power x i).

(** Channel for an energy, from the offset and gain alone. *)
Definition linear_channel (energy : double) (coefs : list float) (scale : double)
    : outcome double :=
  match coefs with
  | c0 :: c1 :: _ =>
      Ok (F64.mul scale (F64.div (F64.sub energy (to_double c0)) (to_double c1)))
  | _ => Throw "calibration has fewer than two coefficients"
  end.

Definition make_cal (t : EnergyCalType) (nchannel : nat) (coefs : list float)
    (devs : list (float * float)) (energy : double -> double)
    : outcome EnergyCalibration :=
  if (length coefs <? 2)%nat then Throw "too few coefficients"
  else
    let energies := map (fun i => to_float (energy (F64.of_nat i))) (seq 0 (S nchannel)) in
    Ok {| cal_type := t; cal_valid := true; cal_num_channels := nchannel;
          cal_coefficients := coefs; cal_deviation_pairs := devs;
          cal_channel_energies := Some energies;
          cal_lower_energy := default F32.zero (head energies);
          cal_upper_energy := default F32.zero (last energies) |}.

Definition cal_energy (c : EnergyCalibration) (channel : double) : double :=
  match cal_type c with
  | FullRangeFraction => frf_energy channel (cal_coefficients c) (cal_num_channels c)
  | _ => poly_energy channel (cal_coefficients c)
  end.

Definition reference_numerics : NumericLib := {|
  pow := pow_whole;
  lu_factorize := fun A =>
    let '(singular, rows, pm) := lu_factorize_rows A in
    (singular, cells_of rows, pm);
  lu_substitute := fun A pm X => cells_of (lu_substitute_rows A pm X);
  correction_due_to_dev_pairs := fun _ _ => F64.zero;
  deviation_pair_correction := fun _ _ => F64.zero;
  fullrangefraction_energy := fun channel coefs nchannel _ =>
    frf_energy channel coefs nchannel;
  polynomial_energy := fun channel coefs _ => poly_energy channel coefs;
  find_polynomial_channel := fun energy coefs _ _ _ =>
    linear_channel energy coefs F64.one;
  find_fullrangefraction_channel := fun energy coefs nchannel _ _ =>
    linear_channel energy coefs (F64.of_nat nchannel);
  channel_for_energy := fun c energy =>
    linear_channel energy (cal_coefficients c)
      (match cal_type c with
       | FullRangeFraction => F64.of_nat (cal_num_channels c)
       | _ => F64.one
       end);
  energy_for_channel := fun c channel => Ok (cal_energy c channel);
  set_polynomial := fun nchannel coefs devs =>
    make_cal Polynomial nchannel coefs devs (fun ch => poly_energy ch coefs);
  set_full_range_fraction := fun nchannel coefs devs =>
    make_cal FullRangeFraction nchannel coefs devs
      (fun ch => frf_energy ch coefs nchannel);
  set_lower_channel_energy := fun nchannel energies =>
    Ok {| cal_type := LowerChannelEdge; cal_valid := true;
          cal_num_channels := nchannel; cal_coefficients := [];
          cal_deviation_pairs := [];
          cal_channel_energies := Some energies;
          cal_lower_energy := default F32.zero (head energies);
          cal_upper_energy := default F32.zero (last energies) |}
|}.

End Reference.

(** ** Concrete requests

    The scenarios of the specification and a few small inputs, as data. *)

Module Scenarios.

(** A polynomial calibration of 1024 channels, 3 keV per channel. *)
Definition cal_3keV : EnergyCalibration :=
  {| cal_type := Polynomial; cal_valid := true; cal_num_channels := 1024;
     cal_coefficients := [F32.zero; F32.of_Z 3]; cal_deviation_pairs := [];
     cal_channel_energies := None;
     cal_lower_energy := F32.zero; cal_upper_energy := F32.of_Z 3072 |}.

Definition cal_at (addr : positive) : CalRef :=
  {| cal_addr := addr; cal_obj := cal_3keV |}.

(** A measurement of detector "A". *)
Definition spectrum (sample : Z) (type_ : SourceType) (seconds : float)
    : Measurement :=
  {| sample_number := sample; detector_name := "A"; source_type := type_;
     occupied := UnknownOccupancy; real_time := seconds; live_time := seconds;
     num_gamma_channels := 1024; contained_neutron := false;
     energy_calibration := Some (cal_at 1) |}.

Definition file_of (ms : list Measurement) (samples : list Z) : SpecFile :=
  {| measurements := ms; file_num_gamma_channels := 1024;
     sample_numbers := samples; detector_names := ["A"] |}.

Definition request (type_ : AnalysisType) (session : string)
    (file : option SpecFile) : AnalysisInput :=
  {| in_ana_number := 1; wt_app_id := session; drf_folder := "GR135";
     input_warnings := []; analysis_type := type_; input := file;
     callback := Some 7%nat |}.

(** One foreground of 100 s and one background of 300 s. *)
Definition foreground_and_background : SpecFile :=
  file_of [spectrum 1 Foreground (F32.of_Z 100);
           spectrum 2 Background (F32.of_Z 300)] [1; 2].

(** Three foregrounds: one measurement too many for simple analysis. *)
Definition three_foregrounds : SpecFile :=
  file_of [spectrum 1 Foreground (F32.of_Z 100);
           spectrum 2 Foreground (F32.of_Z 100);
           spectrum 3 Foreground (F32.of_Z 100)] [1; 2; 3].

(** Scenario C: sample 1 is a background of 120 s, samples 2 to 10 are
    foregrounds of 0.1 s each. *)
Definition scenario_C : SpecFile :=
  file_of (spectrum 1 Background (F32.of_Z 120)
           :: map (fun s => spectrum s Foreground (F32.lit 1 10))
                  [2; 3; 4; 5; 6; 7; 8; 9; 10])
          [1; 2; 3; 4; 5; 6; 7; 8; 9; 10].

(** The same detector after a gain change to 3.01 keV per channel. *)
Definition cal_new_gain : CalRef :=
  {| cal_addr := 2;
     cal_obj :=
       {| cal_type := Polynomial; cal_valid := true; cal_num_channels := 1024;
          cal_coefficients := [F32.zero; F32.lit 301 100];
          cal_deviation_pairs := []; cal_channel_energies := None;
          cal_lower_energy := F32.zero;
          cal_upper_energy := F32.lit 308224 100 |} |}.

(** A second detector with a full-range-fraction calibration of five
    coefficients. *)
Definition cal_frf_five : CalRef :=
  {| cal_addr := 3;
     cal_obj :=
       {| cal_type := FullRangeFraction; cal_valid := true;
          cal_num_channels := 1024;
          cal_coefficients :=
            [F32.zero; F32.of_Z 3072; F32.zero; F32.zero; F32.zero];
          cal_deviation_pairs := []; cal_channel_energies := None;
          cal_lower_energy := F32.zero; cal_upper_energy := F32.of_Z 3072 |} |}.

(** Five points on a line of 3 keV per channel. *)
Definition five_points : list (double * double) :=
  map (fun i => (F64.of_Z (200 * i), F64.of_Z (600 * i))) [0; 1; 2; 3; 4].

(** Scenario B: one peak found at channel 500 that belongs at 661 keV. *)
Definition peak_B : RecalPeakInfo :=
  {| peakMean := F64.of_Z 500; peakMeanUncert := F64.one;
     peakMeanBinNumber := F64.of_Z 500; photopeakEnergy := F64.of_Z 661 |}.

(** Seven lower channel energies, 0 to 6 keV. *)
Definition seven_energies : list float := map F32.of_Z [0; 1; 2; 3; 4; 5; 6].

End Scenarios.

(** ** More of [Analysis.cpp] *)

(** [gadras_version_string] (2507-2514); [/] and [%] on [int32_t] truncate
    toward zero. *)
Definition gadras_version_string (vrsn : Z) : string :=
  pretty (Z.quot vrsn 10000) +:+ "."
  +:+ pretty (Z.quot (Z.rem vrsn 10000) 100) +:+ "."
  +:+ pretty (Z.rem vrsn 100).

(** *** The request queue (2800-2825, 2089-2148)

    [g_keep_analyzing], [g_simple_ana_queue] and whether [g_analysis_thread]
    holds a thread. *)
Record AnalysisQueue := {
  g_keep_analyzing : bool;
  g_simple_ana_queue : list AnalysisInput;
  g_analysis_thread : bool
}.

Definition post_analysis (input : AnalysisInput) : Ana AnalysisQueue unit :=
  fun q =>
    if negb (g_keep_analyzing q)
    then (Throw "post_analysis(): Analysis thread not currently running", q)
    else (Ok tt, {| g_keep_analyzing := g_keep_analyzing q;
                    g_simple_ana_queue := g_simple_ana_queue q ++ [input];
                    g_analysis_thread := g_analysis_thread q |}).

Definition analysis_queue_length (q : AnalysisQueue) : nat :=
  length (g_simple_ana_queue q).

Section AnalysisThread.
Context {Eng : Type} `{!Gadras Eng} `{!Collaborators Eng}.

(** One turn of the loop of [do_analysis] (2091-2143) once the thread is
    woken: [None] when the loop is left before waiting; otherwise the queue is
    copied and cleared under the lock, and the copied requests are dispatched
    one after the other. *)
Definition do_analysis_turn (q : AnalysisQueue) (h : Host Eng)
    : option (AnalysisQueue * outcome (Host Eng)) :=
  if negb (g_keep_analyzing q) && bool_decide (g_simple_ana_queue q = [])
  then None
  else
    let ana_to_do := g_simple_ana_queue q in
    let q := {| g_keep_analyzing := g_keep_analyzing q;
                g_simple_ana_queue := [];
                g_analysis_thread := g_analysis_thread q |} in
    Some (q, for_each ana_to_do dispatch h).

End AnalysisThread.

(** *** The energy-calibration check of the simple analysis (635-661)

    The fit that moves the K40 peak found at [centroid_K40] to 1460.75 keV:
    every entry of [fitfor] is false except the one of the linear
    coefficient. *)
Section K40.
Context `{!NumericLib}.

Definition true_k40_energy : float := F32.lit 146075 100.

Definition k40_gain_fit (forecal : EnergyCalibration) (nchannel : nat)
    (centroid_K40 : float) : outcome (double * list float * list float) :=
  bin ← channel_for_energy forecal (to_double centroid_K40);
  let peak := {| peakMean := to_double centroid_K40;
                 peakMeanUncert := F64.one;
                 peakMeanBinNumber := bin;
                 photopeakEnergy := to_double true_k40_energy |} in
  let ncoefs := length (cal_coefficients forecal) in
  fitfor ← vec_set "fitfor[1]" (replicate ncoefs false) 1 true;
  let coefs := cal_coefficients forecal in
  let coefs_uncert := replicate ncoefs F32.zero in
  let devpairs := cal_deviation_pairs forecal in
  if EnergyCalType_eqb (cal_type forecal) FullRangeFraction
  then fit_energy_cal_frf [peak] fitfor nchannel devpairs coefs coefs_uncert
  else fit_energy_cal_poly [peak] fitfor nchannel devpairs coefs coefs_uncert.

End K40.

(** ** Building the analysis input ([AnalysisFromFiles.cpp]) *)

#[global] Instance SourceType_eq_dec : EqDecision SourceType.
Proof. solve_decision. Defined.

#[global] Instance OccupancyStatus_eq_dec : EqDecision OccupancyStatus.
Proof. solve_decision. Defined.

Module SpecClassType.
Inductive t :=
  | Unknown
  | Foreground
  | Background
  | SuspectForeground
  | SuspectBackground
  | ForegroundAndBackground.
End SpecClassType.

#[global] Instance SpecClassType_eq_dec : EqDecision SpecClassType.t.
Proof. solve_decision. Defined.

(** *** [is_portal_data] (945-975) *)

Definition portal_background (m : Measurement) : bool :=
  (32 <=? num_gamma_channels m)%nat
  && F32.leb (F32.of_Z 30) (real_time m)
  && (bool_decide (source_type m = Background)
      || bool_decide (occupied m = NotOccupied)).

Definition portal_foreground (m : Measurement) : bool :=
  (32 <=? num_gamma_channels m)%nat
  && F32.leb (real_time m) (F32.of_Z 2)
  && (bool_decide (source_type m = Foreground)
      || bool_decide (source_type m = Unknown)
      || bool_decide (occupied m = Occupied)).

Definition portal_found (foregroundSamples backgroundSamples : gset Z) : bool :=
  negb (bool_decide (backgroundSamples = ∅))
  && (3 <=? size foregroundSamples)%nat.

(** The loop over the measurements, with its [break]. *)
Fixpoint portal_scan (ms : list Measurement)
    (foregroundSamples backgroundSamples : gset Z) : gset Z * gset Z :=
  match ms with
  | [] => (foregroundSamples, backgroundSamples)
  | m :: rest =>
      let backgroundSamples :=
        if portal_background m
        then {[sample_number m]} ∪ backgroundSamples
        else backgroundSamples in
      let foregroundSamples :=
        if portal_foreground m
        then {[sample_number m]} ∪ foregroundSamples
        else foregroundSamples in
      if portal_found foregroundSamples backgroundSamples
      then (foregroundSamples, backgroundSamples)
      else portal_scan rest foregroundSamples backgroundSamples
  end.

Definition is_portal_data (inputspec : option SpecFile) : bool :=
  match inputspec with
  | None => false
  | Some f =>
      let '(foregroundSamples, backgroundSamples) :=
        portal_scan (measurements f) ∅ ∅ in
      portal_found foregroundSamples backgroundSamples
  end.

(** *** [get_derived_measurements] (843-912)

    What the function reads of a measurement besides the fields of
    [Measurement]: whether [derived_data_properties()] is non-zero and three
    of its bits.  The two output sets hold [shared_ptr]s; a pointer is named
    by the position of its measurement in [measurements()]. *)
Record DerivedDataProperties := {
  derived_nonzero : bool;
  ItemOfInterestSum : bool;
  ProcessedFurther : bool;
  BackgroundSubtracted : bool
}.

(** What makes a measurement a candidate of [get_derived_measurements]
    (857-868). *)
Definition derived_candidate (x : Measurement * DerivedDataProperties) : Prop :=
  derived_nonzero x.2 = true /\ (32 <= num_gamma_channels x.1)%nat
  /\ BackgroundSubtracted x.2 = false /\ ProcessedFurther x.2 = false.

Definition derived_step (acc : gset nat * gset nat)
    (im : nat * (Measurement * DerivedDataProperties)) : gset nat * gset nat :=
  let '(foreground, background) := acc in
  let '(i, (m, properties)) := im in
  if negb (derived_nonzero properties) || (num_gamma_channels m <? 32)%nat
  then acc
  else if BackgroundSubtracted properties || ProcessedFurther properties
  then acc
  else
    match source_type m with
    | Foreground => ({[i]} ∪ foreground, background)
    | Background => (foreground, {[i]} ∪ background)
    | Unknown =>
        if ItemOfInterestSum properties && bool_decide (foreground = ∅)
        then ({[i]} ∪ foreground, background)
        else acc
    | IntrinsicActivity | Calibration => acc
    end.

(** The body of the [try] block: the loop and the four checks. *)
Definition derived_try (ms : list (Measurement * DerivedDataProperties))
    : outcome (gset nat * gset nat) :=
  let '(foreground, background) :=
    fold_left derived_step (imap pair ms) (∅, ∅) in
  if (1 <? size foreground)%nat then Throw "Multiple foreground"
  else if (1 <? size background)%nat then Throw "Multiple background"
  else if bool_decide (foreground = ∅) then Throw "No foreground in derived data"
  else if bool_decide (background = ∅) then Throw "No background in derived data"
  else Ok (foreground, background).

Definition get_derived_measurements
    (spec : option (list (Measurement * DerivedDataProperties)))
    : gset nat * gset nat :=
  match spec with
  | None => (∅, ∅)
  | Some ms =>
      match derived_try ms with
      | Ok sets => sets
      | _ => (∅, ∅)
      end
  end.

(** *** [create_input] with two files (598-741) *)

(** The clean-up of the two types (626-643). *)
Definition cleanup_types (type1 type2 : SpecClassType.t)
    : SpecClassType.t * SpecClassType.t :=
  if bool_decide (type1 = type2)
  then (SpecClassType.Unknown, SpecClassType.Unknown)
  else if bool_decide (type1 = SpecClassType.Foreground)
          || bool_decide (type1 = SpecClassType.Background)
  then (type1,
        if bool_decide (type1 = SpecClassType.Foreground)
        then SpecClassType.Background else SpecClassType.Foreground)
  else if bool_decide (type2 = SpecClassType.Foreground)
          || bool_decide (type2 = SpecClassType.Background)
  then (if bool_decide (type2 = SpecClassType.Foreground)
        then SpecClassType.Background else SpecClassType.Foreground,
        type2)
  else if bool_decide (type1 = SpecClassType.Unknown)
          && (bool_decide (type2 = SpecClassType.SuspectForeground)
              || bool_decide (type2 = SpecClassType.SuspectBackground))
  then (if bool_decide (type2 = SpecClassType.SuspectForeground)
        then SpecClassType.SuspectBackground
        else SpecClassType.SuspectForeground,
        type2)
  else if bool_decide (type2 = SpecClassType.Unknown)
          && (bool_decide (type1 = SpecClassType.SuspectForeground)
              || bool_decide (type1 = SpecClassType.SuspectBackground))
  then (type1,
        if bool_decide (type1 = SpecClassType.SuspectForeground)
        then SpecClassType.SuspectBackground
        else SpecClassType.SuspectForeground)
  else (type1, type2).

(** The three pairs that the [assert] at 652 allows. *)
Definition types_cleaned (type1 type2 : SpecClassType.t) : bool :=
  bool_decide (type1 = SpecClassType.Unknown)
  && bool_decide (type2 = SpecClassType.Unknown)
  || bool_decide (type1 = SpecClassType.Foreground)
     && bool_decide (type2 = SpecClassType.Background)
  || bool_decide (type1 = SpecClassType.SuspectForeground)
     && bool_decide (type2 = SpecClassType.SuspectBackground).

(** [filter_types_out] (351-359) and [source_types] (613-618); a
    [std::set<SourceType>] is written as the list of its members in the
    order of the enumeration. *)
Definition filter_types_out (unwanted : list SourceType)
    (ms : list Measurement) : list Measurement :=
  List.filter (fun m => negb (bool_decide (source_type m ∈ unwanted))) ms.

Definition source_types (ms : list Measurement) : list SourceType :=
  List.filter (fun t => bool_decide (t ∈ map source_type ms))
    [IntrinsicActivity; Calibration; Background; Foreground; Unknown].

(** [filter_source_types] (661-684) *)
Definition filter_source_types (ms : list Measurement)
    : outcome (list Measurement) :=
  let src_types := source_types ms in
  let '(ms, src_types) :=
    if (1 <? length src_types)%nat
    then let ms := filter_types_out [Background] ms in (ms, source_types ms)
    else (ms, src_types) in
  let '(ms, src_types) :=
    if (1 <? length src_types)%nat
    then let ms := filter_types_out [Unknown] ms in (ms, source_types ms)
    else (ms, src_types) in
  if negb (length src_types =? 1)%nat
  then Throw "Error filtering measurement types in spectrum file."
  else Ok ms.

(** A file without intrinsic-activity and calibration measurements, as the
    two files are after the first [filter_types_out] (361-373). *)
Definition no_unwanted (l : list Measurement) : Prop :=
  forall m, In m l ->
    source_type m = Background \/ source_type m = Foreground
    \/ source_type m = Unknown.

(** The source type the comment at 659-660 says is preferred: foreground,
    then unknown, then background. *)
Definition preferred_type (ms : list Measurement) : SourceType :=
  if bool_decide (Foreground ∈ map source_type ms) then Foreground
  else if bool_decide (Unknown ∈ map source_type ms) then Unknown
  else Background.

Section CreateInput.
(** Accessors of [SpecFile] that SpecUtils computes from the measurements a
    file holds. *)
Variable passthrough : list Measurement -> bool.
Variable num_samples : list Measurement -> nat.
Variable gamma_live_time : list Measurement -> float.
Variable gamma_count_sum : list Measurement -> double.
(** [Measurement::gamma_count_sum()] *)
Variable meas_gamma_count_sum : Measurement -> double.

(** The two count rates (692-701): counts per live time when both files
    have a live time, the counts themselves otherwise. *)
Definition count_rates (file1 file2 : list Measurement) : double * double :=
  if F32.ltb F32.zero (gamma_live_time file1)
     && F32.ltb F32.zero (gamma_live_time file2)
  then (F64.div (gamma_count_sum file1) (to_double (gamma_live_time file1)),
        F64.div (gamma_count_sum file2) (to_double (gamma_live_time file2)))
  else (gamma_count_sum file1, gamma_count_sum file2).

(** The two files from the check for portal data to the choice of the
    foreground (598-741); a file is given by its measurements.  The answer
    is the foreground file and the background file, as [file1] and [file2]
    are when the code goes on. *)
Definition choose_foreground_file (file1 file2 : list Measurement)
    (type1 type2 : SpecClassType.t)
    : outcome (list Measurement * list Measurement) :=
  if passthrough file1 || passthrough file2
  then Throw "One or both spectrum files are portal/search; not supported when multiple files are specified."
  else if bool_decide (type1 = SpecClassType.ForegroundAndBackground)
          || bool_decide (type2 = SpecClassType.ForegroundAndBackground)
  then Throw "A spectrum file was specified as foreground and background, but more than one spectrum file specified."
  else if bool_decide (file1 = []) || bool_decide (file2 = [])
  then Throw "Spectrum file didnt contain expected measurement types."
  else
    let '(type1, type2) := cleanup_types type1 type2 in
    let '(file1, file2, type1, type2) :=
      if bool_decide (type1 = SpecClassType.Background)
         || bool_decide (type1 = SpecClassType.SuspectBackground)
      then (file2, file1, type2, type1)
      else (file1, file2, type1, type2) in
    if negb (types_cleaned type1 type2)
    then Fault "assert( type1, type2 )"
    else
      file1 ← filter_source_types file1;
      file2 ← filter_source_types file2;
      if negb (num_samples file1 =? 1)%nat || negb (num_samples file2 =? 1)%nat
      then Throw "Could not unambiguously select sample in spectrum file to use for measurement."
      else
        let '(cps1, cps2) := count_rates file1 file2 in
        if bool_decide (type1 = SpecClassType.Unknown)
           && bool_decide (type2 = SpecClassType.Unknown)
        then
          if F64.ltb (F64.mul (F64.lit 75 100) cps2) cps1
             && F64.ltb (F64.mul (F64.lit 75 100) cps1) cps2
          then Throw "Could not unambiguously determine foreground and background  spectrum files; the two spectrums are about same cps."
          else if F64.ltb cps1 cps2 then Ok (file2, file1)
          else Ok (file1, file2)
        else if bool_decide (type1 = SpecClassType.Foreground)
                && bool_decide (type2 = SpecClassType.Background)
        then Ok (file1, file2)
        else if bool_decide (type1 = SpecClassType.SuspectForeground)
                && bool_decide (type2 = SpecClassType.SuspectBackground)
        then
          if F64.ltb (F64.mul (F64.lit 90 100) cps1) cps2
             && F64.leb cps2 (F64.mul (F64.lit 125 100) cps1)
          then Throw "Could not unambiguously determine foreground from background; the two spectrums are about same cps."
          else if F64.ltb (F64.mul (F64.lit 125 100) cps1) cps2
          then Ok (file2, file1)
          else Ok (file1, file2)
        else Throw "Logic error in figuring out which file is foreground and background".

(** *** [create_input] with one file (438-596) *)

(** What the inner loop finds in one sample (461-482): the largest channel
    count, the summed counts and live time of the measurements with
    channels, and which source types occur. *)
Record SampleScan := {
  scan_nchannel : nat;
  scan_sum : double;
  scan_livetime : double;
  scan_back : bool;
  scan_unwanted : bool;
  scan_fore : bool;
  scan_unknown : bool
}.

Definition scan_sample (ms : list Measurement) : SampleScan :=
  fold_left
    (fun s m =>
       let '(sum, livetime) :=
         if negb (num_gamma_channels m =? 0)%nat
         then (F64.add (scan_sum s) (meas_gamma_count_sum m),
               F64.add (scan_livetime s) (to_double (live_time m)))
         else (scan_sum s, scan_livetime s) in
       {| scan_nchannel := Nat.max (scan_nchannel s) (num_gamma_channels m);
          scan_sum := sum; scan_livetime := livetime;
          scan_back := scan_back s || bool_decide (source_type m = Background);
          scan_unwanted :=
            scan_unwanted s
            || bool_decide (source_type m = IntrinsicActivity)
            || bool_decide (source_type m = Calibration);
          scan_fore := scan_fore s || bool_decide (source_type m = Foreground);
          scan_unknown :=
            scan_unknown s || bool_decide (source_type m = Unknown) |})
    ms
    {| scan_nchannel := 0; scan_sum := F64.zero; scan_livetime := F64.zero;
       scan_back := false; scan_unwanted := false; scan_fore := false;
       scan_unknown := false |}.

(** The locals of the loop over the samples. *)
Record SampleSets := {
  sample_cps : gmap Z double;
  foreground_samples : gset Z;
  background_samples_ : gset Z;
  unknown_samples : gset Z
}.

Definition sort_sample (file1 : SpecFile) (sample : Z) (sets : SampleSets)
    : outcome SampleSets :=
  let s := scan_sample (sample_measurements file1 sample) in
  let cps :=
    F64.div (scan_sum s)
      (if F64.leb (scan_livetime s) F64.zero then F64.one
       else scan_livetime s) in
  let sample_cps := <[sample := cps]> (sample_cps sets) in
  let with_cps (fore back unk : gset Z) : SampleSets :=
    {| sample_cps := sample_cps; foreground_samples := fore;
       background_samples_ := back; unknown_samples := unk |} in
  let unchanged :=
    with_cps (foreground_samples sets) (background_samples_ sets)
      (unknown_samples sets) in
  if (scan_nchannel s =? 0)%nat then Ok unchanged
  else
    let kinds :=
      (Nat.b2n (scan_back s) + Nat.b2n (scan_unwanted s)
       + Nat.b2n (scan_fore s) + Nat.b2n (scan_unknown s))%nat in
    if (1 <? kinds)%nat
    then Throw "Could not definitively determine measurement type of all samples in spectrum file."
    else if (kinds =? 0)%nat
    then Throw "Error interpreting sample type in spectrum file."
    else if scan_unwanted s then Ok unchanged
    else if scan_back s
    then Ok (with_cps (foreground_samples sets)
               ({[sample]} ∪ background_samples_ sets) (unknown_samples sets))
    else if scan_fore s
    then Ok (with_cps ({[sample]} ∪ foreground_samples sets)
               (background_samples_ sets) (unknown_samples sets))
    else if scan_unknown s
    then Ok (with_cps (foreground_samples sets) (background_samples_ sets)
               ({[sample]} ∪ unknown_samples sets))
    else Ok unchanged.

(** What the loop over the samples keeps true of its three sets: their
    members are sample numbers of the file, sorted by the source types found
    in the sample. *)
Definition sets_sorted (file1 : SpecFile) (sets : SampleSets) : Prop :=
  (forall x, x ∈ background_samples_ sets ->
     x ∈ sample_numbers file1
     /\ scan_back (scan_sample (sample_measurements file1 x)) = true
     /\ scan_fore (scan_sample (sample_measurements file1 x)) = false)
  /\ (forall x, x ∈ foreground_samples sets ->
        x ∈ sample_numbers file1
        /\ scan_back (scan_sample (sample_measurements file1 x)) = false
        /\ scan_fore (scan_sample (sample_measurements file1 x)) = true)
  /\ (forall x, x ∈ unknown_samples sets ->
        x ∈ sample_numbers file1
        /\ scan_back (scan_sample (sample_measurements file1 x)) = false
        /\ scan_fore (scan_sample (sample_measurements file1 x)) = false).

(** [*begin(s)] and [*s.rbegin()] of a [std::set<int>]; the code reads them
    from sets it has found to be non-empty. *)
Definition set_begin (s : gset Z) : Z := default 0 (head (in_order s)).
Definition set_rbegin (s : gset Z) : Z := default 0 (last (in_order s)).

(** The choice of the two samples (511-569). *)
Definition pick_samples (file1 : SpecFile) (sets : SampleSets)
    : outcome (Z * Z) :=
  let nfore := size (foreground_samples sets) in
  let nback := size (background_samples_ sets) in
  let nunk := size (unknown_samples sets) in
  let ntotal_samples := (nback + nfore + nunk)%nat in
  (* [ntotal_samples < 0] on a [size_t] is never true *)
  if (ntotal_samples =? 1)%nat then Throw "No background provided"
  else if (1 <? nfore)%nat
  then Throw "More than one foreground sample in spectrum file."
  else if (1 <? nback)%nat
  then Throw "More than one background sample in spectrum file."
  else
    picked ←
      (if (nfore =? 1)%nat && (nback =? 1)%nat
       then Ok (set_begin (foreground_samples sets),
                set_begin (background_samples_ sets))
       else if (nfore =? 1)%nat && (nunk =? 1)%nat
       then Ok (set_begin (foreground_samples sets),
                set_begin (unknown_samples sets))
       else if (nunk =? 1)%nat && (nback =? 1)%nat && (nfore =? 0)%nat
       then Ok (set_begin (unknown_samples sets),
                set_begin (background_samples_ sets))
       else if (nfore =? 0)%nat && (nback =? 0)%nat && (nunk =? 2)%nat
       then
         let sample1 := set_begin (unknown_samples sets) in
         let sample2 := set_rbegin (unknown_samples sets) in
         let cps1 := default F64.zero (sample_cps sets !! sample1) in
         let cps2 := default F64.zero (sample_cps sets !! sample2) in
         if F64.ltb (F64.mul (F64.lit 75 100) cps2) cps1
            && F64.ltb (F64.mul (F64.lit 75 100) cps1) cps2
         then Throw "Could not unambiguously determine foreground and background samples in spectrum file; the two candidate spectrums are about same counts."
         else Ok (if F64.ltb cps2 cps1 then sample1 else sample2,
                  if F64.ltb cps2 cps1 then sample2 else sample1)
       else Throw "Could not unambiguously determine foreground and background samples in spectrum file.");
    let '(fore_sample, back_sample) := picked in
    if negb (bool_decide (fore_sample ∈ sample_numbers file1))
       || negb (bool_decide (back_sample ∈ sample_numbers file1))
       || (fore_sample =? back_sample)
    then Throw "Error determining foreground/background sample numbers."
    else Ok (fore_sample, back_sample).

(** From the check of the input's type to the two sample numbers. *)
Definition single_file_samples (file1 : SpecFile) (type1 : SpecClassType.t)
    : outcome (Z * Z) :=
  if bool_decide (type1 = SpecClassType.Background)
  then Throw "Only one file was provided, and it was specified as background."
  else
    sets ← for_each (sample_numbers file1) (sort_sample file1)
             {| sample_cps := ∅; foreground_samples := ∅;
                background_samples_ := ∅; unknown_samples := ∅ |};
    pick_samples file1 sets.

End CreateInput.

(** ** The inputs of the command line ([CommandLineAna.cpp], 144-240)

    The function either goes on, or writes a message to [cerr] and returns
    [EXIT_FAILURE]; its [assert]s are kept as a third outcome. *)
Inductive CliStep (A : Type) : Type :=
  | Proceed (a : A)
  | ExitFailure (message : string)
  | AssertFails (what : string).
Arguments Proceed {A} a.
Arguments ExitFailure {A} message.
Arguments AssertFails {A} what.

(** An input of [create_input]: the type, the path and the name of a
    file. *)
Definition Input : Type := SpecClassType.t * string * string.

Record CommandLine := {
  (** the value of [--foreground], when the option is given *)
  foreground_option : option string;
  background_option : option string;
  (** the positional [spectrum-file] values *)
  positional_spec_files : list string;
  drf_option : string
}.

Definition fore_path (cl : CommandLine) : string :=
  default "" (foreground_option cl).

Definition back_path (cl : CommandLine) : string :=
  default "" (background_option cl).

Section CommandLineInputs.
(** [SpecUtils::is_file] *)
Variable is_file : string -> bool.

Definition nonempty (s : string) : bool := negb (String.eqb s "").

(** The checks of the files named (144-189). *)
Definition check_files (cl : CommandLine) : CliStep unit :=
  let positional := positional_spec_files cl in
  if negb (bool_decide (positional = [])) || nonempty (fore_path cl)
     || nonempty (back_path cl) || nonempty (drf_option cl)
  then
    if negb (bool_decide (is_Some (foreground_option cl)))
       && bool_decide (positional = [])
    then ExitFailure "No foreground spectrum file was specified"
    else
      let nfiles :=
        (length positional + Nat.b2n (nonempty (fore_path cl))
         + Nat.b2n (nonempty (back_path cl)))%nat in
      if (nfiles =? 0)%nat
      then ExitFailure "No input spectrum files specified on the command line."
      else if (2 <? nfiles)%nat
      then ExitFailure "You can only specify a maximum of two spectrum files on the command line."
      else if nonempty (fore_path cl) && negb (is_file (fore_path cl))
      then ExitFailure ("Foreground '" +:+ fore_path cl
                        +:+ "' doesnt look to be a file.")
      else if nonempty (back_path cl) && negb (is_file (back_path cl))
      then ExitFailure ("Background '" +:+ back_path cl
                        +:+ "' doesnt look to be a file.")
      else
        match List.find (fun filename => negb (is_file filename)) positional with
        | Some filename =>
            ExitFailure ("File specified, '" +:+ filename
                         +:+ "', doesnt look to be a file.")
        | None => Proceed tt
        end
  else Proceed tt.

(** The two inputs handed to [create_input] (194-240). *)
Definition choose_inputs (cl : CommandLine) : CliStep (Input * option Input) :=
  let positional := positional_spec_files cl in
  if nonempty (fore_path cl)
  then
    let input1 := (SpecClassType.Foreground, fore_path cl, fore_path cl) in
    if nonempty (back_path cl)
    then
      if negb (bool_decide (positional = []))
      then AssertFails "positional_spec_files.empty()"
      else Proceed (input1,
                    Some (SpecClassType.Background, back_path cl, back_path cl))
    else
      match positional with
      | [] => Proceed (input1, None)
      | name :: _ =>
          if negb (length positional =? 1)%nat
          then AssertFails "positional_spec_files.size() == 1"
          else Proceed (input1, Some (SpecClassType.Background, name, name))
      end
  else
    if nonempty (back_path cl)
    then
      match positional with
      | [] => ExitFailure "No foreground spectrum file specified."
      | name :: _ =>
          Proceed ((SpecClassType.Foreground, name, name),
                   Some (SpecClassType.Background, back_path cl, back_path cl))
      end
    else
      match positional with
      | [] => ExitFailure "No spectrum files specified on command line."
      | name :: rest =>
          let input1 := (SpecClassType.SuspectForeground, name, name) in
          match rest with
          | [] => Proceed (input1, None)
          | name2 :: _ =>
              if negb (length positional =? 2)%nat
              then AssertFails "positional_spec_files.size() == 2"
              else Proceed (input1,
                            Some (SpecClassType.SuspectBackground, name2, name2))
          end
      end.

Definition command_line_inputs (cl : CommandLine)
    : CliStep (Input * option Input) :=
  match check_files cl with
  | Proceed _ => choose_inputs cl
  | ExitFailure message => ExitFailure message
  | AssertFails what => AssertFails what
  end.

End CommandLineInputs.
(** ** Reference implementations of the file accessors

    Small executable stand-ins for what SpecUtils computes from the
    measurements of a file, so that the functions above can be run. *)

Module ReferenceFiles.

Definition never_passthrough (ms : list Measurement) : bool := false.

Definition num_samples (ms : list Measurement) : nat :=
  size (list_to_set (sample_number <$> ms) : gset Z).

Definition gamma_live_time (ms : list Measurement) : float :=
  fold_left (fun t m => F32.add t (live_time m)) ms F32.zero.

(** One hundred counts per second of live time in a foreground, ten in any
    other measurement. *)
Definition meas_gamma_count_sum (m : Measurement) : double :=
  F64.mul (to_double (live_time m))
    (F64.of_Z (match source_type m with Foreground => 100 | _ => 10 end)).

Definition gamma_count_sum (ms : list Measurement) : double :=
  fold_left (fun c m => F64.add c (meas_gamma_count_sum m)) ms F64.zero.

Definition every_path_is_file (path : string) : bool := true.

(** Two files of one measurement each. *)
Definition item_file : list Measurement :=
  [Scenarios.spectrum 1 Foreground (F32.of_Z 100)].

Definition room_file : list Measurement :=
  [Scenarios.spectrum 1 Unknown (F32.of_Z 300)].

(** A file with a foreground, an unknown and a background measurement. *)
Definition mixed_file : list Measurement :=
  [Scenarios.spectrum 1 Background (F32.of_Z 300);
   Scenarios.spectrum 2 Unknown (F32.of_Z 100);
   Scenarios.spectrum 3 Foreground (F32.of_Z 100)].

(** Portal data: a background of 120 s and three occupied samples of 1 s. *)
Definition portal_file : SpecFile :=
  Scenarios.file_of
    (Scenarios.spectrum 1 Background (F32.of_Z 120)
     :: map (fun s => Scenarios.spectrum s Foreground (F32.of_Z 1)) [2; 3; 4])
    [1; 2; 3; 4].

(** A command line with [--foreground] and [--background]. *)
Definition two_options : CommandLine :=
  {| foreground_option := Some "item.n42";
     background_option := Some "room.n42";
     positional_spec_files := []; drf_option := "" |}.

(** A running analysis thread with nothing queued. *)
Definition running_queue : AnalysisQueue :=
  {| g_keep_analyzing := true; g_simple_ana_queue := [];
     g_analysis_thread := true |}.

End ReferenceFiles.

(* ===================================================================== *)
(** * Part II: properties                                                 *)
(* ===================================================================== *)

(** ** The configuration cache *)

Section CacheProperties.
Context {Eng : Type} `{!Gadras Eng}.

Lemma AutoGainAdjustType_eqb_refl a : AutoGainAdjustType_eqb a a = true.
Proof. by destruct a. Qed.

Lemma AutoGainAdjustType_eqb_eq a b : AutoGainAdjustType_eqb a b = true <-> a = b.
Proof. destruct a, b; simpl; split; congruence. Qed.

(** A request whose tuple is the cached one returns at once. *)
Lemma raw_hit (w : Worker Eng) drf nchannel num_detectors cal_type :
  cache w = raw_tuple drf nchannel num_detectors cal_type ->
  init_gadras_drf_raw drf nchannel num_detectors cal_type w = (0, w).
Proof.
  intros Hc. unfold init_gadras_drf_raw. rewrite Hc. simpl.
  by rewrite String.eqb_refl, !Z.eqb_refl, AutoGainAdjustType_eqb_refl.
Qed.

Lemma calibrated_hit (w : Worker Eng) drf nchannel :
  g_gad_drf (cache w) = drf -> g_gad_nchannel (cache w) = nchannel ->
  g_gad_calibrated (cache w) = true ->
  init_gadras_drf_calibrated drf nchannel w = (0, w).
Proof.
  intros Hd Hn Hc. unfold init_gadras_drf_calibrated.
  by rewrite Hd, Hn, Hc, String.eqb_refl, Z.eqb_refl.
Qed.

Lemma raw_condition (c : EngineConfigState) drf nchannel num_detectors cal_type :
  String.eqb drf (g_gad_drf c) && (nchannel =? g_gad_nchannel c)
  && Bool.eqb (g_gad_calibrated c) false && (g_num_detectors c =? num_detectors)
  && AutoGainAdjustType_eqb (g_gad_cal_adjust c) cal_type = true
  <-> c = raw_tuple drf nchannel num_detectors cal_type.
Proof.
  destruct c as [d n cb nd ca]; unfold raw_tuple; simpl.
  rewrite !andb_true_iff, String.eqb_eq, !Z.eqb_eq, Bool.eqb_true_iff,
    AutoGainAdjustType_eqb_eq.
  split; [intros [[[[-> ->] ->] ->] ->]; done | intros [= -> -> -> -> ->]; done].
Qed.

Lemma calibrated_condition (c : EngineConfigState) drf nchannel :
  String.eqb drf (g_gad_drf c) && (nchannel =? g_gad_nchannel c)
  && Bool.eqb (g_gad_calibrated c) true = true
  <-> g_gad_drf c = drf /\ g_gad_nchannel c = nchannel
      /\ g_gad_calibrated c = true.
Proof.
  rewrite !andb_true_iff, String.eqb_eq, Z.eqb_eq, Bool.eqb_true_iff.
  naive_solver.
Qed.

(** A request that does not find its tuple calls the library once. *)
Lemma raw_miss_calls (w : Worker Eng) drf nchannel num_detectors cal_type :
  cache w <> raw_tuple drf nchannel num_detectors cal_type ->
  calls (snd (init_gadras_drf_raw drf nchannel num_detectors cal_type w))
  = calls w ++ [CallInitRaw (g_gad_app_folder w) drf nchannel num_detectors
                  (calTag_of cal_type)].
Proof.
  intros Hne. unfold init_gadras_drf_raw.
  destruct (_ && _) eqn:Hhit.
  - by apply raw_condition in Hhit.
  - destruct (InitializeIsotopeIdRaw _ _ _ _ _ _) as [rval e].
    by destruct (rval =? 0).
Qed.

Lemma calibrated_miss_calls (w : Worker Eng) drf nchannel :
  g_gad_drf (cache w) <> drf ->
  calls (snd (init_gadras_drf_calibrated drf nchannel w))
  = calls w ++ [CallInitCalibrated (g_gad_app_folder w) drf nchannel].
Proof.
  intros Hne. unfold init_gadras_drf_calibrated.
  destruct (_ && _) eqn:Hhit.
  - apply calibrated_condition in Hhit. naive_solver.
  - destruct (InitializeIsotopeIdCalibrated _ _ _ _) as [rval e].
    by destruct (rval =? 0).
Qed.

(** The two ways a request can go. *)
Lemma raw_cases (w : Worker Eng) drf nchannel num_detectors cal_type :
  (cache w = raw_tuple drf nchannel num_detectors cal_type
   /\ init_gadras_drf_raw drf nchannel num_detectors cal_type w = (0, w))
  \/ (cache w <> raw_tuple drf nchannel num_detectors cal_type
      /\ exists rv e,
          init_gadras_drf_raw drf nchannel num_detectors cal_type w
          = (rv, set_cache
                   (if rv =? 0
                    then raw_tuple drf nchannel num_detectors cal_type
                    else uninitialized)
                   e (CallInitRaw (g_gad_app_folder w) drf nchannel
                        num_detectors (calTag_of cal_type)) w)).
Proof.
  unfold init_gadras_drf_raw.
  destruct (_ && _) eqn:Hhit.
  - left. by apply raw_condition in Hhit.
  - right. split.
    + intros Hc. apply raw_condition in Hc. congruence.
    + destruct (InitializeIsotopeIdRaw _ _ _ _ _ _) as [rv e].
      exists rv, e. by destruct (rv =? 0).
Qed.

Lemma calibrated_cases (w : Worker Eng) drf nchannel :
  ((g_gad_drf (cache w) = drf /\ g_gad_nchannel (cache w) = nchannel
    /\ g_gad_calibrated (cache w) = true)
   /\ init_gadras_drf_calibrated drf nchannel w = (0, w))
  \/ exists rc e,
       init_gadras_drf_calibrated drf nchannel w
       = (rc, set_cache (calibrated_after (cache w) drf nchannel rc) e
                (CallInitCalibrated (g_gad_app_folder w) drf nchannel) w).
Proof.
  unfold init_gadras_drf_calibrated, calibrated_after.
  destruct (_ && _) eqn:Hhit.
  - left. by apply calibrated_condition in Hhit.
  - right. destruct (InitializeIsotopeIdCalibrated _ _ _ _) as [rc e].
    exists rc, e. by destruct (rc =? 0).
Qed.

(** C2 (as amended): a request whose tuple the cache holds returns 0
    without a call into the library; any other request calls the library's
    initialisation once, with the request's arguments, and returns the code
    the library gave.  A request that succeeds leaves the cache on its tuple,
    and the same request made again returns 0 without another call, so two
    identical consecutive requests make at most one call, and exactly one
    when the cache did not hold the tuple before.  A failed raw
    initialisation resets all five variables; a failed calibrated
    initialisation resets the detector response, the channel count and the
    mode, and leaves the detector count and the gain adjustment as they
    were.  After either failure the next request that names a detector
    response calls the library again. *)
Theorem cache_follows_initialization (w : Worker Eng) (drf : string)
    (nchannel num_detectors : Z) (cal_type : AutoGainAdjustType) :
  let raw := init_gadras_drf_raw drf nchannel num_detectors cal_type w in
  let cal := init_gadras_drf_calibrated drf nchannel w in
  let library_raw :=
    InitializeIsotopeIdRaw (g_gad_app_folder w) drf nchannel num_detectors
      (calTag_of cal_type) (engine w) in
  let library_cal :=
    InitializeIsotopeIdCalibrated (g_gad_app_folder w) drf nchannel
      (engine w) in
  let holds_calibrated :=
    g_gad_drf (cache w) = drf /\ g_gad_nchannel (cache w) = nchannel
    /\ g_gad_calibrated (cache w) = true in
  (raw.1 = 0 ->
     cache raw.2 = raw_tuple drf nchannel num_detectors cal_type
     /\ init_gadras_drf_raw drf nchannel num_detectors cal_type raw.2 = (0, raw.2)
     /\ (length (calls raw.2) <= S (length (calls w)))%nat
     /\ (cache w <> raw_tuple drf nchannel num_detectors cal_type ->
         length (calls raw.2) = S (length (calls w))))
  /\ (cal.1 = 0 ->
       g_gad_drf (cache cal.2) = drf /\ g_gad_nchannel (cache cal.2) = nchannel
       /\ g_gad_calibrated (cache cal.2) = true
       /\ init_gadras_drf_calibrated drf nchannel cal.2 = (0, cal.2)
       /\ (length (calls cal.2) <= S (length (calls w)))%nat
       /\ (~ holds_calibrated -> length (calls cal.2) = S (length (calls w))))
  /\ (raw.1 <> 0 ->
       cache raw.2 = uninitialized
       /\ length (calls raw.2) = S (length (calls w))
       /\ forall drf' nchannel' num_detectors' cal_type',
            drf' <> "" ->
            length (calls (init_gadras_drf_raw drf' nchannel' num_detectors'
                             cal_type' raw.2).2)
            = S (length (calls raw.2))
            /\ length (calls (init_gadras_drf_calibrated drf' nchannel' raw.2).2)
               = S (length (calls raw.2)))
  /\ (cal.1 <> 0 ->
       g_gad_drf (cache cal.2) = "" /\ g_gad_nchannel (cache cal.2) = -1
       /\ g_gad_calibrated (cache cal.2) = false
       /\ g_num_detectors (cache cal.2) = g_num_detectors (cache w)
       /\ g_gad_cal_adjust (cache cal.2) = g_gad_cal_adjust (cache w)
       /\ length (calls cal.2) = S (length (calls w))
       /\ forall drf' nchannel' num_detectors' cal_type',
            drf' <> "" ->
            length (calls (init_gadras_drf_raw drf' nchannel' num_detectors'
                             cal_type' cal.2).2)
            = S (length (calls cal.2))
            /\ length (calls (init_gadras_drf_calibrated drf' nchannel' cal.2).2)
               = S (length (calls cal.2)))
  /\ (cache w = raw_tuple drf nchannel num_detectors cal_type -> raw = (0, w))
  /\ (holds_calibrated -> cal = (0, w))
  /\ (cache w <> raw_tuple drf nchannel num_detectors cal_type ->
       raw.1 = library_raw.1
       /\ engine raw.2 = library_raw.2
       /\ calls raw.2
          = calls w ++ [CallInitRaw (g_gad_app_folder w) drf nchannel
                          num_detectors (calTag_of cal_type)])
  /\ (~ holds_calibrated ->
       cal.1 = library_cal.1
       /\ engine cal.2 = library_cal.2
       /\ calls cal.2
          = calls w ++ [CallInitCalibrated (g_gad_app_folder w) drf nchannel]).
Proof.
  assert (Hnext : forall w' : Worker Eng, g_gad_drf (cache w') = "" ->
            forall drf' nchannel' num_detectors' cal_type',
            drf' <> "" ->
            length (calls (init_gadras_drf_raw drf' nchannel' num_detectors'
                             cal_type' w').2)
            = S (length (calls w'))
            /\ length (calls (init_gadras_drf_calibrated drf' nchannel' w').2)
               = S (length (calls w'))).
  { intros w' Hd drf' n' nd' ct' Hne. split.
    - rewrite raw_miss_calls; [rewrite length_app; simpl; lia |].
      intros Hc. rewrite Hc in Hd. simpl in Hd. congruence.
    - rewrite calibrated_miss_calls; [rewrite length_app; simpl; lia |].
      congruence. }
  intros raw cal library_raw library_cal holds_calibrated.
  subst raw cal library_raw library_cal holds_calibrated.
  split; [| split; [| split; [| split; [| split; [| split; [| split]]]]]].
  - destruct (raw_cases w drf nchannel num_detectors cal_type)
      as [[Hc ->] | [Hc (rv & e & ->)]]; simpl; intros Hrv.
    + rewrite raw_hit by done. repeat split; try done; lia.
    + subst rv. simpl. rewrite raw_hit by done.
      rewrite length_app. simpl. repeat split; try done; lia.
  - destruct (calibrated_cases w drf nchannel)
      as [[(Hd & Hn & Hc) ->] | (rc & e & ->)]; simpl; intros Hrc.
    + rewrite calibrated_hit by done.
      do 4 (split; [done |]). split; [lia |].
      intros Hmiss. by destruct Hmiss.
    + subst rc. simpl. rewrite calibrated_hit by done.
      rewrite length_app. simpl.
      do 4 (split; [done |]). split; [lia |]. intros _. lia.
  - destruct (raw_cases w drf nchannel num_detectors cal_type)
      as [[Hc ->] | [Hc (rv & e & ->)]]; simpl; intros Hrv; [done |].
    apply Z.eqb_neq in Hrv. rewrite Hrv.
    split; [done |]. split; [rewrite length_app; simpl; lia |].
    intros. by apply Hnext.
  - destruct (calibrated_cases w drf nchannel)
      as [[(Hd & Hn & Hc) ->] | (rc & e & ->)]; simpl; intros Hrc; [done |].
    apply Z.eqb_neq in Hrc. rewrite Hrc.
    do 5 (split; [done |]). split; [rewrite length_app; simpl; lia |].
    intros. apply Hnext; [simpl; by rewrite Hrc | done].
  - apply raw_hit.
  - intros (Hd & Hn & Hc). by apply calibrated_hit.
  - intros Hmiss. unfold init_gadras_drf_raw.
    destruct (_ && _) eqn:Hhit; [by apply raw_condition in Hhit |].
    destruct (InitializeIsotopeIdRaw _ _ _ _ _ _) as [rval e].
    by destruct (rval =? 0).
  - intros Hmiss. unfold init_gadras_drf_calibrated.
    destruct (_ && _) eqn:Hhit; [by apply calibrated_condition in Hhit |].
    destruct (InitializeIsotopeIdCalibrated _ _ _ _) as [rval e].
    by destruct (rval =? 0).
Qed.

End CacheProperties.

Section CacheExamples.
#[local] Existing Instance Reference.scripted_gadras.

(** C2, witness: the first request initialises GADRAS, the second finds the
    cache. *)
Lemma cache_follows_initialization_witness :
  let w := Reference.fresh_worker [0] in
  let raw := init_gadras_drf_raw "drfs/Detective-EX" 8192 2 AGA_K40 w in
  raw.1 = 0
  /\ cache raw.2 = raw_tuple "drfs/Detective-EX" 8192 2 AGA_K40
  /\ init_gadras_drf_raw "drfs/Detective-EX" 8192 2 AGA_K40 raw.2 = (0, raw.2)
  /\ length (calls raw.2) = 1%nat.
Proof.
  pose proof (cache_follows_initialization (Reference.fresh_worker [0])
                "drfs/Detective-EX" 8192 2 AGA_K40) as (Hraw & _).
  split; [reflexivity |].
  destruct (Hraw eq_refl) as (Hcache & Hagain & _ & Hone).
  split; [exact Hcache |]. split; [exact Hagain |].
  apply Hone. discriminate.
Defined.

(** C2, counterexample: a search analysis has initialised GADRAS for two
    detectors; the calibrated initialisation of the next request fails with
    code -3.  The detector count stays 2: the cache is not the uninitialised
    record. *)
Lemma failed_calibrated_keeps_detector_count :
  let w := Reference.fresh_worker [0; -3] in
  let w1 := (init_gadras_drf_raw "drfs/Detective-EX" 8192 2 AGA_K40 w).2 in
  let r := init_gadras_drf_calibrated "drfs/GR135" 1024 w1 in
  r.1 = -3 /\ g_num_detectors (cache r.2) = 2
  /\ g_num_detectors (cache r.2) <> -1 /\ cache r.2 <> uninitialized.
Proof. vm_compute. repeat split; discriminate. Qed.

End CacheExamples.

(** ** The JSON form of a result *)

Section JsonProperties.

Lemma isotope_records_length n names types rates confs strs :
  length (isotope_records n names types rates confs strs)
  = Nat.min n (Nat.min (length names) (Nat.min (length types)
      (Nat.min (length rates) (Nat.min (length confs) (length strs))))).
Proof.
  revert names types rates confs strs.
  induction n as [|n IH]; intros [|? ?] [|? ?] [|? ?] [|? ?] [|? ?]; simpl;
    try done.
  by rewrite IH.
Qed.

Lemma isotope_records_lookup n names types rates confs strs i
    name type_ rate conf str :
  (i < n)%nat ->
  names !! i = Some name -> types !! i = Some type_ -> rates !! i = Some rate ->
  confs !! i = Some conf -> strs !! i = Some str ->
  isotope_records n names types rates confs strs !! i
  = Some (isotope_record name type_ rate conf str).
Proof.
  revert n names types rates confs strs.
  induction i as [|i IH];
    intros [|n] [|? ?] [|? ?] [|? ?] [|? ?] [|? ?]; simpl; try done; try lia.
  - intros _. congruence.
  - intros Hi. apply IH. lia.
Qed.

Lemma isotope_record_members name type_ rate conf str :
  let v := isotope_record name type_ rate conf str in
  member v "name" = Some (JString name)
  /\ member v "type" = Some (JString type_)
  /\ member v "countRate" = Some (JFloat rate)
  /\ member v "confidence" = Some (JFloat conf)
  /\ member v "confidenceStr" = Some (JString str).
Proof. simpl. repeat split; by simplify_map_eq. Qed.

(** C9: the "code" member is 6 exactly when the initialisation or the
    analysis error code is negative, and 0 otherwise.  With code 6 none of
    the result members is present.  With code 0 the object carries the
    detector response, the quantity of interest, the isotope string, the
    chi-square, the alarm basis duration, the warnings when there are any,
    and an array with one record for every index the five isotope arrays all
    have, holding that isotope's name, type, count rate, confidence and
    confidence label. *)
Theorem toJson_code_and_members (r : AnalysisOutput) :
  let failed :=
    gadras_intialization_error r < 0 \/ gadras_analysis_error r < 0 in
  (toJson r !! "code" = Some (JInt 6) <-> failed)
  /\ (toJson r !! "code" = Some (JInt 0) <-> ~ failed)
  /\ (failed -> Forall (fun k => toJson r !! k = None) result_members)
  /\ (~ failed ->
       toJson r !! "drf" = Some (JString (drf_used r))
       /\ toJson r !! "stuffOfInterest" = Some (JFloat (stuff_of_interest r))
       /\ toJson r !! "isotopeString" = Some (JString (isotopes r))
       /\ toJson r !! "chi2" = Some (JFloat (chi_sqr r))
       /\ toJson r !! "alarmBasisDuration"
          = Some (JFloat (alarm_basis_duration r))
       /\ toJson r !! "analysisWarnings"
          = match analysis_warnings r with
            | [] => None
            | _ => Some (JArray (JString <$> analysis_warnings r))
            end
       /\ exists records,
            toJson r !! "isotopes" = Some (JArray records)
            /\ length records
               = Nat.min (length (isotope_names r))
                   (Nat.min (length (isotope_types r))
                      (Nat.min (length (isotope_count_rates r))
                         (Nat.min (length (isotope_confidences r))
                            (length (isotope_confidence_strs r)))))
            /\ forall i name type_ rate conf str,
                 isotope_names r !! i = Some name ->
                 isotope_types r !! i = Some type_ ->
                 isotope_count_rates r !! i = Some rate ->
                 isotope_confidences r !! i = Some conf ->
                 isotope_confidence_strs r !! i = Some str ->
                 exists v,
                   records !! i = Some v
                   /\ member v "name" = Some (JString name)
                   /\ member v "type" = Some (JString type_)
                   /\ member v "countRate" = Some (JFloat rate)
                   /\ member v "confidence" = Some (JFloat conf)
                   /\ member v "confidenceStr" = Some (JString str)).
Proof.
  intros failed. subst failed. unfold toJson, result_members.
  set (base := if negb _ then _ else _).
  assert (Hbase : forall k, k <> "analysisError" -> k <> "errorMessage" ->
                            base !! k = None).
  { intros k ? ?. subst base. destruct (negb _); by simplify_map_eq. }
  clearbody base.
  destruct (Z.ltb_spec (gadras_intialization_error r) 0) as [Hi | Hi];
    destruct (Z.ltb_spec (gadras_analysis_error r) 0) as [Ha | Ha]; simpl.
  1-3: split; [split; [intros _; lia | intros _; by simplify_map_eq] |].
  1-3: split; [split; [intros H; simplify_map_eq | intros H; exfalso; lia] |].
  1-3: split; [| intros H; exfalso; lia].
  1-3: intros _; repeat constructor; simplify_map_eq; by apply Hbase.
  assert (Hw : analysis_warnings r <> [] ->
               match analysis_warnings r with
               | [] => None
               | _ => Some (JArray (JString <$> analysis_warnings r))
               end = Some (JArray (JString <$> analysis_warnings r))).
  { by destruct (analysis_warnings r). }
  case_bool_decide as Hnil; simpl.
  all: split; [split; [intros H; simplify_map_eq | lia] |].
  all: split; [split; [lia | intros _; by simplify_map_eq] |].
  all: split; [lia |]; intros _.
  all: do 5 (split; [by simplify_map_eq |]).
  all: split; [first [rewrite Hnil | rewrite Hw by done]; simplify_map_eq;
               first [by apply Hbase | done] |].
  all: eexists; split; [by simplify_map_eq |]; split;
       [rewrite isotope_records_length; lia |].
  all: intros i name type_ rate conf str Hn Ht Hr Hc Hs;
       eexists; split;
       [ apply isotope_records_lookup; try done;
         apply lookup_lt_Some in Hn, Ht, Hr, Hc, Hs; lia
       | apply isotope_record_members ].
Qed.

End JsonProperties.

(** ** The strategies: validation and delivery *)

Section StrategyProperties.
Context {Eng : Type} `{!Gadras Eng} `{!Collaborators Eng}.

Lemma dispatch_run (inp : AnalysisInput) (h : Host Eng) :
  dispatch inp h = run_strategy inp (initial_result inp) (try_block inp) h.
Proof.
  unfold dispatch, initial_result, try_block, do_simple_analysis,
    do_search_analysis, do_portal_analysis.
  by destruct (analysis_type inp).
Qed.

(** The hand-over at the end of a strategy, for a request with a callback. *)
Lemma deliver_with_callback (inp : AnalysisInput) (r : AnalysisOutput)
    (server : bool) (cb : nat) :
  callback inp = Some cb ->
  deliver inp r server
  = if String.eqb (wt_app_id inp) "" then [CallbackCalled cb r]
    else if server then [CallbackPosted (wt_app_id inp) cb r]
    else [].
Proof.
  intros Hcb. unfold deliver. rewrite Hcb.
  by destruct server, (String.eqb (wt_app_id inp) "").
Qed.

(** C3 (as amended): for a request with a callback, no exception of the
    try block leaves the dispatch.  Whatever the try block of the strategy
    does short of a fault, the result is handed over once, after the [catch]:
    the callback is called in the analysis thread when the session identifier
    is empty, and posted to the session when it is not and a server instance
    exists; with a session identifier and no server instance the callback is
    not called at all.  When the try block threw, the result handed over
    carries the exception's message in [error_message].  The hand-over is not
    inside a [try]: the dispatch ends as the call of the callback or the post
    ends, and an exception that leaves the dispatch is one the callback or
    the post threw. *)
Theorem dispatch_hands_over (inp : AnalysisInput) (h : Host Eng) (cb : nat) :
  callback inp = Some cb ->
  match try_block inp (initial_result inp, worker h) with
  | (Fault where_, _) => dispatch inp h = Fault where_
  | (o, (result, w)) =>
      let delivered :=
        match o with
        | Throw what => set_error_message what result
        | _ => result
        end in
      let after (handed : list Event) : Host Eng :=
        {| worker := w; server_instance := server_instance h;
           events := events h ++ handed |} in
      (forall what, o = Throw what -> error_message delivered = what)
      /\ dispatch inp h
         = (if String.eqb (wt_app_id inp) ""
            then call_callback cb delivered ;;
                 Ok (after [CallbackCalled cb delivered])
            else if server_instance h
            then server_post (wt_app_id inp) cb delivered ;;
                 Ok (after [CallbackPosted (wt_app_id inp) cb delivered])
            else Ok (after []))
      /\ (forall what, dispatch inp h = Throw what ->
            (wt_app_id inp = "" /\ call_callback cb delivered = Throw what)
            \/ (wt_app_id inp <> "" /\ server_instance h = true
                /\ server_post (wt_app_id inp) cb delivered = Throw what))
  end.
Proof.
  intros Hcb. rewrite dispatch_run. unfold run_strategy.
  assert (Hover : forall (r : AnalysisOutput) (w : Worker Eng),
            (perform_all (deliver inp r (server_instance h)) ;;
             Ok {| worker := w; server_instance := server_instance h;
                   events := events h ++ deliver inp r (server_instance h) |})
            = (if String.eqb (wt_app_id inp) ""
               then call_callback cb r ;;
                    Ok {| worker := w; server_instance := server_instance h;
                          events := events h ++ [CallbackCalled cb r] |}
               else if server_instance h
               then server_post (wt_app_id inp) cb r ;;
                    Ok {| worker := w; server_instance := server_instance h;
                          events := events h
                                    ++ [CallbackPosted (wt_app_id inp) cb r] |}
               else Ok {| worker := w; server_instance := server_instance h;
                          events := events h ++ [] |})
            /\ forall what,
                 (perform_all (deliver inp r (server_instance h)) ;;
                  Ok {| worker := w; server_instance := server_instance h;
                        events := events h
                                  ++ deliver inp r (server_instance h) |})
                 = Throw what ->
                 (wt_app_id inp = "" /\ call_callback cb r = Throw what)
                 \/ (wt_app_id inp <> "" /\ server_instance h = true
                     /\ server_post (wt_app_id inp) cb r = Throw what)).
  { intros r w. rewrite (deliver_with_callback _ _ _ cb) by done.
    destruct (String.eqb_spec (wt_app_id inp) "") as [Hid | Hid].
    - simpl. split.
      + by destruct (call_callback cb r).
      + intros what Hthrow. left. split; [done |].
        destruct (call_callback cb r); cbn in Hthrow; congruence.
    - destruct (server_instance h); simpl.
      + split.
        * by destruct (server_post (wt_app_id inp) cb r).
        * intros what Hthrow. right. do 2 (split; [done |]).
          destruct (server_post (wt_app_id inp) cb r); cbn in Hthrow;
            congruence.
      + split; [done | discriminate]. }
  destruct (try_block inp (initial_result inp, worker h)) as [[u | what | x] [r w]].
  - destruct (Hover r w) as [Hrun Hthrow].
    split; [intros; discriminate |]. split; [exact Hrun | exact Hthrow].
  - destruct (Hover (set_error_message what r) w) as [Hrun Hthrow].
    split; [by intros ? [= ->] |]. split; [exact Hrun | exact Hthrow].
  - reflexivity.
Qed.

(** How the monad of the try blocks runs. *)
Lemma Ana_bind_run {St A B} (m : Ana St A) (k : A -> Ana St B) (s : St) :
  (m ≫= k) s
  = match m s with
    | (Ok a, s') => k a s'
    | (Throw what, s') => (Throw what, s')
    | (Fault where_, s') => (Fault where_, s')
    end.
Proof. reflexivity. Qed.

(** The loop over the measurements throws exactly when some measurement has
    another channel count than the file or is a calibration or intrinsic
    spectrum; otherwise it sorts the measurements. *)
Lemma classify_measurements_ok nchannel ms backgrounds foregrounds :
  Forall (fun m => num_gamma_channels m = nchannel
                   /\ is_calibration_or_intrinsic m = false) ms ->
  classify_measurements nchannel ms backgrounds foregrounds
  = Ok (backgrounds ++ List.filter is_background ms,
        foregrounds ++ List.filter is_foreground ms).
Proof.
  intros Hall. revert backgrounds foregrounds.
  induction Hall as [| m ms [Hn Hc] _ IH]; intros backgrounds foregrounds; simpl.
  - by rewrite !app_nil_r.
  - rewrite Hn, Nat.eqb_refl. simpl.
    unfold is_calibration_or_intrinsic in Hc.
    unfold is_background at 1, is_foreground at 1.
    destruct (source_type m); try done; rewrite IH; simpl;
      by rewrite <- ?app_assoc.
Qed.

Lemma classify_measurements_throw nchannel ms backgrounds foregrounds :
  Exists (fun m => num_gamma_channels m <> nchannel
                   \/ is_calibration_or_intrinsic m = true) ms ->
  exists what, what <> ""
    /\ classify_measurements nchannel ms backgrounds foregrounds = Throw what.
Proof.
  intros Hex. revert backgrounds foregrounds.
  induction ms as [| m ms IH]; intros backgrounds foregrounds.
  - by apply Exists_nil in Hex.
  - simpl. destruct (Nat.eqb_spec (num_gamma_channels m) nchannel) as [Hn | Hn]; simpl.
    + unfold is_calibration_or_intrinsic in Hex.
      destruct (source_type m) eqn:Hs; try (eexists; split; [| reflexivity]; done).
      all: apply IH; apply Exists_cons in Hex as [[? | Hc] | ?]; try done;
           rewrite Hs in Hc; done.
    + eexists; split; [| reflexivity]; done.
Qed.

Lemma to_int32_small (n : nat) :
  Z.of_nat n <= 64 * 1024 -> to_int32 (Z.of_nat n) = Z.of_nat n.
Proof.
  intros Hn. unfold to_int32.
  change (2 ^ 31) with 2147483648. change (2 ^ 32) with 4294967296.
  rewrite Z.mod_small; lia.
Qed.

(** What an accepted input looks like, and that a refusal has a message. *)
Lemma simple_validate_cases (inp : AnalysisInput) :
  match simple_validate inp with
  | Ok (f, foreground, background, nchannel) =>
      input inp = Some f
      /\ nchannel = file_num_gamma_channels f
      /\ (length (measurements f) = 1 \/ length (measurements f) = 2)%nat
      /\ Forall (fun m => num_gamma_channels m = nchannel
                          /\ is_calibration_or_intrinsic m = false)
                (measurements f)
      /\ List.filter is_foreground (measurements f) = [foreground]
      /\ (length (List.filter is_background (measurements f)) <= 1)%nat
      /\ background = head (List.filter is_background (measurements f))
      /\ 32 <= Z.of_nat nchannel <= 64 * 1024
  | Throw what => what <> ""
  | Fault _ => False
  end.
Proof.
  unfold simple_validate.
  destruct (input inp) as [f |]; [| done].
  set (ms := measurements f). set (n := file_num_gamma_channels f).
  destruct (negb (length ms =? 1)%nat && negb (length ms =? 2)%nat) eqn:Hlen;
    [done |].
  assert (Hlen' : (length ms = 1 \/ length ms = 2)%nat).
  { destruct (Nat.eqb_spec (length ms) 1); [by left |].
    destruct (Nat.eqb_spec (length ms) 2); [by right | done]. }
  assert (Hdec : forall m, {num_gamma_channels m = n
                             /\ is_calibration_or_intrinsic m = false}
                          + {num_gamma_channels m <> n
                             \/ is_calibration_or_intrinsic m = true}).
  { intros m. destruct (Nat.eq_dec (num_gamma_channels m) n);
      destruct (is_calibration_or_intrinsic m);
      first [left; split; done | right; by left | right; by right]. }
  destruct (Forall_Exists_dec _ _ Hdec ms) as [Hall | Hex].
  - rewrite (classify_measurements_ok _ _ _ _ Hall).
    cbn [mbind outcome_bind obind app].
    destruct (List.filter is_foreground ms) as [| fg [| ? ?]] eqn:Hfg;
      try done.
    destruct (Nat.ltb_spec 1 (length (List.filter is_background ms)));
      [done |].
    destruct (Z.ltb_spec (Z.of_nat n) 32); [done |].
    destruct (Z.ltb_spec (64 * 1024) (Z.of_nat n)); [done |].
    cbn. repeat split; try done; lia.
  - by destruct (classify_measurements_throw n ms [] [] Hex) as (what & Hw & ->).
Qed.

(** C10 (as amended): simple analysis checks its input before GADRAS is
    touched.  It ends with an error message in the result, the worker and the
    configuration cache untouched, whenever the file pointer is null, the
    file has other than one or two measurements, two measurements differ in
    their number of gamma channels, a measurement is a calibration or
    intrinsic-activity spectrum, there is not exactly one foreground (source
    type foreground or unknown), there is more than one background, or the
    file's channel count is below 32 or above 65536.  That result is handed
    over like any other: the callback is called when the session identifier
    is empty, posted when it is not and a server instance exists, and not
    called otherwise; the analysis ends as that call ends.  An input that
    passes all the checks goes on to the calibrated initialisation of GADRAS
    for the file's channel count. *)
Theorem simple_validation (inp : AnalysisInput) (h : Host Eng) :
  let result0 :=
    set_request (in_ana_number inp) (drf_folder inp) None AnalysisOutput_new in
  ((input inp = None
    \/ exists f, input inp = Some f
        /\ ((length (measurements f) <> 1 /\ length (measurements f) <> 2)%nat
            \/ (exists m1 m2, m1 ∈ measurements f /\ m2 ∈ measurements f
                   /\ num_gamma_channels m1 <> num_gamma_channels m2)
            \/ (exists m, m ∈ measurements f
                   /\ is_calibration_or_intrinsic m = true)
            \/ length (List.filter is_foreground (measurements f)) <> 1%nat
            \/ (1 < length (List.filter is_background (measurements f)))%nat
            \/ Z.of_nat (file_num_gamma_channels f) < 32
            \/ 65536 < Z.of_nat (file_num_gamma_channels f))) ->
   exists what,
     what <> ""
     /\ simple_validate inp = Throw what
     /\ do_simple_analysis inp h
        = (perform_all (deliver inp (set_error_message what result0)
                          (server_instance h)) ;;
           Ok {| worker := worker h; server_instance := server_instance h;
                 events := events h ++
                   deliver inp (set_error_message what result0)
                     (server_instance h) |})
     /\ forall cb, callback inp = Some cb ->
          deliver inp (set_error_message what result0) (server_instance h)
          = if String.eqb (wt_app_id inp) ""
            then [CallbackCalled cb (set_error_message what result0)]
            else if server_instance h
            then [CallbackPosted (wt_app_id inp) cb
                    (set_error_message what result0)]
            else [])
  /\ (forall f,
       input inp = Some f ->
       file_num_gamma_channels f ∈ num_gamma_channels <$> measurements f ->
       (length (measurements f) = 1 \/ length (measurements f) = 2)%nat ->
       (forall m1 m2, m1 ∈ measurements f -> m2 ∈ measurements f ->
          num_gamma_channels m1 = num_gamma_channels m2) ->
       (forall m, m ∈ measurements f ->
          is_calibration_or_intrinsic m = false) ->
       length (List.filter is_foreground (measurements f)) = 1%nat ->
       (length (List.filter is_background (measurements f)) <= 1)%nat ->
       32 <= Z.of_nat (file_num_gamma_channels f) <= 65536 ->
       exists foreground,
         List.filter is_foreground (measurements f) = [foreground]
         /\ forall r w,
              simple_body inp (r, w)
              = let nchannel := file_num_gamma_channels f in
                let '(init_code, w1) :=
                  init_gadras_drf_calibrated
                    (append_path "drfs" (drf_folder inp))
                    (Z.of_nat nchannel) w in
                let r1 := set_gadras_intialization_error init_code r in
                match check_init_results init_code with
                | Ok _ =>
                    simple_after_init f foreground
                      (head (List.filter is_background (measurements f)))
                      nchannel (r1, w1)
                | Throw what => (Throw what, (r1, w1))
                | Fault where_ => (Fault where_, (r1, w1))
                end).
Proof.
  intros result0. split.
  - intros Hrej.
    pose proof (simple_validate_cases inp) as Hcases.
    destruct (simple_validate inp) as [[[[f fg] bg] n] | what | x] eqn:Hv;
      [exfalso | | done].
    + destruct Hcases as (Hf & -> & Hlen & Hall & Hfg & Hbg & _ & Hn).
      rewrite Forall_forall in Hall.
      destruct Hrej as [Hnone | (f' & Hf' & Hrej)]; [congruence |].
      assert (f' = f) as -> by congruence.
      destruct Hrej as [[? ?] | [(m1 & m2 & H1 & H2 & Hne) | [(m & Hm & Hc)
        | [Hfg' | [Hbg' | [Hlo | Hhi]]]]]].
      * lia.
      * apply Hne. destruct (Hall m1 H1) as [-> _].
        by destruct (Hall m2 H2) as [-> _].
      * destruct (Hall m Hm) as [_ Hc']. congruence.
      * by rewrite Hfg in Hfg'.
      * lia.
      * lia.
      * lia.
    + exists what. split; [done |]. split; [done |]. split.
      * unfold do_simple_analysis, run_strategy, simple_body.
        rewrite Ana_bind_run. unfold lift. by rewrite Hv.
      * intros cb Hcb. by apply deliver_with_callback.
  - intros f Hf Hwf Hlen Hsame Hcal Hfg Hbg Hn.
    destruct (List.filter is_foreground (measurements f))
      as [| fg [| ? ?]] eqn:Hfg'; try done.
    exists fg. split; [done |]. intros r w.
    assert (Hv : simple_validate inp
                 = Ok (f, fg, head (List.filter is_background (measurements f)),
                       file_num_gamma_channels f)).
    { unfold simple_validate. rewrite Hf.
      assert ((negb (length (measurements f) =? 1)%nat
               && negb (length (measurements f) =? 2)%nat) = false) as ->.
      { destruct Hlen as [-> | ->]; done. }
      rewrite classify_measurements_ok.
      - cbn [mbind outcome_bind obind app]. rewrite Hfg'.
        destruct (Nat.ltb_spec 1 (length (List.filter is_background
                                            (measurements f)))); [lia |].
        destruct (Z.ltb_spec (Z.of_nat (file_num_gamma_channels f)) 32);
          [lia |].
        destruct (Z.ltb_spec (64 * 1024)
                    (Z.of_nat (file_num_gamma_channels f))); [lia | done].
      - apply Forall_forall. intros m Hm. split; [| by apply Hcal].
        apply list_elem_of_fmap in Hwf as (m' & -> & Hm').
        by apply Hsame. }
    unfold simple_body. rewrite Ana_bind_run. unfold lift at 1. rewrite Hv.
    rewrite Ana_bind_run. unfold on_worker at 1. cbn [fst snd].
    rewrite to_int32_small by lia.
    destruct (init_gadras_drf_calibrated _ _ w) as [code w1].
    rewrite !Ana_bind_run. unfold on_result, modify, lift. cbn [fst snd].
    by destruct (check_init_results code).
Qed.

End StrategyProperties.

Section StrategyExamples.
#[local] Existing Instance Reference.scripted_gadras.
#[local] Existing Instance Reference.plain_collaborators.

(** C3, witness: a synchronous request without a file.  The try block
    throws, and the callback is called once with the message. *)
Lemma dispatch_hands_over_witness :
  let inp := {| in_ana_number := 1; wt_app_id := ""; drf_folder := "GR135";
                input_warnings := []; analysis_type := Simple;
                input := None; callback := Some 7%nat |} in
  exists r,
    dispatch inp (Reference.fresh_host [] false)
    = Ok {| worker := Reference.fresh_worker []; server_instance := false;
            events := [CallbackCalled 7 r] |}
    /\ error_message r = "Invalid input SpecUtils::SpecFile ptr".
Proof.
  intros inp.
  pose proof (dispatch_hands_over inp (Reference.fresh_host [] false) 7 eq_refl)
    as [_ H].
  vm_compute in H. destruct H as [H _].
  eexists. split; [exact H | reflexivity].
Defined.

(** C3, counterexample: the same request with a session identifier, in a
    process without a Wt server.  The request has a callback and the strategy
    ends normally, but the callback is neither called nor posted. *)
Lemma callback_dropped_without_server :
  let inp := {| in_ana_number := 1; wt_app_id := "session-1";
                drf_folder := "GR135"; input_warnings := [];
                analysis_type := Simple; input := None;
                callback := Some 7%nat |} in
  callback inp <> None
  /\ dispatch inp (Reference.fresh_host [] false)
     = Ok {| worker := Reference.fresh_worker []; server_instance := false;
             events := [] |}.
Proof. split; [discriminate | reflexivity]. Qed.

(** C3, a callback that throws: the try block has ended and its [catch] is
    behind, so the exception of the callback leaves the dispatch. *)
Lemma throwing_callback_leaves_dispatch :
  let inp := {| in_ana_number := 1; wt_app_id := ""; drf_folder := "GR135";
                input_warnings := []; analysis_type := Simple;
                input := None; callback := Some 7%nat |} in
  @dispatch _ Reference.scripted_gadras Reference.throwing_collaborators inp
    (Reference.fresh_host [] false)
  = Throw "callback failed".
Proof. reflexivity. Qed.

(** C10, witness: a foreground with its background passes the checks and
    the calibrated initialisation is the first thing called; a file of three
    measurements is refused before any call. *)
Lemma simple_validation_witness :
  let good := Scenarios.request Simple ""
                (Some Scenarios.foreground_and_background) in
  let bad := Scenarios.request Simple "" (Some Scenarios.three_foregrounds) in
  calls (simple_body good (AnalysisOutput_new, Reference.fresh_worker [])).2.2
  = [CallInitCalibrated "gadras_isotope_id_run_directory" "drfs/GR135" 1024]
  /\ exists h what,
       do_simple_analysis bad (Reference.fresh_host [] false) = Ok h
       /\ calls (worker h) = []
       /\ events h = [CallbackCalled 7
                        (set_error_message what
                           (set_request 1 "GR135" None AnalysisOutput_new))]
       /\ what = "Invalid number of measurements".
Proof.
  intros good bad. split.
  - destruct (proj2 (simple_validation good (Reference.fresh_host [] false))
                Scenarios.foreground_and_background eq_refl)
      as (fg & _ & Hbody).
    + vm_compute. by constructor.
    + by right.
    + intros m1 m2 H1 H2.
      apply list_elem_of_In in H1, H2. simpl in H1, H2.
      by destruct H1 as [<- | [<- | []]], H2 as [<- | [<- | []]].
    + intros m Hm. apply list_elem_of_In in Hm. simpl in Hm.
      by destruct Hm as [<- | [<- | []]].
    + reflexivity.
    + vm_compute. lia.
    + vm_compute. split; discriminate.
    + rewrite Hbody. reflexivity.
  - destruct (proj1 (simple_validation bad (Reference.fresh_host [] false)))
      as (what & _ & Hv & Hrun & _).
    + right. eexists. split; [reflexivity |]. left. vm_compute. split; discriminate.
    + injection Hv as <-.
      eexists _, _. split; [exact Hrun |]. repeat split.
Defined.

(** C10, counterexample: the file of three measurements is refused, but the
    request names a session and there is no Wt server, so the callback it
    carries is not called. *)
Lemma refused_input_callback_not_called :
  let bad := Scenarios.request Simple "session-2"
               (Some Scenarios.three_foregrounds) in
  callback bad = Some 7%nat
  /\ simple_validate bad = Throw "Invalid number of measurements"
  /\ exists h, do_simple_analysis bad (Reference.fresh_host [] false) = Ok h
             /\ events h = [].
Proof.
  split; [reflexivity |]. split; [reflexivity |].
  eexists. split; reflexivity.
Qed.

End StrategyExamples.

(** ** The windows of the search analysis *)

Section WindowProperties.
Context {Eng : Type} `{!Gadras Eng} `{!Collaborators Eng}.

(** What the inner loop returns: it walks a prefix of the sample numbers it
    is given, adds the samples of the prefix that are not background, and
    stops as soon as the sum is no longer below 0.425 s. *)
Lemma sum_samples_walk (f : SpecFile) (backgrounds : gset Z) (iter : list Z)
    (real_time : float) (samples : gset Z) :
  exists walked rest,
    iter = walked ++ rest
    /\ sum_samples f backgrounds iter real_time samples
       = (summed_real_time f (foreground_of backgrounds walked) real_time,
          list_to_set (foreground_of backgrounds walked) ∪ samples)
    /\ (rest = []
        \/ F32.ltb (summed_real_time f (foreground_of backgrounds walked)
                      real_time) (F32.lit 425 1000) = false)
    /\ forall before sample after,
         walked = before ++ sample :: after ->
         F32.ltb (summed_real_time f (foreground_of backgrounds before)
                    real_time) (F32.lit 425 1000) = true.
Proof.
  revert real_time samples.
  induction iter as [| sample iter IH]; intros real_time samples.
  - exists [], []. repeat split; [| by left | by intros [|??] ??].
    simpl. f_equal. set_solver.
  - simpl. destruct (F32.ltb real_time (F32.lit 425 1000)) eqn:Hlt.
    + case_bool_decide as Hbg.
      * destruct (IH real_time samples) as (walked & rest & -> & -> & Hstop & Hmin).
        exists (sample :: walked), rest.
        assert (Hfg : foreground_of backgrounds (sample :: walked)
                      = foreground_of backgrounds walked).
        { unfold foreground_of. rewrite filter_cons_False; [done | ].
          intros Hn. by apply Hn. }
        rewrite Hfg. repeat split; [done |].
        intros [| b before] s after Heq; simplify_eq/=; [done |].
        unfold foreground_of at 1. rewrite filter_cons_False by (intros Hn; by apply Hn).
        by eapply Hmin.
      * destruct (IH (F32.add real_time (real_time_of_sample f sample))
                     ({[sample]} ∪ samples))
          as (walked & rest & -> & -> & Hstop & Hmin).
        exists (sample :: walked), rest.
        assert (Hfg : foreground_of backgrounds (sample :: walked)
                      = sample :: foreground_of backgrounds walked).
        { unfold foreground_of. by rewrite filter_cons_True. }
        rewrite Hfg. simpl. repeat split; [| done |].
        { f_equal. set_solver. }
        intros [| b before] s after Heq; simplify_eq/=; [done |].
        unfold foreground_of at 1. rewrite filter_cons_True by done. simpl.
        by eapply Hmin.
    + exists [], (sample :: iter). repeat split; [| by right | by intros [|??] ??].
      simpl. f_equal. set_solver.
Qed.

(** Every pass of the outer loop starts its walk at the first sample
    number, so a run that ends normally has made one window per sample number
    and all of them are the same window. *)
Lemma analyze_windows_copies (f : SpecFile) (backgrounds : gset Z)
    (outer : list Z) (earlier : list (float * gset Z)) (s s' : RunState Eng)
    (windows : list (float * gset Z)) :
  analyze_windows f backgrounds outer earlier s = (Ok windows, s') ->
  windows
  = earlier
    ++ replicate (length outer)
         (sum_samples f backgrounds (sample_numbers f) F32.zero ∅).
Proof.
  revert earlier s. induction outer as [| o outer IH]; intros earlier s Hrun.
  - injection Hrun as <- <-. simpl. by rewrite app_nil_r.
  - simpl in Hrun.
    destruct (sum_samples f backgrounds (sample_numbers f) F32.zero ∅)
      as [real_time samples] eqn:Hsum.
    case_bool_decide as Hempty; [done |].
    destruct (F32.leb _ _); [done |].
    rewrite !Ana_bind_run in Hrun.
    destruct (fill_inputs _ s) as [[[] | ? | ?] s1]; try done.
    rewrite !Ana_bind_run in Hrun.
    destruct (streaming_search _ _ s1) as [[call_stat | ? | ?] s2]; try done.
    rewrite !Ana_bind_run in Hrun.
    destruct (call_stat <? 0).
    { rewrite Ana_bind_run in Hrun. unfold on_result, modify, throw in Hrun.
      done. }
    cbn [mret Ana_ret] in Hrun. rewrite Ana_bind_run in Hrun.
    destruct (search_collect_window _ s2) as [[[] | ? | ?] s3]; try done.
    apply IH in Hrun as ->. simpl. by rewrite <- app_assoc.
Qed.

(** X9: every window the loop hands to the engine comes from one walk over
    the sample numbers in order, from the first one on, which skips the
    background samples and adds up the real times of the others until the sum
    is no longer below 0.425 s or the sample numbers are used up: the
    window's samples are the non-background samples of the walked prefix, its
    time is their summed real time, no shorter prefix reaches 0.425 s, and
    either the sum has reached 0.425 s or every sample number was walked.  No
    window is empty.  A run that ends normally has made one window per
    sample number the outer loop stood on, and all of them are that same
    window.  For samples 2 to 10 of 0.1 s after a background sample 1, the
    walk closes the window after five samples, {2,...,6} with 0.5 s. *)
Theorem windows_accumulate_to_threshold (f : SpecFile) (backgrounds : gset Z)
    (outer : list Z) (earlier : list (float * gset Z)) (s s' : RunState Eng)
    (windows : list (float * gset Z)) :
  analyze_windows f backgrounds outer earlier s = (Ok windows, s') ->
  (exists new, windows = earlier ++ new
     /\ forall real_time samples, (real_time, samples) ∈ new ->
         samples <> ∅
         /\ samples ∩ backgrounds = ∅
         /\ exists walked rest,
              sample_numbers f = walked ++ rest
              /\ samples = list_to_set (foreground_of backgrounds walked)
              /\ real_time
                 = summed_real_time f (foreground_of backgrounds walked) F32.zero
              /\ (rest = [] \/ F32.ltb real_time (F32.lit 425 1000) = false)
              /\ forall before sample after,
                   walked = before ++ sample :: after ->
                   F32.ltb (summed_real_time f
                              (foreground_of backgrounds before) F32.zero)
                           (F32.lit 425 1000) = true)
  /\ sum_samples Scenarios.scenario_C {[1]}
       (sample_numbers Scenarios.scenario_C) F32.zero ∅
     = (F32.lit 1 2, {[2; 3; 4; 5; 6]})
  /\ windows
     = earlier
       ++ replicate (length outer)
            (sum_samples f backgrounds (sample_numbers f) F32.zero ∅).
Proof.
  intros Hrun. split; [| split; [by vm_compute |]].
  2: by apply analyze_windows_copies in Hrun.
  revert earlier s Hrun.
  induction outer as [| o outer IH]; intros earlier s Hrun.
  - injection Hrun as <- <-. exists []. split; [by rewrite app_nil_r |].
    intros ?? Hin. by apply elem_of_nil in Hin.
  - simpl in Hrun.
    destruct (sum_samples_walk f backgrounds (sample_numbers f) F32.zero ∅)
      as (walked & rest & Hsplit & Hsum & Hstop & Hmin).
    rewrite Hsum in Hrun.
    case_bool_decide as Hempty; [done |].
    destruct (F32.leb _ _); [done |].
    rewrite !Ana_bind_run in Hrun.
    destruct (fill_inputs _ s) as [[[] | ? | ?] s1]; try done.
    rewrite !Ana_bind_run in Hrun.
    destruct (streaming_search _ _ s1) as [[call_stat | ? | ?] s2]; try done.
    rewrite !Ana_bind_run in Hrun.
    destruct (call_stat <? 0).
    { rewrite Ana_bind_run in Hrun. unfold on_result, modify, throw in Hrun.
      done. }
    cbn [mret Ana_ret] in Hrun. rewrite Ana_bind_run in Hrun.
    destruct (search_collect_window _ s2) as [[[] | ? | ?] s3]; try done.
    apply IH in Hrun as (new & -> & Hnew).
    eexists (_ :: new). split; [by rewrite <- app_assoc |].
    intros real_time samples Hin.
    apply elem_of_cons in Hin as [[= -> ->] | Hin]; [| by apply Hnew].
    rewrite union_empty_r_L in *.
    split; [done |]. split.
    + apply set_eq. intros x. rewrite elem_of_intersection, elem_of_list_to_set.
      unfold foreground_of. rewrite list_elem_of_filter. set_solver.
    + exists walked, rest. repeat split; try done. by rewrite union_empty_r_L.
Qed.

End WindowProperties.

Section WindowExamples.
#[local] Existing Instance Reference.scripted_gadras.
#[local] Existing Instance Reference.plain_collaborators.

(** X9, witness: the windows of scenario C, with sample 1 as the
    background. *)
Lemma windows_accumulate_to_threshold_witness :
  exists windows s',
    analyze_windows Scenarios.scenario_C {[1]}
      (sample_numbers Scenarios.scenario_C) []
      (AnalysisOutput_new, Reference.fresh_worker []) = (Ok windows, s')
    /\ (forall real_time samples, (real_time, samples) ∈ windows ->
          samples <> ∅ /\ samples ∩ {[1]} = ∅)
    /\ windows
       = replicate 10
           (sum_samples Scenarios.scenario_C {[1]}
              (sample_numbers Scenarios.scenario_C) F32.zero ∅).
Proof.
  assert (Hok : is_ok (analyze_windows Scenarios.scenario_C {[1]}
                         (sample_numbers Scenarios.scenario_C) []
                         (AnalysisOutput_new, Reference.fresh_worker [])).1
                = true) by (vm_compute; reflexivity).
  destruct (analyze_windows Scenarios.scenario_C {[1]}
              (sample_numbers Scenarios.scenario_C) []
              (AnalysisOutput_new, Reference.fresh_worker []))
    as [[windows | what | where_] s'] eqn:Hrun;
    [| discriminate Hok | discriminate Hok].
  exists windows, s'. split; [reflexivity |].
  destruct (windows_accumulate_to_threshold _ _ _ _ _ _ _ Hrun)
    as ((new & Hnew & Hall) & _ & Hcopies).
  split; [| exact Hcopies].
  simpl in Hnew. subst new. intros real_time samples Hin.
  destruct (Hall _ _ Hin) as (Hne & Hbg & _).
  split; [exact Hne | exact Hbg].
Defined.


End WindowExamples.

(** ** Fallible loops *)

Section Outcomes.

Lemma bind_Ok {A B} (m : outcome A) (k : A -> outcome B) (b : B) :
  m ≫= k = Ok b <-> exists a, m = Ok a /\ k a = Ok b.
Proof.
  destruct m as [a | what | where_]; simpl; split.
  - intros H. by exists a.
  - by intros (a' & [= ->] & H).
  - done.
  - by intros (? & ? & _).
  - done.
  - by intros (? & ? & _).
Qed.

Lemma fmap_Ok {A B} (f : A -> B) (m : outcome A) (b : B) :
  f <$> m = Ok b <-> exists a, m = Ok a /\ b = f a.
Proof.
  destruct m as [a | what | where_]; simpl; split.
  - intros [= <-]. by exists a.
  - by intros (a' & [= ->] & ->).
  - done.
  - by intros (? & ? & _).
  - done.
  - by intros (? & ? & _).
Qed.

Lemma vec_at_Ok {A} (where_ : string) (v : list A) (i : nat) (x : A) :
  vec_at where_ v i = Ok x <-> v !! i = Some x.
Proof. unfold vec_at. destruct (v !! i); split; congruence. Qed.

Lemma vec_set_Ok {A} (where_ : string) (v v' : list A) (i : nat) (x : A) :
  vec_set where_ v i x = Ok v' <-> (i < length v)%nat /\ v' = <[i := x]> v.
Proof.
  unfold vec_set. destruct (Nat.ltb_spec i (length v)); split.
  - intros [= <-]. done.
  - intros [_ ->]. done.
  - done.
  - intros [? _]. lia.
Qed.

Lemma matrix_set_Ok (where_ : string) (A A' : matrix) (row col : nat) (v : double) :
  matrix_set where_ A row col v = Ok A'
  <-> (row < size1 A)%nat /\ (col < size2 A)%nat
      /\ A' = {| size1 := size1 A; size2 := size2 A;
                 cell := fun i j =>
                   if (i =? row)%nat && (j =? col)%nat then v else cell A i j |}.
Proof.
  unfold matrix_set.
  destruct (Nat.ltb_spec row (size1 A)), (Nat.ltb_spec col (size2 A)); simpl;
    split; try done; try (intros (? & ? & _); lia).
  - intros [= <-]. done.
  - intros (_ & _ & ->). done.
Qed.

(** A loop over [start], ..., [start + n - 1] that keeps an invariant on the
    index reached. *)
Lemma for_each_seq_inv {S} (I : nat -> S -> Prop) (body : nat -> S -> outcome S)
    (n start : nat) (s s' : S) :
  I start s ->
  (forall k s1 s2, (start <= k < start + n)%nat -> I k s1 ->
     body k s1 = Ok s2 -> I (Datatypes.S k) s2) ->
  for_each (seq start n) body s = Ok s' ->
  I (start + n)%nat s'.
Proof.
  revert start s. induction n as [| n IH]; intros start s Hs Hstep Hrun.
  - simpl in Hrun. injection Hrun as <-. by rewrite Nat.add_0_r.
  - simpl in Hrun. apply bind_Ok in Hrun as (s1 & Hbody & Hrun).
    replace (start + Datatypes.S n)%nat with (Datatypes.S start + n)%nat by lia.
    apply (IH (Datatypes.S start) s1); [| | done].
    + apply (Hstep start s); [lia | done | done].
    + intros k s2 s3 Hk. apply Hstep. lia.
Qed.

(** The same loop runs to its end when every step succeeds under the
    invariant. *)
Lemma for_each_seq_total {S} (I : nat -> S -> Prop)
    (body : nat -> S -> outcome S) (n start : nat) (s : S) :
  I start s ->
  (forall k s1, (start <= k < start + n)%nat -> I k s1 ->
     exists s2, body k s1 = Ok s2 /\ I (Datatypes.S k) s2) ->
  exists s', for_each (seq start n) body s = Ok s' /\ I (start + n)%nat s'.
Proof.
  revert start s. induction n as [| n IH]; intros start s Hs Hstep.
  - exists s. split; [done |]. by rewrite Nat.add_0_r.
  - destruct (Hstep start s) as (s1 & Hbody & Hs1); [lia | done |].
    destruct (IH (Datatypes.S start) s1) as (s' & Hrun & Hs'); [done | |].
    + intros k s2 Hk. apply Hstep. lia.
    + exists s'. split.
      * simpl. rewrite Hbody. exact Hrun.
      * by replace (start + Datatypes.S n)%nat
          with (Datatypes.S start + n)%nat by lia.
Qed.

Lemma for_each_fmap {A B S} (g : A -> B) (l : list A)
    (body : B -> S -> outcome S) (s : S) :
  for_each (map g l) body s = for_each l (fun x => body (g x)) s.
Proof.
  revert s. induction l as [| x l IH]; intros s; simpl; [done |].
  destruct (body (g x) s); simpl; [apply IH | done | done].
Qed.

Lemma for_each_ext {A S} (l : list A) (f g : A -> S -> outcome S) (s : S) :
  (forall x s, In x l -> f x s = g x s) ->
  for_each l f s = for_each l g s.
Proof.
  revert s. induction l as [| x l IH]; intros s Hfg; simpl; [done |].
  rewrite (Hfg x s) by (by left).
  destruct (g x s); simpl; [| done | done].
  apply IH. intros y s' Hy. apply Hfg. by right.
Qed.

End Outcomes.

(** ** Energy calibration fits *)

Section EnergyCalProperties.
Context `{!NumericLib}.

(** Filling the first [m] columns of one row. *)
Lemma fill_row_total (where_ : string) (A : matrix) (row m : nat)
    (value : nat -> double) :
  (row < size1 A)%nat -> (m <= size2 A)%nat ->
  exists A',
    for_each (seq 0 m) (fun col A => matrix_set where_ A row col (value col)) A
    = Ok A'
    /\ size1 A' = size1 A /\ size2 A' = size2 A
    /\ (forall col, (col < m)%nat -> cell A' row col = value col)
    /\ (forall i j, i <> row \/ (m <= j)%nat -> cell A' i j = cell A i j).
Proof.
  intros Hrow Hm.
  destruct (for_each_seq_total
    (fun k A1 =>
       size1 A1 = size1 A /\ size2 A1 = size2 A
       /\ (forall col, (col < k)%nat -> cell A1 row col = value col)
       /\ (forall i j, i <> row \/ (k <= j)%nat -> cell A1 i j = cell A i j))
    (fun col A => matrix_set where_ A row col (value col)) m 0 A)
    as (A' & Hrun & Hinv).
  - repeat split; try done. intros; lia.
  - intros k A1 Hk (H1 & H2 & Hval & Hrest).
    eexists. split.
    + apply matrix_set_Ok. repeat split; [lia | lia].
    + simpl. repeat split; [done | done | |].
      * intros col Hcol. rewrite Nat.eqb_refl. simpl.
        destruct (Nat.eqb_spec col k) as [-> | Hne]; [done |].
        apply Hval. lia.
      * intros i j Hij.
        destruct (Nat.eqb_spec i row) as [-> | Hne]; simpl.
        -- destruct (Nat.eqb_spec j k) as [-> | Hne]; [lia |].
           apply Hrest. lia.
        -- apply Hrest. by left.
  - exists A'. by split.
Qed.

(** With five or more terms the fit writes its last term into column 5 of
    a matrix that has columns 0 to 4. *)
Lemma frf_design_five_terms (channels_energies : list (double * double))
    (nchannels nterms : nat) :
  channels_energies <> [] -> (5 <= nterms)%nat ->
  frf_design channels_energies nchannels nterms = Fault "A(row,5)"
  /\ fit_for_fullrangefraction_coefs channels_energies nchannels nterms
     = Fault "A(row,5)".
Proof.
  intros Hne Hn.
  assert (Hd : frf_design channels_energies nchannels nterms = Fault "A(row,5)").
  { unfold frf_design.
    destruct channels_energies as [| point rest]; [done |].
    replace (Nat.min nterms 5) with 5%nat by lia.
    cbn [length seq for_each]. cbn [vec_at lookup list_lookup].
    cbn [mbind outcome_bind obind vec_set length Nat.ltb Nat.leb].
    match goal with
    | |- context [for_each (seq 0 (Nat.min 4 5)) ?body ?A0] =>
        destruct (fill_row_total "A(row,col)" A0 0 4
                    (fun col => pow (F64.div (fst point) (F64.of_nat nchannels))
                                    (F64.of_nat col)))
          as (A' & Hfill & Hs1 & Hs2 & _)
    end.
    - simpl. lia.
    - simpl. lia.
    - change (Nat.min 4 5) with 4%nat. rewrite Hfill.
      cbn [mbind outcome_bind obind Nat.ltb Nat.leb].
      unfold matrix_set. rewrite Hs2. simpl.
      by rewrite andb_false_r. }
  split; [done |].
  unfold fit_for_fullrangefraction_coefs. by rewrite Hd.
Qed.

(** *** Counting the free coefficients *)

Lemma nparsfit_of_app (l1 l2 : list bool) :
  nparsfit_of (l1 ++ l2) = (nparsfit_of l1 + nparsfit_of l2)%nat.
Proof. unfold nparsfit_of. by rewrite filter_app, length_app. Qed.

Lemma nparsfit_of_take_le (fitfor : list bool) (k : nat) :
  (nparsfit_of (take k fitfor) <= nparsfit_of fitfor)%nat.
Proof.
  rewrite <- (take_drop k fitfor) at 2. rewrite nparsfit_of_app. lia.
Qed.

Lemma nparsfit_of_take_S (fitfor : list bool) (k : nat) (free : bool) :
  fitfor !! k = Some free ->
  nparsfit_of (take (S k) fitfor)
  = (nparsfit_of (take k fitfor) + if free then 1 else 0)%nat.
Proof.
  intros Hk. rewrite (take_S_r _ _ _ Hk), nparsfit_of_app.
  by destruct free.
Qed.

Lemma nparsfit_of_fixed (fitfor : list bool) (k : nat) :
  fitfor !! k = Some false -> (nparsfit_of fitfor < length fitfor)%nat.
Proof.
  intros Hk. unfold nparsfit_of.
  apply (length_filter_lt _ _ false); [| done].
  by eapply list_elem_of_lookup_2.
Qed.

Lemma nparsfit_of_all_free (fitfor : list bool) (k : nat) :
  nparsfit_of fitfor = length fitfor -> (k < length fitfor)%nat ->
  fitfor !! k = Some true.
Proof.
  intros Hall Hk. destruct (lookup_lt_is_Some_2 fitfor k Hk) as [[] Hb]; [done |].
  apply nparsfit_of_fixed in Hb. lia.
Qed.

Lemma fixed_indices_S (fitfor : list bool) (k : nat) (free : bool) :
  fitfor !! k = Some free ->
  fixed_indices fitfor (S k)
  = fixed_indices fitfor k ++ (if free then [] else [k]).
Proof.
  intros Hk. unfold fixed_indices. rewrite seq_S, filter_app. f_equal.
  simpl. destruct free.
  - rewrite filter_cons_False; [done |]. by rewrite Hk.
  - by rewrite filter_cons_True.
Qed.

(** *** The design matrix and the targets of the peak fit *)

(** One row: the free coefficients take the columns 0 to [nparsfit - 1], and
    the terms of the fixed ones are taken off the target in order. *)
Lemma design_row_total (fitfor : list bool) (nchannels : nat)
    (coefs : list float) (coeffcn : coef_fcn) (row : nat)
    (bin u : double) (A : matrix) (data_y : double) :
  (row < size1 A)%nat -> (nparsfit_of fitfor <= size2 A)%nat ->
  (nparsfit_of fitfor = length fitfor \/ length coefs = length fitfor) ->
  exists A',
    design_row fitfor nchannels coefs coeffcn row bin u A data_y
    = Ok (nparsfit_of fitfor, A',
          fold_left
            (fun data_y i =>
               F64.sub data_y
                 (F64.mul (to_double (default F32.zero (coefs !! i)))
                          (coeffcn i bin nchannels)))
            (fixed_indices fitfor (length fitfor)) data_y)
    /\ size1 A' = size1 A /\ size2 A' = size2 A.
Proof.
  intros Hrow Hcols Hcoefs. unfold design_row.
  destruct (for_each_seq_total
    (fun k '(col, A1, y) =>
       col = nparsfit_of (take k fitfor)
       /\ size1 A1 = size1 A /\ size2 A1 = size2 A
       /\ y = fold_left
                (fun data_y i =>
                   F64.sub data_y
                     (F64.mul (to_double (default F32.zero (coefs !! i)))
                              (coeffcn i bin nchannels)))
                (fixed_indices fitfor k) data_y)
    (fun coef_index '(col, A, data_y) =>
       free ← vec_at "fitfor[coef_index]" fitfor coef_index;
       if free : bool
       then
         A ← matrix_set "A(row,col)" A row col
               (F64.div (coeffcn coef_index bin nchannels) u);
         Ok (S col, A, data_y)
       else
         c ← vec_at "coefs[coef_index]" coefs coef_index;
         Ok (col, A,
             F64.sub data_y
               (F64.mul (to_double c) (coeffcn coef_index bin nchannels))))
    (length fitfor) 0 (0%nat, A, data_y))
    as ([[col A'] y] & Hrun & Hinv).
  - done.
  - intros k [[col A1] y] Hk (-> & Hs1 & Hs2 & ->).
    destruct (lookup_lt_is_Some_2 fitfor k) as [free Hfree]; [lia |].
    rewrite (proj2 (vec_at_Ok _ _ _ _) Hfree). cbn [mbind outcome_bind obind].
    pose proof (nparsfit_of_take_S _ _ _ Hfree) as Hcount.
    pose proof (nparsfit_of_take_le fitfor (S k)) as Hle.
    rewrite (fixed_indices_S _ _ _ Hfree).
    destruct free.
    + eexists (_, _, _). split.
      * unfold matrix_set.
        destruct (Nat.ltb_spec row (size1 A1)); [| lia].
        destruct (Nat.ltb_spec (nparsfit_of (take k fitfor)) (size2 A1));
          [| lia].
        reflexivity.
      * simpl. rewrite app_nil_r. repeat split; try done. lia.
    + destruct Hcoefs as [Hall | Hlen].
      { apply nparsfit_of_fixed in Hfree. lia. }
      destruct (lookup_lt_is_Some_2 coefs k) as [c Hc]; [lia |].
      rewrite (proj2 (vec_at_Ok _ _ _ _) Hc). cbn [mbind outcome_bind obind].
      eexists (_, _, _). split; [reflexivity |].
      rewrite fold_left_app. simpl. rewrite Hc. simpl.
      repeat split; try done. lia.
  - destruct Hinv as (-> & Hs1 & Hs2 & ->).
    exists A'. simpl in Hrun. rewrite take_ge in Hrun by lia.
    by rewrite Hrun.
Qed.

Lemma lookup_map {A B} (f : A -> B) (l : list A) (i : nat) :
  map f l !! i = f <$> l !! i.
Proof.
  revert i. induction l as [| x l IH]; intros [| i]; simpl; done.
Qed.

(** The design matrix has one row per peak and one column per free
    coefficient, and every target is the peak's energy less the terms of the
    fixed coefficients. *)
Lemma design_system_total (peakinfos : list RecalPeakInfo) (fitfor : list bool)
    (nchannels : nat) (dev_pairs : list (float * float)) (coefs : list float)
    (coeffcn : coef_fcn) :
  (nparsfit_of fitfor = length fitfor \/ length coefs = length fitfor) ->
  exists A b,
    design_system peakinfos fitfor nchannels dev_pairs coefs coeffcn = Ok (A, b)
    /\ size1 A = length peakinfos /\ size2 A = nparsfit_of fitfor
    /\ length b = length peakinfos
    /\ forall row, (row < length peakinfos)%nat ->
         b !! row
         = fixed_target peakinfos fitfor nchannels dev_pairs coefs coeffcn row.
Proof.
  intros Hcoefs. unfold design_system.
  match goal with
  | |- context [for_each _ ?body ?s0] =>
      destruct (for_each_seq_total
        (fun k '(A, b) =>
           size1 A = length peakinfos /\ size2 A = nparsfit_of fitfor
           /\ length b = length peakinfos
           /\ forall row, (row < k)%nat ->
                b !! row
                = fixed_target peakinfos fitfor nchannels dev_pairs coefs
                    coeffcn row)
        body (length peakinfos) 0 s0) as ([A b] & Hrun & Hinv)
  end.
  - simpl. rewrite length_replicate. repeat split; try done. intros; lia.
  - intros k [A b] Hk (Hs1 & Hs2 & Hb & Hrows).
    destruct (lookup_lt_is_Some_2 peakinfos k) as [p Hp]; [lia |].
    assert (Ht : true_energies_of peakinfos !! k
                 = Some (to_float (photopeakEnergy p))).
    { unfold true_energies_of. by rewrite lookup_map, Hp. }
    assert (Hu : exists eu : spec_float,
              @lookup nat spec_float (list spec_float) _ k
                (energy_uncerts_of peakinfos) = Some eu).
    { unfold energy_uncerts_of. rewrite lookup_map, Hp. by eexists. }
    destruct Hu as [eu Hu].
    assert (Hm : mean_bin_of peakinfos !! k
                 = Some (to_float (peakMeanBinNumber p))).
    { unfold mean_bin_of. by rewrite lookup_map, Hp. }
    rewrite (proj2 (vec_at_Ok _ _ _ _) Ht). cbn [mbind outcome_bind obind].
    rewrite (proj2 (vec_at_Ok (A := spec_float) _ _ _ _) Hu).
    cbn [mbind outcome_bind obind].
    rewrite (proj2 (vec_at_Ok _ _ _ _) Hm). cbn [mbind outcome_bind obind].
    destruct (design_row_total fitfor nchannels coefs coeffcn k
                (to_double (to_float (peakMeanBinNumber p)))
                (to_double (SFabs eu)) A
                (F64.sub (to_double (to_float (photopeakEnergy p)))
                   (correction_due_to_dev_pairs
                      (to_double (to_float (photopeakEnergy p))) dev_pairs)))
      as (A' & Hrow & Hs1' & Hs2'); [lia | lia | done |].
    rewrite Hrow. cbn [mbind outcome_bind obind].
    unfold vec_set. destruct (Nat.ltb_spec k (length b)); [| lia].
    cbn [mbind outcome_bind obind].
    eexists (_, _). split; [reflexivity |].
    rewrite length_insert. repeat split; try congruence.
    intros row Hrow'. destruct (decide (row = k)) as [-> | Hne].
    + rewrite list_lookup_insert_eq by lia.
      unfold fixed_target. rewrite Ht. cbn [mbind option_bind].
      match goal with
      | |- _ = ?t ≫= _ => replace t with (Some eu) by (symmetry; exact Hu)
      end.
      cbn [mbind option_bind]. rewrite Hm. reflexivity.
    + rewrite list_lookup_insert_ne by done. apply Hrows. lia.
  - exists A, b. simpl in Hrun, Hinv. by split.
Qed.

(** *** The normal equations *)

Lemma prod_vec_length (A : matrix) (v : list double) :
  length (prod_vec A v) = size1 A.
Proof. unfold prod_vec. by rewrite length_map, length_seq. Qed.

(** The solution has one entry per column of the design matrix, and the
    inverse is square of that size; the only failure is the refusal to
    invert. *)
Lemma solve_normal_cases (what : string) (A : matrix) (b : list double) :
  solve_normal what A b = Throw what
  \/ exists C a,
       solve_normal what A b = Ok (C, a)
       /\ size1 C = size2 A /\ size2 C = size2 A /\ length a = size2 A.
Proof.
  unfold solve_normal, matrix_invert.
  destruct (lu_factorize (prod (trans A) A)) as [[res cells] pm].
  destruct (negb (res =? 0)%nat); [by left |].
  right. eexists _, _. split; [reflexivity |].
  by rewrite prod_vec_length.
Qed.

(** *** Writing the solution back *)

Lemma vec_resize_length {A} (n : nat) (x : A) (v : list A) :
  length (vec_resize n x v) = n.
Proof.
  unfold vec_resize. rewrite length_app, length_take, length_replicate. lia.
Qed.

Lemma vec_resize_same {A} (x : A) (v : list A) :
  vec_resize (length v) x v = v.
Proof.
  unfold vec_resize. rewrite take_ge by lia.
  rewrite Nat.sub_diag. simpl. by rewrite app_nil_r.
Qed.

(** Every entry of the two output vectors is written once: a free
    coefficient gets the next entry of the solution and the square root of
    the next diagonal entry of the inverse; a fixed one keeps its value and
    gets uncertainty zero. *)
Lemma store_solution_total (fitfor : list bool) (C : matrix) (a : list double)
    (coefs coefs_uncert : list float) :
  size1 C = nparsfit_of fitfor -> size2 C = nparsfit_of fitfor ->
  length a = nparsfit_of fitfor ->
  exists coefs' uncert',
    store_solution fitfor C a coefs coefs_uncert = Ok (coefs', uncert')
    /\ length coefs' = length fitfor /\ length uncert' = length fitfor
    /\ (forall i, fitfor !! i = Some false ->
          coefs' !! i = vec_resize (length fitfor) F32.zero coefs !! i
          /\ uncert' !! i = Some F32.zero)
    /\ (forall i, fitfor !! i = Some true ->
          exists v c,
            a !! nparsfit_of (take i fitfor) = Some v
            /\ matrix_get "C(col,col)" C (nparsfit_of (take i fitfor))
                 (nparsfit_of (take i fitfor)) = Ok c
            /\ coefs' !! i = Some (to_float v)
            /\ uncert' !! i = Some (to_float (F64.sqrt c))).
Proof.
  intros HC1 HC2 Ha. unfold store_solution.
  set (coefs0 := vec_resize (length fitfor) F32.zero coefs).
  set (uncert0 := vec_resize (length fitfor) F32.zero coefs_uncert).
  match goal with
  | |- context [for_each _ ?body ?s0] =>
      destruct (for_each_seq_total
        (fun k '(col, coefs1, uncert1) =>
           col = nparsfit_of (take k fitfor)
           /\ length coefs1 = length fitfor /\ length uncert1 = length fitfor
           /\ (forall i, (k <= i)%nat -> coefs1 !! i = coefs0 !! i)
           /\ (forall i, (i < k)%nat -> fitfor !! i = Some false ->
                 coefs1 !! i = coefs0 !! i /\ uncert1 !! i = Some F32.zero)
           /\ (forall i, (i < k)%nat -> fitfor !! i = Some true ->
                 exists v c,
                   a !! nparsfit_of (take i fitfor) = Some v
                   /\ matrix_get "C(col,col)" C (nparsfit_of (take i fitfor))
                        (nparsfit_of (take i fitfor)) = Ok c
                   /\ coefs1 !! i = Some (to_float v)
                   /\ uncert1 !! i = Some (to_float (F64.sqrt c))))
        body (length fitfor) 0 s0) as ([[col coefs'] uncert'] & Hrun & Hinv)
  end.
  - simpl. unfold coefs0, uncert0. rewrite !vec_resize_length.
    repeat split; try done; intros; lia.
  - intros k [[col coefs1] uncert1] Hk (-> & Hl1 & Hl2 & Hrest & Hfix & Hfree).
    destruct (lookup_lt_is_Some_2 fitfor k) as [free Hk']; [lia |].
    rewrite (proj2 (vec_at_Ok _ _ _ _) Hk'). cbn [mbind outcome_bind obind].
    pose proof (nparsfit_of_take_S _ _ _ Hk') as Hcount.
    pose proof (nparsfit_of_take_le fitfor (S k)) as Hle.
    destruct free.
    + destruct (lookup_lt_is_Some_2 a (nparsfit_of (take k fitfor)))
        as [v Hv]; [lia |].
      rewrite (proj2 (vec_at_Ok _ _ _ _) Hv). cbn [mbind outcome_bind obind].
      assert (Hget : matrix_get "C(col,col)" C (nparsfit_of (take k fitfor))
                       (nparsfit_of (take k fitfor))
                     = Ok (cell C (nparsfit_of (take k fitfor))
                             (nparsfit_of (take k fitfor)))).
      { unfold matrix_get.
        destruct (Nat.ltb_spec (nparsfit_of (take k fitfor)) (size1 C)); [| lia].
        destruct (Nat.ltb_spec (nparsfit_of (take k fitfor)) (size2 C)); [| lia].
        done. }
      rewrite Hget. cbn [mbind outcome_bind obind].
      unfold vec_set.
      destruct (Nat.ltb_spec k (length coefs1)); [| lia].
      cbn [mbind outcome_bind obind].
      destruct (Nat.ltb_spec k (length uncert1)); [| lia].
      cbn [mbind outcome_bind obind].
      eexists (_, _, _). split; [reflexivity |].
      rewrite !length_insert.
      split; [lia |]. split; [done |]. split; [done |]. split; [| split].
      * intros i Hi. rewrite list_lookup_insert_ne by lia. apply Hrest. lia.
      * intros i Hi Hfi. assert (i <> k) by congruence.
        rewrite !list_lookup_insert_ne by done. apply Hfix; [lia | done].
      * intros i Hi Hfi. destruct (decide (i = k)) as [-> | Hne].
        -- rewrite !list_lookup_insert_eq by lia. by eexists _, _.
        -- rewrite !list_lookup_insert_ne by done. apply Hfree; [lia | done].
    + unfold vec_set.
      destruct (Nat.ltb_spec k (length uncert1)); [| lia].
      cbn [mbind outcome_bind obind].
      eexists (_, _, _). split; [reflexivity |].
      rewrite !length_insert.
      split; [lia |]. split; [done |]. split; [done |]. split; [| split].
      * intros i Hi. apply Hrest. lia.
      * intros i Hi Hfi. destruct (decide (i = k)) as [-> | Hne].
        -- rewrite list_lookup_insert_eq by lia. split; [| done].
           apply Hrest. lia.
        -- rewrite list_lookup_insert_ne by done. apply Hfix; [lia | done].
      * intros i Hi Hfi. assert (i <> k) by congruence.
        rewrite list_lookup_insert_ne by done. apply Hfree; [lia | done].
  - destruct Hinv as (_ & Hl1 & Hl2 & _ & Hfix & Hfree).
    exists coefs', uncert'. simpl in Hrun. rewrite Hrun.
    cbn [mbind outcome_bind obind]. repeat split; try done.
    + apply Hfix; [| done]. by eapply lookup_lt_Some.
    + apply Hfix; [| done]. by eapply lookup_lt_Some.
    + intros i Hi. apply Hfree; [| done]. by eapply lookup_lt_Some.
Qed.

(** *** The chi-square *)

Lemma chi2_of_total (peakinfos : list RecalPeakInfo) (fitfor : list bool)
    (nchannels : nat) (dev_pairs : list (float * float)) (coefs : list float)
    (coeffcn : coef_fcn) :
  length coefs = length fitfor ->
  exists chi2,
    chi2_of peakinfos fitfor nchannels dev_pairs coefs coeffcn = Ok chi2.
Proof.
  intros Hlen. unfold chi2_of.
  match goal with
  | |- context [for_each _ ?body ?s0] =>
      destruct (for_each_seq_total (fun _ _ => True) body
                  (length peakinfos) 0 s0) as (chi2 & Hrun & _)
  end.
  - done.
  - intros k chi2 Hk _.
    destruct (lookup_lt_is_Some_2 peakinfos k) as [p Hp]; [lia |].
    assert (Hm : mean_bin_of peakinfos !! k
                 = Some (to_float (peakMeanBinNumber p))).
    { unfold mean_bin_of. by rewrite lookup_map, Hp. }
    assert (Ht : true_energies_of peakinfos !! k
                 = Some (to_float (photopeakEnergy p))).
    { unfold true_energies_of. by rewrite lookup_map, Hp. }
    assert (Hu : exists eu, energy_uncerts_of peakinfos !! k = Some eu).
    { unfold energy_uncerts_of. rewrite lookup_map, Hp. by eexists. }
    destruct Hu as [eu Hu].
    rewrite (proj2 (vec_at_Ok _ _ _ _) Hm). cbn [mbind outcome_bind obind].
    rewrite (proj2 (vec_at_Ok _ _ _ _) Ht). cbn [mbind outcome_bind obind].
    rewrite (proj2 (vec_at_Ok _ _ _ _) Hu). cbn [mbind outcome_bind obind].
    match goal with
    | |- context [for_each _ ?body ?s0] =>
        destruct (for_each_seq_total (fun _ _ => True) body
                    (length fitfor) 0 s0) as (y & Hy & _)
    end.
    + done.
    + intros i y Hi _.
      destruct (lookup_lt_is_Some_2 coefs i) as [c Hc]; [lia |].
      rewrite (proj2 (vec_at_Ok _ _ _ _) Hc). by eexists.
    + rewrite Hy. by eexists.
  - by exists chi2.
Qed.

(** *** The fits from pairs of channel and energy *)

(** The copy of the solution into a vector of floats succeeds when both
    vectors have the entries that are asked for, and narrows every entry. *)
Lemma copy_solution_total (w1 w2 : string) (n : nat) (a : list double)
    (init : list float) :
  length a = n -> length init = n ->
  for_each (seq 0 n)
    (fun col coefs =>
       v ← vec_at w1 a col; vec_set w2 coefs col (to_float v))
    init
  = Ok (map to_float a).
Proof.
  intros Ha Hinit.
  match goal with
  | |- for_each _ ?body ?s0 = _ =>
      destruct (for_each_seq_total
        (fun k out =>
           length out = n
           /\ forall i v, (i < k)%nat -> a !! i = Some v ->
                out !! i = Some (to_float v))
        body n 0 s0) as (out & Hrun & Hlen & Hout)
  end.
  - split; [done |]. intros; lia.
  - intros k out Hk [Hlen Hout].
    destruct (lookup_lt_is_Some_2 a k) as [v Hv]; [lia |].
    rewrite (proj2 (vec_at_Ok _ _ _ _) Hv). cbn [mbind outcome_bind obind].
    eexists. split; [apply vec_set_Ok; split; [lia | reflexivity] |].
    rewrite length_insert. split; [done |].
    intros i w Hi Hw. destruct (decide (i = k)) as [-> | Hne].
    + rewrite list_lookup_insert_eq by lia. congruence.
    + rewrite list_lookup_insert_ne by done. apply Hout; [lia | done].
  - rewrite Hrun. f_equal. apply list_eq. intros i.
    rewrite lookup_map. destruct (a !! i) as [v |] eqn:Hv; simpl.
    + apply Hout; [| done]. apply lookup_lt_Some in Hv. lia.
    + apply lookup_ge_None. apply lookup_ge_None in Hv. simpl in *. lia.
Qed.

Lemma narrow_solution_total (n : nat) (a : list double) :
  length a = n -> narrow_solution n a = Ok (map to_float a).
Proof.
  intros Ha. unfold narrow_solution.
  apply copy_solution_total; [done |]. by rewrite length_replicate.
Qed.

(** The design matrix of the polynomial fit: row [row] holds the powers 0 to
    [poly_terms - 1] of the point's channel, and the target is the point's
    energy. *)
Lemma poly_design_total (channels_energies : list (double * double))
    (poly_terms : nat) :
  exists A b,
    poly_design channels_energies poly_terms = Ok (A, b)
    /\ size1 A = length channels_energies /\ size2 A = poly_terms
    /\ length b = length channels_energies
    /\ forall row point, channels_energies !! row = Some point ->
         b !! row = Some (snd point)
         /\ forall col, (col < poly_terms)%nat ->
              cell A row col = pow (fst point) (F64.of_nat col).
Proof.
  unfold poly_design.
  match goal with
  | |- context [for_each _ ?body ?s0] =>
      destruct (for_each_seq_total
        (fun k '(A, b) =>
           size1 A = length channels_energies /\ size2 A = poly_terms
           /\ length b = length channels_energies
           /\ forall row point, (row < k)%nat ->
                channels_energies !! row = Some point ->
                b !! row = Some (snd point)
                /\ forall col, (col < poly_terms)%nat ->
                     cell A row col = pow (fst point) (F64.of_nat col))
        body (length channels_energies) 0 s0) as ([A b] & Hrun & Hinv)
  end.
  - simpl. rewrite length_replicate. repeat split; try done; intros; lia.
  - intros k [A b] Hk (Hs1 & Hs2 & Hb & Hrows).
    destruct (lookup_lt_is_Some_2 channels_energies k) as [p Hp]; [lia |].
    rewrite (proj2 (vec_at_Ok _ _ _ _) Hp). cbn [mbind outcome_bind obind].
    unfold vec_set. destruct (Nat.ltb_spec k (length b)); [| lia].
    cbn [mbind outcome_bind obind].
    destruct (fill_row_total "A(row,col)" A k poly_terms
                (fun col => pow (fst p) (F64.of_nat col)))
      as (A' & Hfill & Hs1' & Hs2' & Hval & Hrest); [lia | lia |].
    rewrite Hfill. cbn [mbind outcome_bind obind].
    eexists (_, _). split; [reflexivity |].
    rewrite length_insert. repeat split; try congruence.
    + destruct (decide (row = k)) as [-> | Hne].
      * rewrite list_lookup_insert_eq by lia. congruence.
      * rewrite list_lookup_insert_ne by done. apply Hrows; [lia | done].
    + intros col Hcol. destruct (decide (row = k)) as [-> | Hne].
      * replace point with p by congruence. by apply Hval.
      * rewrite Hrest by (by left).
        apply (Hrows row point); [lia | done | done].
  - exists A, b. simpl in Hrun, Hinv. destruct Hinv as (? & ? & ? & Hrows).
    repeat split; try done.
    + eapply Hrows; [| done]. by eapply lookup_lt_Some.
    + eapply Hrows; [| done]. by eapply lookup_lt_Some.
Qed.

(** With at most four terms the full-range-fraction design is filled the
    same way, with the channel divided by the number of channels. *)
Lemma frf_design_total (channels_energies : list (double * double))
    (nchannels nterms : nat) :
  (nterms <= 4)%nat ->
  exists A b,
    frf_design channels_energies nchannels nterms = Ok (A, b)
    /\ size1 A = length channels_energies /\ size2 A = nterms
    /\ length b = length channels_energies
    /\ forall row point, channels_energies !! row = Some point ->
         b !! row = Some (snd point)
         /\ forall col, (col < nterms)%nat ->
              cell A row col
              = pow (F64.div (fst point) (F64.of_nat nchannels))
                    (F64.of_nat col).
Proof.
  intros Hn. unfold frf_design.
  replace (Nat.min nterms 5) with nterms by lia.
  replace (Nat.min 4 nterms) with nterms by lia.
  destruct (Nat.ltb_spec 4 nterms) as [? | _]; [lia |].
  match goal with
  | |- context [for_each _ ?body ?s0] =>
      destruct (for_each_seq_total
        (fun k '(A, b) =>
           size1 A = length channels_energies /\ size2 A = nterms
           /\ length b = length channels_energies
           /\ forall row point, (row < k)%nat ->
                channels_energies !! row = Some point ->
                b !! row = Some (snd point)
                /\ forall col, (col < nterms)%nat ->
                     cell A row col
                     = pow (F64.div (fst point) (F64.of_nat nchannels))
                           (F64.of_nat col))
        body (length channels_energies) 0 s0) as ([A b] & Hrun & Hinv)
  end.
  - simpl. rewrite length_replicate. repeat split; try done; intros; lia.
  - intros k [A b] Hk (Hs1 & Hs2 & Hb & Hrows).
    destruct (lookup_lt_is_Some_2 channels_energies k) as [p Hp]; [lia |].
    rewrite (proj2 (vec_at_Ok _ _ _ _) Hp). cbn [mbind outcome_bind obind].
    unfold vec_set. destruct (Nat.ltb_spec k (length b)); [| lia].
    cbn [mbind outcome_bind obind].
    destruct (fill_row_total "A(row,col)" A k nterms
                (fun col => pow (F64.div (fst p) (F64.of_nat nchannels))
                                (F64.of_nat col)))
      as (A' & Hfill & Hs1' & Hs2' & Hval & Hrest); [lia | lia |].
    rewrite Hfill. cbn [mbind outcome_bind obind].
    eexists (_, _). split; [reflexivity |].
    rewrite length_insert. repeat split; try congruence.
    + destruct (decide (row = k)) as [-> | Hne].
      * rewrite list_lookup_insert_eq by lia. congruence.
      * rewrite list_lookup_insert_ne by done. apply Hrows; [lia | done].
    + intros col Hcol. destruct (decide (row = k)) as [-> | Hne].
      * replace point with p by congruence. by apply Hval.
      * rewrite Hrest by (by left).
        apply (Hrows row point); [lia | done | done].
  - exists A, b. simpl in Hrun, Hinv. destruct Hinv as (? & ? & ? & Hrows).
    repeat split; try done.
    + eapply Hrows; [| done]. by eapply lookup_lt_Some.
    + eapply Hrows; [| done]. by eapply lookup_lt_Some.
Qed.

(** X1: the polynomial fit never leaves its matrix or its vectors: it either
    refuses to invert the normal matrix or returns one coefficient per term,
    the narrowed solution of the normal equations of the Vandermonde
    design. *)
Theorem fit_for_poly_coefs_outcomes (channels_energies : list (double * double))
    (poly_terms : nat) :
  exists A b,
    poly_design channels_energies poly_terms = Ok (A, b)
    /\ size1 A = length channels_energies /\ size2 A = poly_terms
    /\ (forall row point, channels_energies !! row = Some point ->
          b !! row = Some (snd point)
          /\ forall col, (col < poly_terms)%nat ->
               cell A row col = pow (fst point) (F64.of_nat col))
    /\ (fit_for_poly_coefs channels_energies poly_terms
        = Throw "fit_for_poly_coefs(...): trouble inverting matrix"
        \/ exists C a,
             solve_normal "fit_for_poly_coefs(...): trouble inverting matrix" A b
             = Ok (C, a)
             /\ length a = poly_terms
             /\ fit_for_poly_coefs channels_energies poly_terms
                = Ok (map to_float a)).
Proof.
  destruct (poly_design_total channels_energies poly_terms)
    as (A & b & Hd & Hs1 & Hs2 & Hb & Hrows).
  exists A, b. repeat split; try done; try (by eapply Hrows).
  unfold fit_for_poly_coefs. rewrite Hd. cbn [mbind outcome_bind obind].
  destruct (solve_normal_cases
              "fit_for_poly_coefs(...): trouble inverting matrix" A b)
    as [Hthrow | (C & a & Hsolve & _ & _ & Ha)].
  - left. by rewrite Hthrow.
  - right. exists C, a. rewrite Hsolve. cbn [mbind outcome_bind obind].
    repeat split; [congruence |]. apply narrow_solution_total. congruence.
Qed.

(** C7: what the full-range-fraction fit writes into its design matrix.
    With at most four terms the row of a point at channel [x] holds the
    powers 0 to [nterms - 1] of [x/N], every write is inside the matrix, and
    the fit refuses to invert or returns [nterms] coefficients.  With five or
    more terms and at least one point the matrix has five columns, 0 to 4,
    and the term 1/(1+60 x/N) is written at column 5: the write is outside
    the matrix, and no design matrix ever holds that term. *)
Theorem frf_fit_outcomes (channels_energies : list (double * double))
    (nchannels nterms : nat) :
  let result :=
    fit_for_fullrangefraction_coefs channels_energies nchannels nterms in
  let design := frf_design channels_energies nchannels nterms in
  ((nterms <= 4)%nat ->
   exists A b,
     design = Ok (A, b)
     /\ size1 A = length channels_energies /\ size2 A = nterms
     /\ forall row point, channels_energies !! row = Some point ->
          b !! row = Some (snd point)
          /\ forall col, (col < nterms)%nat ->
               cell A row col
               = pow (F64.div (fst point) (F64.of_nat nchannels))
                     (F64.of_nat col))
  /\ (channels_energies <> [] /\ (5 <= nterms)%nat ->
      design = Fault "A(row,5)" /\ result = Fault "A(row,5)")
  /\ (size2 (matrix_new (length channels_energies) (Nat.min nterms 5)) <= 5)%nat
  /\ (forall (A : matrix) (row : nat) (v : double),
        (size2 A <= 5)%nat ->
        matrix_set "A(row,5)" A row 5 v = Fault "A(row,5)")
  /\ (channels_energies = [] \/ (nterms <= 4)%nat ->
      result
      = Throw "fit_for_fullrangefraction_coefs(...): trouble inverting matrix"
      \/ exists coefs,
           result = Ok coefs /\ length coefs = Nat.min nterms 5).
Proof.
  intros result design.
  split; [| split; [| split; [| split]]].
  - intros Hle.
    destruct (frf_design_total channels_energies nchannels nterms Hle)
      as (A & b & Hd & Hs1 & Hs2 & _ & Hrows).
    by exists A, b.
  - intros [Hne Hn]. by apply frf_design_five_terms.
  - simpl. lia.
  - intros A row v Hcols. unfold matrix_set.
    destruct (Nat.ltb_spec 5 (size2 A)) as [Hlt | _]; [lia |].
    by rewrite andb_false_r.
  - intros Hcase.
    assert (Hd : exists A b,
               frf_design channels_energies nchannels nterms = Ok (A, b)
               /\ size2 A = Nat.min nterms 5).
    { destruct (le_lt_dec nterms 4) as [Hle | Hgt].
      - destruct (frf_design_total channels_energies nchannels nterms Hle)
          as (A & b & Hd & _ & Hs2 & _).
        exists A, b. split; [done |]. lia.
      - destruct Hcase as [-> | ?]; [| lia].
        eexists _, _. split; [reflexivity |]. done. }
    destruct Hd as (A & b & Hd & Hs2).
    subst result. unfold fit_for_fullrangefraction_coefs.
    rewrite Hd. cbn [mbind outcome_bind obind].
    destruct (solve_normal_cases
                "fit_for_fullrangefraction_coefs(...): trouble inverting matrix"
                A b)
      as [Hthrow | (C & a & Hsolve & _ & _ & Ha)].
    + left. by rewrite Hthrow.
    + right. rewrite Hsolve. cbn [mbind outcome_bind obind].
      rewrite narrow_solution_total by congruence.
      eexists. split; [reflexivity |]. rewrite length_map. congruence.
Qed.

(** The propagation loop makes one pair per order. *)
Lemma representative_pairs_length (orig new_ other : CalRef) (order : nat)
    (pairs : list (double * double)) :
  representative_pairs orig new_ other order = Ok pairs ->
  length pairs = order.
Proof.
  unfold representative_pairs. intros Hrun.
  apply (for_each_seq_inv (fun k pairs => length pairs = k)) in Hrun;
    [done | done |].
  intros k s1 s2 _ Hlen Hbody.
  destruct (order - 1 =? 0)%nat; [done |].
  destruct (cal_type (cal_obj orig)), (cal_type (cal_obj other));
    cbn [mbind outcome_bind obind] in Hbody;
    try (injection Hbody as <-; rewrite length_app; simpl; lia);
    apply bind_Ok in Hbody as (ch & _ & [= <-]);
    rewrite length_app; simpl; lia.
Qed.

(** X2: a change of calibration that is propagated to a full-range-fraction
    calibration reaches the five-term fit, and with it the write outside the
    design matrix, as soon as one of the three calibrations has five
    coefficients and the representative channels are found. *)
Theorem propagate_frf_five_coefficients (next : positive)
    (orig new_ other : CalRef) :
  cal_valid (cal_obj orig) = true -> cal_valid (cal_obj new_) = true ->
  cal_valid (cal_obj other) = true ->
  cal_type (cal_obj orig) <> LowerChannelEdge ->
  cal_type (cal_obj new_) <> LowerChannelEdge ->
  cal_addr orig <> cal_addr new_ ->
  cal_type (cal_obj other) = FullRangeFraction ->
  (5 <= propagation_order orig new_ other)%nat ->
  is_ok (representative_pairs orig new_ other
           (propagation_order orig new_ other)) = true ->
  propogate_energy_cal_change next (Some orig) (Some new_) (Some other)
  = Fault "A(row,5)".
Proof.
  intros Ho Hn Hother Hto Htn Hne Hfrf Horder Hpairs.
  assert (Hlo : is_lower_channel_edge orig = false).
  { unfold is_lower_channel_edge. by destruct (cal_type (cal_obj orig)). }
  assert (Hln : is_lower_channel_edge new_ = false).
  { unfold is_lower_channel_edge. by destruct (cal_type (cal_obj new_)). }
  assert (Hlother : is_lower_channel_edge other = false).
  { unfold is_lower_channel_edge. by rewrite Hfrf. }
  unfold propogate_energy_cal_change.
  rewrite Ho, Hn, Hother, Hlo, Hln, Hlother. cbn [negb orb ptr_eqb].
  apply Pos.eqb_neq in Hne. rewrite Hne.
  fold (propagation_order orig new_ other).
  destruct (representative_pairs orig new_ other
              (propagation_order orig new_ other)) as [pairs | |] eqn:Hrun;
    [| done | done].
  cbn [mbind outcome_bind obind]. rewrite Hfrf.
  apply representative_pairs_length in Hrun.
  destruct (frf_design_five_terms pairs (cal_num_channels (cal_obj other))
              (propagation_order orig new_ other)) as [_ Hfit]; [| done |].
  - intros ->. simpl in Hrun. lia.
  - by rewrite Hfit.
Qed.

(** *** The fit from peaks *)

(** C8 (as amended): [fit_energy_cal_imp] never reads or writes outside a
    vector or a matrix.  It refuses, in this order, a fit without peaks, without a free
    coefficient, with more free coefficients than peaks, and with a fixed
    coefficient but no input coefficient for every entry of [fitfor]; inputs
    that pass end in the refusal to invert the normal matrix or in a
    result. *)
Theorem fit_energy_cal_imp_outcomes (peakinfos : list RecalPeakInfo)
    (fitfor : list bool) (nchannels : nat) (dev_pairs : list (float * float))
    (coefs coefs_uncert : list float) (coeffcn : coef_fcn) :
  let npeaks := length peakinfos in
  let nparsfit := nparsfit_of fitfor in
  let result :=
    fit_energy_cal_imp peakinfos fitfor nchannels dev_pairs coefs coefs_uncert
      coeffcn in
  (npeaks = 0%nat -> result = Throw "Must have at least one peak")
  /\ (npeaks <> 0%nat -> nparsfit = 0%nat ->
      result = Throw "Must fit for at least one coefficient")
  /\ (npeaks <> 0%nat -> nparsfit <> 0%nat -> (npeaks < nparsfit)%nat ->
      result
      = Throw "Must have at least as many peaks as coefficients fitting for")
  /\ ((0 < nparsfit <= npeaks)%nat -> nparsfit <> length fitfor ->
      length coefs <> length fitfor ->
      result
      = Throw "You must supply input coefficient when any of the coefficients are fixed")
  /\ ((0 < nparsfit <= npeaks)%nat ->
      nparsfit = length fitfor \/ length coefs = length fitfor ->
      (result = Throw "Trouble inverting least linear squares matrix"
       /\ normal_invertible
            (design_system peakinfos fitfor nchannels dev_pairs coefs coeffcn)
          = false)
      \/ (exists chi2 coefs' uncert',
            result = Ok (chi2, coefs', uncert')
            /\ normal_invertible
                 (design_system peakinfos fitfor nchannels dev_pairs coefs
                    coeffcn)
               = true)).
Proof.
  intros npeaks nparsfit result. subst result. unfold fit_energy_cal_imp.
  fold npeaks nparsfit.
  destruct (Nat.ltb_spec npeaks 1) as [Hp | Hp].
  { repeat split; try done; intros; lia. }
  destruct (Nat.ltb_spec nparsfit 1) as [Hf | Hf].
  { repeat split; try done; intros; lia. }
  destruct (Nat.ltb_spec npeaks nparsfit) as [Hm | Hm].
  { repeat split; try done; intros; lia. }
  destruct (Nat.eqb_spec nparsfit (length fitfor)) as [Ha | Ha];
    destruct (Nat.eqb_spec (length coefs) (length fitfor)) as [Hc | Hc];
    cbn [negb andb];
    try (repeat split; try done; intros; try lia;
         match goal with H : _ \/ _ |- _ => destruct H; [lia | done] end;
         fail).
  all: split; [intros; lia |]; split; [intros; lia |];
    split; [intros; lia |]; split; [intros; try lia; try done |];
    intros _ Hvalid.
  all: destruct (design_system_total peakinfos fitfor nchannels dev_pairs coefs
                   coeffcn Hvalid) as (A & b & Hd & Hs1 & Hs2 & Hb & _);
    rewrite Hd; cbn [mbind outcome_bind obind normal_invertible];
    unfold solve_normal;
    destruct (matrix_invert (prod (trans A) A)) as [C |] eqn:Hinv;
    [right | by left].
  all: cbn [mbind outcome_bind obind].
  all: assert (HC : size1 C = nparsfit /\ size2 C = nparsfit);
    [ unfold matrix_invert in Hinv;
      destruct (lu_factorize (prod (trans A) A)) as [[res cells] pm];
      destruct (negb (res =? 0)%nat); [done |];
      injection Hinv as <-; simpl; by rewrite Hs2 | ].
  all: destruct HC as [HC1 HC2].
  all: destruct (store_solution_total fitfor C
                   (prod_vec C (prod_vec (trans A) b)) coefs coefs_uncert)
         as (coefs' & uncert' & Hstore & Hl1 & Hl2 & _);
    [done | done | by rewrite prod_vec_length | ].
  all: rewrite Hstore; cbn [mbind outcome_bind obind].
  all: destruct (chi2_of_total peakinfos fitfor nchannels dev_pairs coefs'
                   coeffcn Hl1) as [chi2 Hchi2].
  all: rewrite Hchi2; cbn [mbind outcome_bind obind].
  all: by exists chi2, coefs', uncert'.
Qed.

(** What a fit that returns has done. *)
Lemma fit_energy_cal_imp_result (peakinfos : list RecalPeakInfo)
    (fitfor : list bool) (nchannels : nat) (dev_pairs : list (float * float))
    (coefs coefs_uncert : list float) (coeffcn : coef_fcn)
    (chi2 : double) (coefs' uncert' : list float) :
  fit_energy_cal_imp peakinfos fitfor nchannels dev_pairs coefs coefs_uncert
    coeffcn
  = Ok (chi2, coefs', uncert') ->
  length coefs' = length fitfor /\ length uncert' = length fitfor
  /\ (forall i, fitfor !! i = Some false ->
        exists v, coefs !! i = Some v /\ coefs' !! i = Some v
                  /\ uncert' !! i = Some F32.zero)
  /\ exists A b C a,
       design_system peakinfos fitfor nchannels dev_pairs coefs coeffcn
       = Ok (A, b)
       /\ size1 A = length peakinfos /\ size2 A = nparsfit_of fitfor
       /\ (forall row, (row < length peakinfos)%nat ->
             b !! row
             = fixed_target peakinfos fitfor nchannels dev_pairs coefs coeffcn
                 row)
       /\ solve_normal "Trouble inverting least linear squares matrix" A b
          = Ok (C, a)
       /\ forall i, fitfor !! i = Some true ->
            exists v, a !! nparsfit_of (take i fitfor) = Some v
                      /\ coefs' !! i = Some (to_float v).
Proof.
  unfold fit_energy_cal_imp. intros Hrun.
  destruct (Nat.ltb_spec (length peakinfos) 1) as [Hp | Hp]; [done |].
  destruct (Nat.ltb_spec (nparsfit_of fitfor) 1) as [Hf | Hf]; [done |].
  destruct (Nat.ltb_spec (length peakinfos) (nparsfit_of fitfor)) as [Hm | Hm];
    [done |].
  assert (Hvalid : nparsfit_of fitfor = length fitfor
                   \/ length coefs = length fitfor).
  { destruct (Nat.eqb_spec (nparsfit_of fitfor) (length fitfor)); [by left |].
    destruct (Nat.eqb_spec (length coefs) (length fitfor)); [by right |].
    done. }
  replace (negb (nparsfit_of fitfor =? length fitfor)%nat
           && negb (length coefs =? length fitfor)%nat) with false in Hrun.
  2:{ destruct Hvalid as [-> | ->]; rewrite Nat.eqb_refl; simpl;
        by rewrite ?andb_false_r. }
  destruct (design_system_total peakinfos fitfor nchannels dev_pairs coefs
              coeffcn Hvalid) as (A & b & Hd & Hs1 & Hs2 & Hb & Hrows).
  rewrite Hd in Hrun. cbn [mbind outcome_bind obind] in Hrun.
  destruct (solve_normal_cases "Trouble inverting least linear squares matrix"
              A b) as [Hthrow | (C & a & Hsolve & HC1 & HC2 & Ha)].
  { by rewrite Hthrow in Hrun. }
  rewrite Hsolve in Hrun. cbn [mbind outcome_bind obind] in Hrun.
  destruct (store_solution_total fitfor C a coefs coefs_uncert)
    as (c1 & u1 & Hstore & Hl1 & Hl2 & Hfix & Hfree); [congruence.. |].
  rewrite Hstore in Hrun. cbn [mbind outcome_bind obind] in Hrun.
  apply bind_Ok in Hrun as (chi & _ & [= _ <- <-]).
  split; [done |]. split; [done |]. split.
  - intros i Hi. destruct (Hfix i Hi) as [Hc Hu].
    destruct Hvalid as [Hall | Hlen].
    { apply nparsfit_of_fixed in Hi. lia. }
    rewrite <- Hlen, vec_resize_same in Hc.
    destruct (lookup_lt_is_Some_2 coefs i) as [v Hv].
    { rewrite Hlen. by eapply lookup_lt_Some. }
    exists v. split; [done |]. split; [congruence | done].
  - exists A, b, C, a. repeat split; try done.
    intros i Hi. destruct (Hfree i Hi) as (v & c & Hv & _ & Hc & _).
    by exists v.
Qed.

(** C4: when the fit returns, both output vectors have one entry per entry
    of [fitfor]; a coefficient that is not fitted for keeps its input value and
    gets uncertainty zero; the free coefficients receive, in order, the
    entries of the solution of the normal equations, whose design matrix has
    one column per free coefficient and whose targets are the peak energies
    less the terms of the fixed coefficients. *)
Theorem fit_keeps_fixed_coefficients (peakinfos : list RecalPeakInfo)
    (fitfor : list bool) (nchannels : nat) (dev_pairs : list (float * float))
    (coefs coefs_uncert : list float) (coeffcn : coef_fcn)
    (chi2 : double) (coefs' uncert' : list float) :
  fit_energy_cal_imp peakinfos fitfor nchannels dev_pairs coefs coefs_uncert
    coeffcn
  = Ok (chi2, coefs', uncert') ->
  length coefs' = length fitfor /\ length uncert' = length fitfor
  /\ (forall i, fitfor !! i = Some false ->
        exists v, coefs !! i = Some v /\ coefs' !! i = Some v
                  /\ uncert' !! i = Some F32.zero)
  /\ exists A b C a,
       design_system peakinfos fitfor nchannels dev_pairs coefs coeffcn
       = Ok (A, b)
       /\ size1 A = length peakinfos /\ size2 A = nparsfit_of fitfor
       /\ (forall row, (row < length peakinfos)%nat ->
             b !! row
             = fixed_target peakinfos fitfor nchannels dev_pairs coefs coeffcn
                 row)
       /\ solve_normal "Trouble inverting least linear squares matrix" A b
          = Ok (C, a)
       /\ forall i, fitfor !! i = Some true ->
            exists v, a !! nparsfit_of (take i fitfor) = Some v
                      /\ coefs' !! i = Some (to_float v).
Proof. apply fit_energy_cal_imp_result. Qed.

(** *** The fit from channel energies *)

(** The check of the energies throws exactly when some entry is less than
    or equal to the one before it. *)
Lemma check_increasing_spec (channel_energies : list float) :
  check_increasing channel_energies
  = if energies_increase channel_energies then Ok tt
    else Throw "fit_from_channel_energies_imp: Input energies must be stricktly increasing".
Proof.
  induction channel_energies as [| x rest IH]; [done |].
  destruct rest as [| y rest]; [done |].
  unfold check_increasing.
  change (length (x :: y :: rest) - 1)%nat with (S (length rest)).
  cbn [seq for_each]. cbn [vec_at Nat.sub lookup list_lookup].
  cbn [mbind outcome_bind obind].
  change (energies_increase (x :: y :: rest))
    with (negb (F32.leb y x) && energies_increase (y :: rest)).
  destruct (F32.leb y x); [done |]. cbn [negb andb mbind outcome_bind obind].
  rewrite <- IH. unfold check_increasing.
  replace (length (y :: rest) - 1)%nat with (length rest) by (simpl; lia).
  rewrite <- seq_shift, for_each_fmap.
  apply for_each_ext. intros i [] Hi. apply in_seq in Hi.
  destruct i as [| i]; [lia |]. simpl. by rewrite Nat.sub_0_r.
Qed.

(** The design matrix of this fit: the entry at ([row], [col]) is the basis
    function called with [row] where its order stands and [col] where its
    channel stands, and the target of a row is the energy at that index. *)
Lemma channel_design_total (ncoeffs : nat) (channel_energies : list float)
    (coeffcn : coef_fcn) :
  exists A b,
    channel_design ncoeffs channel_energies coeffcn = Ok (A, b)
    /\ size1 A = length channel_energies /\ size2 A = ncoeffs
    /\ length b = length channel_energies
    /\ forall row e, channel_energies !! row = Some e ->
         b !! row = Some (F64.div (to_double e) F64.one)
         /\ forall col, (col < ncoeffs)%nat ->
              cell A row col
              = F64.div (coeffcn row (F64.of_nat col)
                           (length channel_energies - 1)%nat)
                        F64.one.
Proof.
  unfold channel_design.
  match goal with
  | |- context [for_each _ ?body ?s0] =>
      destruct (for_each_seq_total
        (fun k '(A, b) =>
           size1 A = length channel_energies /\ size2 A = ncoeffs
           /\ length b = length channel_energies
           /\ forall row e, (row < k)%nat ->
                channel_energies !! row = Some e ->
                b !! row = Some (F64.div (to_double e) F64.one)
                /\ forall col, (col < ncoeffs)%nat ->
                     cell A row col
                     = F64.div (coeffcn row (F64.of_nat col)
                                  (length channel_energies - 1)%nat)
                               F64.one)
        body (length channel_energies) 0 s0) as ([A b] & Hrun & Hinv)
  end.
  - simpl. rewrite length_replicate. repeat split; try done; intros; lia.
  - intros k [A b] Hk (Hs1 & Hs2 & Hb & Hrows).
    destruct (lookup_lt_is_Some_2 channel_energies k) as [e He]; [lia |].
    destruct (fill_row_total "A(row,col)" A k ncoeffs
                (fun col => F64.div (coeffcn k (F64.of_nat col)
                                       (length channel_energies - 1)%nat)
                                    F64.one))
      as (A' & Hfill & Hs1' & Hs2' & Hval & Hrest); [lia | lia |].
    rewrite Hfill. cbn [mbind outcome_bind obind].
    rewrite (proj2 (vec_at_Ok _ _ _ _) He). cbn [mbind outcome_bind obind].
    unfold vec_set. destruct (Nat.ltb_spec k (length b)); [| lia].
    cbn [mbind outcome_bind obind].
    eexists (_, _). split; [reflexivity |].
    rewrite length_insert. repeat split; try congruence.
    + destruct (decide (row = k)) as [-> | Hne].
      * rewrite list_lookup_insert_eq by lia. congruence.
      * rewrite list_lookup_insert_ne by done. apply Hrows; [lia | done].
    + intros col Hcol. destruct (decide (row = k)) as [-> | Hne].
      * by apply Hval.
      * rewrite Hrest by (by left).
        apply (Hrows row e0); [lia | done | done].
  - exists A, b. simpl in Hrun, Hinv. destruct Hinv as (? & ? & ? & Hrows).
    repeat split; try done.
    + eapply Hrows; [| done]. by eapply lookup_lt_Some.
    + eapply Hrows; [| done]. by eapply lookup_lt_Some.
Qed.

Lemma sum_abs_diffs_total (ncoeffs : nat) (channel_energies coefs : list float)
    (coeffcn : coef_fcn) :
  length coefs = ncoeffs ->
  exists d, sum_abs_diffs ncoeffs channel_energies coefs coeffcn = Ok d.
Proof.
  intros Hlen. unfold sum_abs_diffs.
  match goal with
  | |- context [for_each _ ?body ?s0] =>
      destruct (for_each_seq_total (fun _ _ => True) body
                  (length channel_energies) 0 s0) as (d & Hrun & _)
  end.
  - done.
  - intros k d Hk _.
    match goal with
    | |- context [for_each _ ?body ?s0] =>
        destruct (for_each_seq_total (fun _ _ => True) body ncoeffs 0 s0)
          as (y & Hy & _)
    end.
    + done.
    + intros i y Hi _.
      destruct (lookup_lt_is_Some_2 coefs i) as [c Hc]; [lia |].
      rewrite (proj2 (vec_at_Ok _ _ _ _) Hc). by eexists.
    + rewrite Hy. cbn [mbind outcome_bind obind].
      destruct (lookup_lt_is_Some_2 channel_energies k) as [e He]; [lia |].
      rewrite (proj2 (vec_at_Ok _ _ _ _) He). by eexists.
  - by exists d.
Qed.

(** [fit_from_channel_energies_imp] never reads or writes outside a vector
    or a matrix.  It refuses fewer than two and more than five coefficients,
    six or fewer energies, and energies that do not increase; inputs that
    pass end in the refusal to invert the normal matrix or in [ncoeffs]
    coefficients, the narrowed solution of the normal equations. *)
Lemma fit_from_channel_energies_imp_cases (ncoeffs : nat)
    (channel_energies : list float) (coeffcn : coef_fcn) (coefs : list float) :
  let nenergies := length channel_energies in
  let result :=
    fit_from_channel_energies_imp ncoeffs channel_energies coeffcn coefs in
  ((ncoeffs < 2)%nat ->
   result
   = Throw "fit_from_channel_energies_imp: You must request at least two coefficients")
  /\ ((6 <= ncoeffs)%nat ->
      result
      = Throw "fit_from_channel_energies_imp: You must request less than 6 coefficients")
  /\ ((2 <= ncoeffs < 6)%nat -> (nenergies <= 6)%nat ->
      result
      = Throw "fit_from_channel_energies_imp: Input energies must have at least 6 entries")
  /\ ((2 <= ncoeffs < 6)%nat -> (6 < nenergies)%nat ->
      energies_increase channel_energies = false ->
      result
      = Throw "fit_from_channel_energies_imp: Input energies must be stricktly increasing")
  /\ ((2 <= ncoeffs < 6)%nat -> (6 < nenergies)%nat ->
      energies_increase channel_energies = true ->
      exists A b,
        channel_design ncoeffs channel_energies coeffcn = Ok (A, b)
        /\ size1 A = nenergies /\ size2 A = ncoeffs
        /\ (forall row e, channel_energies !! row = Some e ->
              b !! row = Some (F64.div (to_double e) F64.one)
              /\ forall col, (col < ncoeffs)%nat ->
                   cell A row col
                   = F64.div (coeffcn row (F64.of_nat col) (nenergies - 1)%nat)
                             F64.one)
        /\ (result = Throw "Trouble inverting least linear squares matrix"
            \/ exists C a avrgdiffs,
                 solve_normal "Trouble inverting least linear squares matrix"
                   A b = Ok (C, a)
                 /\ length a = ncoeffs
                 /\ sum_abs_diffs ncoeffs channel_energies (map to_float a)
                      coeffcn = Ok avrgdiffs
                 /\ result
                    = Ok (F64.div avrgdiffs (F64.of_nat nenergies),
                          map to_float a))).
Proof.
  intros nenergies result. subst result. unfold fit_from_channel_energies_imp.
  fold nenergies.
  destruct (Nat.ltb_spec ncoeffs 2) as [H2 | H2].
  { repeat split; try done; intros; lia. }
  destruct (Nat.leb_spec 6 ncoeffs) as [H6 | H6].
  { repeat split; try done; intros; lia. }
  destruct (Nat.leb_spec nenergies 6) as [He | He].
  { repeat split; try done; intros; lia. }
  rewrite check_increasing_spec.
  destruct (energies_increase channel_energies) eqn:Hinc;
    cbn [mbind outcome_bind obind].
  2:{ repeat split; try done; intros; lia. }
  split; [intros; lia |]. split; [intros; lia |]. split; [intros; lia |].
  split; [done |]. intros _ _ _.
  destruct (channel_design_total ncoeffs channel_energies coeffcn)
    as (A & b & Hd & Hs1 & Hs2 & Hb & Hrows).
  exists A, b. rewrite Hd. cbn [mbind outcome_bind obind].
  repeat split; try done; try (by eapply Hrows).
  destruct (solve_normal_cases "Trouble inverting least linear squares matrix"
              A b) as [Hthrow | (C & a & Hsolve & _ & _ & Ha)].
  { left. by rewrite Hthrow. }
  right. rewrite Hsolve. cbn [mbind outcome_bind obind].
  rewrite copy_solution_total;
    [| congruence | by rewrite vec_resize_length].
  cbn [mbind outcome_bind obind].
  destruct (sum_abs_diffs_total ncoeffs channel_energies (map to_float a)
              coeffcn) as [d Hdiffs].
  { rewrite length_map. congruence. }
  rewrite Hdiffs. cbn [mbind outcome_bind obind].
  exists C, a, d. repeat split; [congruence | done].
Qed.

(** C5 (as amended): the two fits from channel energies.  Both refuse
    fewer than two and more than five coefficients, fewer than six energies,
    and energies of which one is greater than or equal to the next; the
    full-range-fraction fit also refuses five coefficients.  With two to five
    coefficients (two to four for the full-range-fraction fit) and more than
    six increasing energies a fit refuses to invert its normal matrix or
    returns the fitted coefficients with the mean, over the energies, of the
    absolute difference between what the fitted system gives and the
    energy. *)
Theorem channel_energies_fit_requirements (ncoeffs : nat)
    (channel_energies coefs : list float) :
  let nenergies := length channel_energies in
  let poly := fit_poly_from_channel_energies ncoeffs channel_energies coefs in
  let frf :=
    fit_full_range_fraction_from_channel_energies ncoeffs channel_energies
      coefs in
  let fitted (coeffcn : coef_fcn) (result : outcome (double * list float)) :=
    result = Throw "Trouble inverting least linear squares matrix"
    \/ exists A b C a avrgdiffs,
         channel_design ncoeffs channel_energies coeffcn = Ok (A, b)
         /\ solve_normal "Trouble inverting least linear squares matrix" A b
            = Ok (C, a)
         /\ length a = ncoeffs
         /\ sum_abs_diffs ncoeffs channel_energies (map to_float a) coeffcn
            = Ok avrgdiffs
         /\ result
            = Ok (F64.div avrgdiffs (F64.of_nat nenergies), map to_float a) in
  ((ncoeffs < 2 \/ 5 < ncoeffs)%nat ->
   is_throw poly = true /\ is_throw frf = true)
  /\ ((5 <= ncoeffs)%nat ->
      frf
      = Throw "fit_full_range_fraction_from_channel_energies: You must request less than 5 coefficients")
  /\ ((nenergies < 6)%nat -> is_throw poly = true /\ is_throw frf = true)
  /\ (energies_increase channel_energies = false ->
      is_throw poly = true /\ is_throw frf = true)
  /\ ((2 <= ncoeffs <= 5)%nat -> (6 < nenergies)%nat ->
      energies_increase channel_energies = true ->
      fitted poly_coef_fcn poly)
  /\ ((2 <= ncoeffs <= 4)%nat -> (6 < nenergies)%nat ->
      energies_increase channel_energies = true ->
      fitted frf_coef_fcn frf).
Proof.
  intros nenergies poly frf fitted.
  assert (Himp : forall coeffcn : coef_fcn,
            let result :=
              fit_from_channel_energies_imp ncoeffs channel_energies coeffcn
                coefs in
            ((ncoeffs < 2 \/ 5 < ncoeffs)%nat -> is_throw result = true)
            /\ ((nenergies < 6)%nat -> is_throw result = true)
            /\ (energies_increase channel_energies = false ->
                is_throw result = true)
            /\ ((2 <= ncoeffs <= 5)%nat -> (6 < nenergies)%nat ->
                energies_increase channel_energies = true ->
                fitted coeffcn result)).
  { intros coeffcn result.
    destruct (fit_from_channel_energies_imp_cases ncoeffs channel_energies
                coeffcn coefs) as (H1 & H2 & H3 & H4 & H5).
    fold nenergies in H3, H4, H5. fold result in H1, H2, H3, H4, H5.
    assert (Hbad : (ncoeffs < 2 \/ 5 < ncoeffs)%nat -> is_throw result = true).
    { intros [Hlt | Hgt]; [rewrite H1 by done | rewrite H2 by lia]; done. }
    split; [exact Hbad |].
    assert (Hfew : (nenergies <= 6)%nat -> is_throw result = true).
    { intros Hfew. destruct (le_lt_dec 2 ncoeffs); [| apply Hbad; lia].
      destruct (le_lt_dec 6 ncoeffs); [apply Hbad; lia |].
      by rewrite H3 by lia. }
    split; [intros; apply Hfew; lia |]. split.
    - intros Hinc. destruct (le_lt_dec 2 ncoeffs); [| apply Hbad; lia].
      destruct (le_lt_dec 6 ncoeffs); [apply Hbad; lia |].
      destruct (le_lt_dec nenergies 6); [by apply Hfew |].
      by rewrite H4 by (done || lia).
    - intros Hn He Hinc.
      destruct H5 as (A & b & Hd & _ & _ & _ & [Hthrow | Hok]);
        [lia | lia | done | by left |].
      destruct Hok as (C & a & avrgdiffs & Hsolve & Ha & Hdiffs & Hok).
      right. by exists A, b, C, a, avrgdiffs. }
  assert (Hfive : (5 <= ncoeffs)%nat ->
            frf
            = Throw "fit_full_range_fraction_from_channel_energies: You must request less than 5 coefficients").
  { intros H5. subst frf.
    unfold fit_full_range_fraction_from_channel_energies.
    by destruct (Nat.leb_spec 5 ncoeffs); [| lia]. }
  assert (Hfrf : (ncoeffs < 5)%nat ->
            frf = fit_from_channel_energies_imp ncoeffs channel_energies
                    frf_coef_fcn coefs).
  { intros H5. subst frf.
    unfold fit_full_range_fraction_from_channel_energies.
    by destruct (Nat.leb_spec 5 ncoeffs); [lia |]. }
  assert (Hthrows : forall P : Prop,
            (forall coeffcn,
               P -> is_throw (fit_from_channel_energies_imp ncoeffs
                                channel_energies coeffcn coefs) = true) ->
            P -> is_throw poly = true /\ is_throw frf = true).
  { intros P HP Hp. split; [by apply HP |].
    destruct (le_lt_dec 5 ncoeffs) as [H5 | H5].
    - by rewrite Hfive.
    - rewrite Hfrf by done. by apply HP. }
  split; [apply Hthrows; intros coeffcn; apply (Himp coeffcn) |].
  split; [exact Hfive |].
  split; [apply Hthrows; intros coeffcn; apply (Himp coeffcn) |].
  split; [apply Hthrows; intros coeffcn; apply (Himp coeffcn) |].
  split.
  - apply (Himp poly_coef_fcn).
  - intros Hn He Hinc. rewrite Hfrf by lia.
    apply (Himp frf_coef_fcn); [lia | done | done].
Qed.

(** X3: the design matrix of the fits from channel energies is filled inside
    its bounds, one row per energy and one column per coefficient.  Its entry
    in row [row] and column [col] is the basis function called with the row
    where its order stands and the column where its channel stands: for the
    polynomial fit that is the power [row] of [col]. *)
Theorem channel_design_entries (ncoeffs : nat) (channel_energies : list float)
    (coeffcn : coef_fcn) :
  exists A b,
    channel_design ncoeffs channel_energies coeffcn = Ok (A, b)
    /\ size1 A = length channel_energies /\ size2 A = ncoeffs
    /\ (forall row e, channel_energies !! row = Some e ->
          b !! row = Some (F64.div (to_double e) F64.one)
          /\ forall col, (col < ncoeffs)%nat ->
               cell A row col
               = F64.div (coeffcn row (F64.of_nat col)
                            (length channel_energies - 1)%nat)
                         F64.one)
    /\ (coeffcn = poly_coef_fcn ->
        forall row col,
          (row < length channel_energies)%nat -> (col < ncoeffs)%nat ->
          cell A row col
          = F64.div (pow (F64.of_nat col) (F64.of_nat row)) F64.one).
Proof.
  destruct (channel_design_total ncoeffs channel_energies coeffcn)
    as (A & b & Hd & Hs1 & Hs2 & _ & Hrows).
  exists A, b. do 4 (split; [done |]).
  intros -> row col Hrow Hcol.
  destruct (lookup_lt_is_Some_2 channel_energies row Hrow) as [e He].
  destruct (Hrows row e He) as [_ Hcells]. by rewrite Hcells.
Qed.

(** C6: when the original and the new calibration are the same instance,
    the other calibration's pointer is returned as it is, and nothing is
    allocated.  When they are different instances, whatever their contents,
    the answer is never the other calibration's pointer: if the call returns,
    it returns the object that it allocated at the next free address. *)
Theorem propagate_same_instance (next : positive) (orig new_ other : CalRef) :
  cal_valid (cal_obj orig) = true -> cal_valid (cal_obj new_) = true ->
  cal_valid (cal_obj other) = true ->
  cal_type (cal_obj orig) <> LowerChannelEdge ->
  cal_type (cal_obj new_) <> LowerChannelEdge ->
  (cal_addr orig = cal_addr new_ ->
   propogate_energy_cal_change next (Some orig) (Some new_) (Some other)
   = Ok (other, next))
  /\ (cal_addr orig <> cal_addr new_ ->
      forall answer next',
        propogate_energy_cal_change next (Some orig) (Some new_) (Some other)
        = Ok (answer, next') ->
        cal_addr answer = next /\ next' = Pos.succ next
        /\ ((cal_addr other < next)%positive -> answer <> other)).
Proof.
  intros Ho Hn Hother Hto Htn.
  assert (Hlo : is_lower_channel_edge orig = false).
  { unfold is_lower_channel_edge. by destruct (cal_type (cal_obj orig)). }
  assert (Hln : is_lower_channel_edge new_ = false).
  { unfold is_lower_channel_edge. by destruct (cal_type (cal_obj new_)). }
  unfold propogate_energy_cal_change. rewrite Ho, Hn, Hother, Hlo, Hln.
  cbn [negb orb ptr_eqb]. split.
  - intros ->. by rewrite Pos.eqb_refl.
  - intros Hne answer next' Hrun.
    apply Pos.eqb_neq in Hne. rewrite Hne in Hrun.
    assert (Hfresh : answer.(cal_addr) = next /\ next' = Pos.succ next).
    { destruct (is_lower_channel_edge other).
      - apply fmap_Ok in Hrun as (obj & _ & [= -> ->]). done.
      - apply bind_Ok in Hrun as (pairs & _ & Hrun).
        destruct (cal_type (cal_obj other)).
        + apply bind_Ok in Hrun as (coefs & _ & Hrun).
          apply fmap_Ok in Hrun as (obj & _ & [= -> ->]). done.
        + apply bind_Ok in Hrun as (coefs & _ & Hrun).
          apply fmap_Ok in Hrun as (obj & _ & [= -> ->]). done.
        + injection Hrun as <- <-. done.
        + apply bind_Ok in Hrun as (coefs & _ & Hrun).
          apply fmap_Ok in Hrun as (obj & _ & [= -> ->]). done.
        + injection Hrun as <- <-. done. }
    destruct Hfresh as [Ha ->]. repeat split; [done |].
    intros Hlt ->. lia.
Qed.

End EnergyCalProperties.

Section EnergyCalExamples.
#[local] Existing Instance Reference.reference_numerics.

(** C6, witness: with one instance for the original and the new calibration
    the other pointer comes back; with two instances of equal contents a new
    object at the next free address does. *)
Lemma propagate_same_instance_witness :
  let other := Scenarios.cal_at 3 in
  propogate_energy_cal_change 4 (Some (Scenarios.cal_at 1))
    (Some (Scenarios.cal_at 1)) (Some other) = Ok (other, 4%positive)
  /\ exists answer,
       propogate_energy_cal_change 4 (Some (Scenarios.cal_at 1))
         (Some (Scenarios.cal_at 2)) (Some other) = Ok (answer, 5%positive)
       /\ cal_obj (Scenarios.cal_at 1) = cal_obj (Scenarios.cal_at 2)
       /\ cal_addr answer = 4%positive /\ answer <> other.
Proof.
  intros other. split.
  - by apply (propagate_same_instance 4 (Scenarios.cal_at 1)
                (Scenarios.cal_at 1) other).
  - destruct (propagate_same_instance 4 (Scenarios.cal_at 1)
                (Scenarios.cal_at 2) other) as [_ Hnew];
      [reflexivity | reflexivity | reflexivity | by intros [=] | by intros [=] |].
    assert (Haddr : cal_addr (Scenarios.cal_at 1)
                    <> cal_addr (Scenarios.cal_at 2)) by (by intros [=]).
    assert (Hok : is_ok (propogate_energy_cal_change 4
                           (Some (Scenarios.cal_at 1))
                           (Some (Scenarios.cal_at 2)) (Some other)) = true)
      by (vm_compute; reflexivity).
    destruct (propogate_energy_cal_change 4 (Some (Scenarios.cal_at 1))
                (Some (Scenarios.cal_at 2)) (Some other))
      as [[answer next'] | what | where_] eqn:Hrun;
      [| discriminate Hok | discriminate Hok].
    destruct (Hnew Haddr answer next' eq_refl) as (Ha & Hnext & Hne).
    exists answer. rewrite Hnext.
    split; [reflexivity |]. split; [reflexivity |]. split; [exact Ha |].
    apply Hne. reflexivity.
Defined.

(** C7, witness: five points and five terms, where the write to column 5
    is outside the matrix; four terms on the same points stay inside. *)
Lemma frf_fit_outcomes_witness :
  fit_for_fullrangefraction_coefs Scenarios.five_points 1024 5
  = Fault "A(row,5)"
  /\ (fit_for_fullrangefraction_coefs Scenarios.five_points 1024 4
      = Throw "fit_for_fullrangefraction_coefs(...): trouble inverting matrix"
      \/ exists coefs,
           fit_for_fullrangefraction_coefs Scenarios.five_points 1024 4
           = Ok coefs /\ length coefs = 4%nat).
Proof.
  split.
  - destruct (frf_fit_outcomes Scenarios.five_points 1024 5)
      as (_ & Hfive & _).
    apply Hfive. split; [discriminate | lia].
  - destruct (frf_fit_outcomes Scenarios.five_points 1024 4)
      as (_ & _ & _ & _ & Hfour).
    apply Hfour. right. lia.
Defined.

(** C7 at the failing input: the five points of a line and five terms.  The
    design matrix that is allocated has the columns 0 to 4, and the fit ends
    in the write at column 5. *)
Lemma frf_five_terms_write_outside_matrix :
  size2 (matrix_new (length Scenarios.five_points) (Nat.min 5 5)) = 5%nat
  /\ frf_design Scenarios.five_points 1024 5 = Fault "A(row,5)"
  /\ fit_for_fullrangefraction_coefs Scenarios.five_points 1024 5
     = Fault "A(row,5)".
Proof. repeat split. Qed.

(** X2, witness: a gain change on a polynomial detector, propagated to a
    detector whose full-range-fraction calibration has five coefficients. *)
Lemma propagate_frf_five_coefficients_witness :
  propogate_energy_cal_change 4 (Some (Scenarios.cal_at 1))
    (Some Scenarios.cal_new_gain) (Some Scenarios.cal_frf_five)
  = Fault "A(row,5)".
Proof.
  apply propagate_frf_five_coefficients;
    [reflexivity | reflexivity | reflexivity | discriminate | discriminate
    | discriminate | reflexivity | vm_compute; lia | vm_compute; reflexivity].
Defined.

(** C4, witness: scenario B, where the offset is held at zero and the gain
    is fitted to one peak. *)
Lemma fit_keeps_fixed_coefficients_witness :
  exists chi2 coefs' uncert',
    fit_energy_cal_poly [Scenarios.peak_B] [false; true] 1024 []
      [F32.zero; F32.of_Z 1] [F32.zero; F32.zero]
    = Ok (chi2, coefs', uncert')
    /\ length coefs' = 2%nat
    /\ coefs' !! 0%nat = Some F32.zero /\ uncert' !! 0%nat = Some F32.zero.
Proof.
  assert (Hok : is_ok (fit_energy_cal_poly [Scenarios.peak_B] [false; true]
                         1024 [] [F32.zero; F32.of_Z 1] [F32.zero; F32.zero])
                = true) by (vm_compute; reflexivity).
  destruct (fit_energy_cal_poly [Scenarios.peak_B] [false; true] 1024 []
              [F32.zero; F32.of_Z 1] [F32.zero; F32.zero])
    as [[[chi2 coefs'] uncert'] | what | where_] eqn:Hrun;
    [| discriminate Hok | discriminate Hok].
  destruct (fit_keeps_fixed_coefficients _ _ _ _ _ _ _ _ _ _ Hrun)
    as (Hl1 & _ & Hfix & _).
  destruct (Hfix 0%nat eq_refl) as (v & Hv & Hc & Hu).
  injection Hv as <-.
  exists chi2, coefs', uncert'.
  split; [reflexivity |]. split; [exact Hl1 |]. split; [exact Hc | exact Hu].
Defined.

(** C8, witness: scenario B passes the four checks, and its normal matrix
    inverts. *)
Lemma fit_energy_cal_imp_outcomes_witness :
  exists chi2 coefs' uncert',
    fit_energy_cal_poly [Scenarios.peak_B] [false; true] 1024 []
      [F32.zero; F32.of_Z 1] [F32.zero; F32.zero]
    = Ok (chi2, coefs', uncert').
Proof.
  destruct (fit_energy_cal_imp_outcomes [Scenarios.peak_B] [false; true] 1024
              [] [F32.zero; F32.of_Z 1] [F32.zero; F32.zero] poly_coef_fcn)
    as (_ & _ & _ & _ & Hvalid).
  destruct Hvalid as [[_ Hsingular] | (chi2 & coefs' & uncert' & Hok & _)].
  - split; [apply Nat.lt_0_1 | apply Nat.le_refl].
  - right. reflexivity.
  - vm_compute in Hsingular. discriminate Hsingular.
  - exists chi2, coefs', uncert'. exact Hok.
Defined.

(** C8, counterexample: one peak and two coefficients that are both held
    fixed, with their two input values.  There are not fewer peaks than free
    coefficients, the input coefficients are as many as the entries of
    [fitfor], and the empty normal matrix is inverted; the fit is refused all
    the same. *)
Lemma all_fixed_fit_is_refused :
  let fitfor := [false; false] in
  let coefs := [F32.zero; F32.of_Z 3] in
  ~ (length [Scenarios.peak_B] < nparsfit_of fitfor)%nat
  /\ length coefs = length fitfor
  /\ normal_invertible
       (design_system [Scenarios.peak_B] fitfor 1024 [] coefs poly_coef_fcn)
     = true
  /\ fit_energy_cal_poly [Scenarios.peak_B] fitfor 1024 [] coefs
       [F32.zero; F32.zero]
     = Throw "Must fit for at least one coefficient".
Proof.
  split; [vm_compute; lia |]. split; [reflexivity |].
  split; vm_compute; reflexivity.
Qed.

(** C5, witness: seven energies on a line and two coefficients. *)
Lemma channel_energies_fit_requirements_witness :
  exists avrgdiffs coefs,
    fit_poly_from_channel_energies 2 Scenarios.seven_energies []
    = Ok (avrgdiffs, coefs)
    /\ length coefs = 2%nat.
Proof.
  destruct (channel_energies_fit_requirements 2 Scenarios.seven_energies [])
    as (_ & _ & _ & _ & Hpoly & _).
  destruct Hpoly as [Hthrow | Hok].
  - lia.
  - vm_compute. lia.
  - reflexivity.
  - assert (Hrun : is_ok (fit_poly_from_channel_energies 2
                            Scenarios.seven_energies []) = true)
      by (vm_compute; reflexivity).
    rewrite Hthrow in Hrun. discriminate Hrun.
  - destruct Hok as (A & b & C & a & avrgdiffs & _ & _ & Ha & _ & Hok).
    exists (F64.div avrgdiffs (F64.of_nat (length Scenarios.seven_energies))),
      (map to_float a).
    split; [exact Hok |]. rewrite length_map. exact Ha.
Defined.

(** C5, counterexample: seven increasing energies and five coefficients.
    The polynomial fit takes them; the full-range-fraction fit refuses. *)
Lemma frf_refuses_five_coefficients :
  energies_increase Scenarios.seven_energies = true
  /\ (6 <= length Scenarios.seven_energies)%nat
  /\ fit_full_range_fraction_from_channel_energies 5 Scenarios.seven_energies []
     = Throw "fit_full_range_fraction_from_channel_energies: You must request less than 5 coefficients".
Proof.
  split; [vm_compute; reflexivity |]. split; [vm_compute; lia |].
  reflexivity.
Qed.

End EnergyCalExamples.

(** ** The GADRAS version and the initialisation codes *)

Section VersionProperties.

(** X6: the version string spells the three parts of a version number
    [10000*major + 100*minor + revision] back out. *)
Theorem gadras_version_string_parts (major minor revision : Z) :
  0 <= major -> 0 <= minor < 100 -> 0 <= revision < 100 ->
  gadras_version_string (10000 * major + 100 * minor + revision)
  = pretty major +:+ "." +:+ pretty minor +:+ "." +:+ pretty revision.
Proof.
  intros Hmajor Hminor Hrevision. unfold gadras_version_string.
  assert (Hq : Z.quot (10000 * major + 100 * minor + revision) 10000 = major).
  { rewrite Z.quot_div_nonneg by lia. symmetry.
    apply (Z.div_unique _ _ _ (100 * minor + revision)); lia. }
  assert (Hr : Z.rem (10000 * major + 100 * minor + revision) 10000
               = 100 * minor + revision).
  { rewrite Z.rem_mod_nonneg by lia. symmetry.
    apply (Z.mod_unique _ _ major); lia. }
  assert (Hm : Z.quot (100 * minor + revision) 100 = minor).
  { rewrite Z.quot_div_nonneg by lia. symmetry.
    apply (Z.div_unique _ _ _ revision); lia. }
  assert (Hv : Z.rem (10000 * major + 100 * minor + revision) 100 = revision).
  { rewrite Z.rem_mod_nonneg by lia. symmetry.
    apply (Z.mod_unique _ _ (100 * major + minor)); lia. }
  by rewrite Hq, Hr, Hm, Hv.
Qed.

(** X5: an initialisation code passes exactly when it is not negative; every
    negative code throws a message that starts with "DRF Init Error: ". *)
Theorem check_init_results_sign (status : Z) :
  (check_init_results status = Ok tt <-> 0 <= status)
  /\ (status < 0 ->
      exists reason,
        check_init_results status = Throw ("DRF Init Error: " +:+ reason)).
Proof.
  unfold check_init_results.
  repeat match goal with
         | |- context [?a =? ?b] => destruct (Z.eqb_spec a b)
         | |- context [?a <? ?b] => destruct (Z.ltb_spec a b)
         end;
    cbn [orb];
    first [ split; [split; [done | lia] | intros _; by eexists]
          | split; [split; [intros _; lia | done] | intros; lia] ].
Qed.

End VersionProperties.

(** ** Switching between the two initialisations *)

Section CacheModeProperties.
Context {Eng : Type} `{!Gadras Eng}.

(** X7: the cache holds one mode at a time: after a calibrated initialisation
    has succeeded, a raw request for the same detector response and channel
    count calls the library again, and so does a calibrated request after a
    raw initialisation has succeeded. *)
Theorem cache_mode_switch (w : Worker Eng) (drf : string)
    (nchannel num_detectors : Z) (cal_type : AutoGainAdjustType) :
  let raw := init_gadras_drf_raw drf nchannel num_detectors cal_type w in
  let cal := init_gadras_drf_calibrated drf nchannel w in
  (cal.1 = 0 ->
   calls (init_gadras_drf_raw drf nchannel num_detectors cal_type cal.2).2
   = calls cal.2
     ++ [CallInitRaw (g_gad_app_folder cal.2) drf nchannel num_detectors
           (calTag_of cal_type)])
  /\ (raw.1 = 0 ->
      calls (init_gadras_drf_calibrated drf nchannel raw.2).2
      = calls raw.2 ++ [CallInitCalibrated (g_gad_app_folder raw.2) drf nchannel]).
Proof.
  intros raw cal. subst raw cal. split.
  - intros Hok.
    assert (Hcal : g_gad_calibrated
                     (cache (init_gadras_drf_calibrated drf nchannel w).2)
                   = true).
    { destruct (calibrated_cases w drf nchannel)
        as [[(Hd & Hn & Hc) Hrun] | (rc & e & Hrun)];
        rewrite Hrun in Hok |- *; simpl in *; [done |].
      subst rc. done. }
    apply raw_miss_calls. intros Hc. rewrite Hc in Hcal. done.
  - intros Hok.
    assert (Hraw : g_gad_calibrated
                     (cache (init_gadras_drf_raw drf nchannel num_detectors
                               cal_type w).2)
                   = false).
    { destruct (raw_cases w drf nchannel num_detectors cal_type)
        as [[Hc Hrun] | [Hc (rv & e & Hrun)]];
        rewrite Hrun in Hok |- *; simpl in *; [by rewrite Hc |].
      subst rv. done. }
    set (w1 := (init_gadras_drf_raw drf nchannel num_detectors cal_type w).2)
      in *.
    unfold init_gadras_drf_calibrated. rewrite Hraw.
    rewrite andb_false_r.
    destruct (InitializeIsotopeIdCalibrated _ _ _ _) as [rc e].
    by destruct (rc =? 0).
Qed.

End CacheModeProperties.

(** ** The background of the search analysis *)

Section SearchProperties.
Context {Eng : Type} `{!Gadras Eng} `{!Collaborators Eng}.

Lemma elem_of_in_order (s : gset Z) (x : Z) : x ∈ in_order s <-> x ∈ s.
Proof.
  unfold in_order. rewrite merge_sort_Permutation. apply elem_of_elements.
Qed.

(** The sample the loop remembers is the initial one, with its real time of
    -999.9 s, or a sample of the set with that sample's real time. *)
Lemma longest_background_spec (f : SpecFile) (backgrounds : gset Z) :
  longest_background f backgrounds = (-999999, F32.lit (-9999) 10)
  \/ exists sample,
       sample ∈ backgrounds
       /\ longest_background f backgrounds
          = (sample, real_time_of_sample f sample).
Proof.
  unfold longest_background.
  assert (Hin : forall x, x ∈ in_order backgrounds -> x ∈ backgrounds)
    by (intros x; apply elem_of_in_order).
  revert Hin. generalize (in_order backgrounds). intros l.
  assert (Hgen : forall acc : Z * float,
            (acc = (-999999, F32.lit (-9999) 10)
             \/ exists sample, sample ∈ backgrounds
                  /\ acc = (sample, real_time_of_sample f sample)) ->
            (forall x, x ∈ l -> x ∈ backgrounds) ->
            let r := fold_left
                       (fun '(longest_sample, longest_rt) sample =>
                          let rt := real_time_of_sample f sample in
                          if F32.ltb F32.zero rt && negb (F32.is_nan rt)
                             && negb (F32.is_inf rt) && F32.ltb longest_rt rt
                          then (sample, rt)
                          else (longest_sample, longest_rt))
                       l acc in
            r = (-999999, F32.lit (-9999) 10)
            \/ exists sample, sample ∈ backgrounds
                 /\ r = (sample, real_time_of_sample f sample)).
  { induction l as [| x l IH]; intros acc Hacc Hin; simpl; [done |].
    apply IH; [| intros y Hy; apply Hin; by right].
    destruct acc as [ls lrt]. destruct (_ && _); [| done].
    right. exists x. split; [apply Hin; by left | done]. }
  intros Hin. apply Hgen; [by left | done].
Qed.

(** X8: the background handed to the engine is the set of background samples
    that was found, or one of its samples: a sample with more than 55 s of
    real time, taken when more than one sample was found and every detector
    has a spectrum of at least 64 channels for it.  It is empty only when
    nothing was found. *)
Theorem select_background_among_found (f : SpecFile) (ndet : nat)
    (backgrounds : gset Z) :
  let chosen := select_background f ndet backgrounds in
  chosen ⊆ backgrounds
  /\ (backgrounds <> ∅ -> chosen <> ∅)
  /\ (chosen = backgrounds
      \/ exists sample,
           chosen = {[sample]} /\ sample ∈ backgrounds
           /\ (1 < size backgrounds)%nat
           /\ F32.ltb (F32.of_Z 55) (real_time_of_sample f sample) = true
           /\ length (filter (fun m => is_spectrum 64 m = true)
                        (sample_measurements f sample)) = ndet).
Proof.
  intros chosen. subst chosen. unfold select_background.
  destruct (Nat.ltb_spec 1 (size backgrounds)) as [Hsize | Hsize];
    [| by repeat split; [| | left]].
  destruct (longest_background f backgrounds) as [ls lrt] eqn:Hlong.
  destruct (F32.ltb (F32.of_Z 55) lrt) eqn:Hrt; [| by repeat split; [| | left]].
  destruct (Nat.eqb_spec
              (length (filter (fun m => is_spectrum 64 m = true)
                         (sample_measurements f ls))) ndet) as [Hn | Hn];
    [| by repeat split; [| | left]].
  destruct (longest_background_spec f backgrounds)
    as [Hinit | (sample & Hin & Hsample)].
  { rewrite Hinit in Hlong. injection Hlong as <- <-.
    vm_compute in Hrt. discriminate Hrt. }
  rewrite Hsample in Hlong. injection Hlong as <- <-.
  repeat split.
  - set_solver.
  - intros _. set_solver.
  - right. exists sample. by repeat split.
Qed.

End SearchProperties.


Section VersionExamples.

(** X6, witness: version 18.1.1. *)
Lemma gadras_version_string_parts_witness :
  gadras_version_string 180101 = "18.1.1".
Proof.
  apply (gadras_version_string_parts 18 1 1); lia.
Defined.

End VersionExamples.

Section CacheModeExamples.
#[local] Existing Instance Reference.scripted_gadras.
#[local] Existing Instance Reference.plain_collaborators.

(** X7, witness: after a calibrated initialisation that succeeds, the raw
    request for the same response and channel count is a second call. *)
Lemma cache_mode_switch_witness :
  let w := Reference.fresh_worker [0; 0] in
  let cal := init_gadras_drf_calibrated "drfs/GR135" 1024 w in
  calls (init_gadras_drf_raw "drfs/GR135" 1024 1 AGA_K40 cal.2).2
  = [CallInitCalibrated "gadras_isotope_id_run_directory" "drfs/GR135" 1024;
     CallInitRaw "gadras_isotope_id_run_directory" "drfs/GR135" 1024 1 "k"].
Proof.
  intros w cal.
  destruct (cache_mode_switch w "drfs/GR135" 1024 1 AGA_K40) as [Hcal _].
  apply Hcal. reflexivity.
Defined.

End CacheModeExamples.

(** ** Portal data and derived data *)

Section PortalProperties.

Lemma portal_found_mono (fore fore' back back' : gset Z) :
  fore ⊆ fore' -> back ⊆ back' ->
  portal_found fore back = true -> portal_found fore' back' = true.
Proof.
  unfold portal_found. intros Hf Hb.
  rewrite !andb_true_iff, !negb_true_iff, !bool_decide_eq_false.
  intros [Hne Hsize]. apply Nat.leb_le in Hsize. split.
  - set_solver.
  - apply Nat.leb_le. apply subseteq_size in Hf. lia.
Qed.

(** The sample numbers the loop would collect without its [break]. *)
Lemma portal_scan_found (ms : list Measurement) (fore back : gset Z) :
  let '(fore', back') := portal_scan ms fore back in
  portal_found fore' back'
  = portal_found
      (fore ∪ list_to_set
                (sample_number
                   <$> filter (fun m => portal_foreground m = true) ms))
      (back ∪ list_to_set
                (sample_number
                   <$> filter (fun m => portal_background m = true) ms)).
Proof.
  revert fore back. induction ms as [| m rest IH]; intros fore back.
  - simpl. by rewrite !union_empty_r_L.
  - cbn [portal_scan].
    set (back1 := if portal_background m then {[sample_number m]} ∪ back
                  else back).
    set (fore1 := if portal_foreground m then {[sample_number m]} ∪ fore
                  else fore).
    assert (Hfore : fore1 ∪ list_to_set
                      (sample_number
                         <$> filter (fun m => portal_foreground m = true) rest)
                    = fore ∪ list_to_set
                        (sample_number
                           <$> filter (fun m => portal_foreground m = true)
                                 (m :: rest))).
    { subst fore1. destruct (portal_foreground m) eqn:Hm.
      - rewrite filter_cons_True by done. set_solver.
      - rewrite filter_cons_False by congruence. done. }
    assert (Hback : back1 ∪ list_to_set
                      (sample_number
                         <$> filter (fun m => portal_background m = true) rest)
                    = back ∪ list_to_set
                        (sample_number
                           <$> filter (fun m => portal_background m = true)
                                 (m :: rest))).
    { subst back1. destruct (portal_background m) eqn:Hm.
      - rewrite filter_cons_True by done. set_solver.
      - rewrite filter_cons_False by congruence. done. }
    destruct (portal_found fore1 back1) eqn:Hfound.
    + rewrite Hfound. symmetry. rewrite <- Hfore, <- Hback.
      apply (portal_found_mono fore1 _ back1); [set_solver | set_solver | done].
    + specialize (IH fore1 back1).
      destruct (portal_scan rest fore1 back1) as [fore' back'].
      by rewrite IH, Hfore, Hback.
Qed.

(** X11: the [break] of [is_portal_data] changes nothing: a file is portal data
    exactly when some measurement of 32 or more channels and 30 s or more is
    a background or not occupied, and the measurements of 32 or more channels
    and at most 2 s that are foreground, unknown or occupied have at least
    three different sample numbers.  A null file is not portal data. *)
Theorem is_portal_data_spec (f : SpecFile) :
  is_portal_data None = false
  /\ (is_portal_data (Some f) = true
      <-> (exists m, m ∈ measurements f /\ portal_background m = true)
          /\ (3 <= size (list_to_set
                           (sample_number
                              <$> filter (fun m => portal_foreground m = true)
                                    (measurements f)) : gset Z))%nat).
Proof.
  split; [done |]. unfold is_portal_data.
  pose proof (portal_scan_found (measurements f) ∅ ∅) as Hscan.
  destruct (portal_scan (measurements f) ∅ ∅) as [fore back].
  rewrite Hscan, !union_empty_l_L. unfold portal_found.
  rewrite andb_true_iff, negb_true_iff, bool_decide_eq_false, Nat.leb_le.
  apply and_iff_compat_r. split.
  - intros Hne. apply set_choose_L in Hne as [x Hx].
    apply elem_of_list_to_set, list_elem_of_fmap in Hx as (m & _ & Hm).
    apply list_elem_of_filter in Hm as [Hbg Hm]. by exists m.
  - intros (m & Hm & Hbg) Hempty.
    assert (Hin : sample_number m
                  ∈ (list_to_set
                       (sample_number
                          <$> filter (fun m => portal_background m = true)
                                (measurements f)) : gset Z)).
    { apply elem_of_list_to_set, list_elem_of_fmap. exists m. split; [done |].
      by apply list_elem_of_filter. }
    rewrite Hempty in Hin. set_solver.
Qed.

End PortalProperties.

Section DerivedProperties.

Lemma fold_left_invariant {A B} (P : B -> Prop) (step : B -> A -> B)
    (l : list A) (b : B) :
  P b -> (forall b x, x ∈ l -> P b -> P (step b x)) ->
  P (fold_left step l b).
Proof.
  revert b. induction l as [| x l IH]; intros b Hb Hstep; simpl; [done |].
  apply IH.
  - apply Hstep; [by left | done].
  - intros b' y Hy. apply Hstep. by right.
Qed.

Lemma derived_scan_members (ms : list (Measurement * DerivedDataProperties)) :
  let '(foreground, background) :=
    fold_left derived_step (imap pair ms) (∅, ∅) in
  (forall i, i ∈ foreground ->
     exists x, ms !! i = Some x /\ derived_candidate x
       /\ (source_type x.1 = Foreground
           \/ source_type x.1 = Unknown /\ ItemOfInterestSum x.2 = true))
  /\ (forall i, i ∈ background ->
        exists x, ms !! i = Some x /\ derived_candidate x
          /\ source_type x.1 = Background).
Proof.
  apply (fold_left_invariant
    (fun acc : gset nat * gset nat =>
       let '(foreground, background) := acc in
       (forall i, i ∈ foreground ->
          exists x, ms !! i = Some x /\ derived_candidate x
            /\ (source_type x.1 = Foreground
                \/ source_type x.1 = Unknown /\ ItemOfInterestSum x.2 = true))
       /\ (forall i, i ∈ background ->
             exists x, ms !! i = Some x /\ derived_candidate x
               /\ source_type x.1 = Background))).
  - split; intros i Hi; set_solver.
  - intros [fg bg] [i [m p]] Hin [Hfg Hbg].
    apply list_elem_of_lookup in Hin as [j Hj].
    rewrite list_lookup_imap in Hj.
    destruct (ms !! j) as [x |] eqn:Hx; [| done].
    simpl in Hj. injection Hj as <- ->.
    unfold derived_step.
    destruct (derived_nonzero p) eqn:Hnz; cbn [negb orb]; [| by split].
    destruct (Nat.ltb_spec (num_gamma_channels m) 32) as [Hch | Hch];
      [by split |].
    destruct (BackgroundSubtracted p) eqn:Hbs; cbn [orb]; [by split |].
    destruct (ProcessedFurther p) eqn:Hpf; [by split |].
    assert (Hcand : derived_candidate (m, p)) by done.
    destruct (source_type m) eqn:Hst; try (by split).
    + split; [done |]. intros i Hi.
      apply elem_of_union in Hi as [Hi | Hi]; [| by apply Hbg].
      apply elem_of_singleton in Hi as ->. by exists (m, p).
    + split; [| done]. intros i Hi.
      apply elem_of_union in Hi as [Hi | Hi]; [| by apply Hfg].
      apply elem_of_singleton in Hi as ->. exists (m, p).
      repeat split; try done. by left.
    + destruct (ItemOfInterestSum p) eqn:Hioi; cbn [andb]; [| by split].
      case_bool_decide; [| by split].
      split; [| done]. intros i Hi.
      apply elem_of_union in Hi as [Hi | Hi]; [| by apply Hfg].
      apply elem_of_singleton in Hi as ->. exists (m, p).
      repeat split; try done. by right.
Qed.

(** X12: [get_derived_measurements] gives one foreground and one background, or
    nothing at all: both sets are empty, or each holds one measurement.  A
    measurement it gives has derived-data properties, at least 32 channels,
    and is neither background-subtracted nor processed further; the
    foreground is marked foreground, or is unknown and an item-of-interest
    sum; the background is marked background. *)
Theorem derived_measurements_pair
    (spec : option (list (Measurement * DerivedDataProperties))) :
  let '(foreground, background) := get_derived_measurements spec in
  (foreground = ∅ /\ background = ∅)
  \/ exists ms i j x y,
       spec = Some ms /\ foreground = {[i]} /\ background = {[j]} /\ i <> j
       /\ ms !! i = Some x /\ ms !! j = Some y
       /\ derived_candidate x /\ derived_candidate y
       /\ (source_type x.1 = Foreground
           \/ source_type x.1 = Unknown /\ ItemOfInterestSum x.2 = true)
       /\ source_type y.1 = Background.
Proof.
  destruct spec as [ms |]; [| by left]. unfold get_derived_measurements.
  unfold derived_try.
  pose proof (derived_scan_members ms) as Hscan.
  destruct (fold_left derived_step (imap pair ms) (∅, ∅)) as [fg bg].
  destruct Hscan as [Hfg Hbg].
  destruct (Nat.ltb_spec 1 (size fg)) as [? | Hf1]; [by left |].
  destruct (Nat.ltb_spec 1 (size bg)) as [? | Hb1]; [by left |].
  case_bool_decide as Hfe; [by left |].
  case_bool_decide as Hbe; [by left |].
  right.
  assert (Hfs : size fg = 1%nat).
  { destruct (decide (size fg = 0%nat)) as [Hz | Hz]; [| lia].
    apply size_empty_iff, leibniz_equiv in Hz. done. }
  assert (Hbs : size bg = 1%nat).
  { destruct (decide (size bg = 0%nat)) as [Hz | Hz]; [| lia].
    apply size_empty_iff, leibniz_equiv in Hz. done. }
  apply size_1_elem_of in Hfs as [i Hi]. apply leibniz_equiv in Hi as ->.
  apply size_1_elem_of in Hbs as [j Hj]. apply leibniz_equiv in Hj as ->.
  destruct (Hfg i) as (x & Hx & Hcx & Htx); [set_solver |].
  destruct (Hbg j) as (y & Hy & Hcy & Hty); [set_solver |].
  exists ms, i, j, x, y.
  split; [done |]. split; [done |]. split; [done |]. split.
  { intros ->. replace y with x in * by congruence.
    destruct Htx as [Htx | [Htx _]]; congruence. }
  split; [exact Hx |]. split; [exact Hy |]. split; [exact Hcx |].
  split; [exact Hcy |]. split; [exact Htx | exact Hty].
Qed.

End DerivedProperties.

(** ** The energy-calibration check of the simple analysis *)

Section K40Properties.
Context `{!NumericLib}.

(** X4: the fit that the energy-calibration check makes changes the linear
    coefficient only: when it returns, every other coefficient is the one of
    the foreground's calibration and has uncertainty zero.  A calibration
    with fewer than two coefficients makes the write to [fitfor[1]] leave
    the vector. *)
Theorem k40_gain_fit_changes_gain_only (forecal : EnergyCalibration)
    (nchannel : nat) (centroid_K40 : float) :
  (forall chi2 coefs' uncert',
     k40_gain_fit forecal nchannel centroid_K40 = Ok (chi2, coefs', uncert') ->
     (2 <= length (cal_coefficients forecal))%nat
     /\ length coefs' = length (cal_coefficients forecal)
     /\ length uncert' = length (cal_coefficients forecal)
     /\ forall i, i <> 1%nat ->
          coefs' !! i = cal_coefficients forecal !! i
          /\ ((i < length (cal_coefficients forecal))%nat ->
              uncert' !! i = Some F32.zero))
  /\ ((length (cal_coefficients forecal) < 2)%nat ->
      is_ok (channel_for_energy forecal (to_double centroid_K40)) = true ->
      k40_gain_fit forecal nchannel centroid_K40 = Fault "fitfor[1]").
Proof.
  split.
  - intros chi2 coefs' uncert' Hrun. unfold k40_gain_fit in Hrun.
    apply bind_Ok in Hrun as (bin & _ & Hrun).
    apply bind_Ok in Hrun as (fitfor & Hfitfor & Hrun).
    apply vec_set_Ok in Hfitfor as [Hlen ->].
    rewrite length_replicate in Hlen.
    assert (Hres : exists coeffcn,
              fit_energy_cal_imp
                [{| peakMean := to_double centroid_K40;
                    peakMeanUncert := F64.one; peakMeanBinNumber := bin;
                    photopeakEnergy := to_double true_k40_energy |}]
                (<[1%nat := true]>
                   (replicate (length (cal_coefficients forecal)) false))
                nchannel (cal_deviation_pairs forecal)
                (cal_coefficients forecal)
                (replicate (length (cal_coefficients forecal)) F32.zero)
                coeffcn
              = Ok (chi2, coefs', uncert')).
    { destruct (EnergyCalType_eqb _ _); by eexists. }
    destruct Hres as [coeffcn Hres].
    apply fit_energy_cal_imp_result in Hres as (Hl1 & Hl2 & Hfix & _).
    rewrite length_insert, length_replicate in Hl1, Hl2.
    split; [lia |]. split; [done |]. split; [done |].
    intros i Hi.
    destruct (le_lt_dec (length (cal_coefficients forecal)) i) as [Hge | Hlt].
    + split; [| lia].
      rewrite (proj2 (lookup_ge_None _ _)) by lia.
      symmetry. by apply lookup_ge_None.
    + destruct (Hfix i) as (v & Hv & Hc & Hu).
      { rewrite list_lookup_insert_ne by done.
        by apply lookup_replicate_2. }
      split; [congruence | done].
  - intros Hlen Hbin. unfold k40_gain_fit.
    destruct (channel_for_energy forecal (to_double centroid_K40))
      as [bin | |]; [| done | done].
    cbn [mbind outcome_bind obind]. unfold vec_set.
    rewrite length_replicate.
    destruct (Nat.ltb_spec 1 (length (cal_coefficients forecal))); [lia |].
    done.
Qed.

End K40Properties.

(** ** The request queue *)

Section QueueProperties.
Context {Eng : Type} `{!Gadras Eng} `{!Collaborators Eng}.

(** A strategy that does not end in a fault ends as the hand-over of one
    result ends, which is made as the delivery rule says. *)
Lemma dispatch_delivers (inp : AnalysisInput) (h : Host Eng) :
  (exists where_, dispatch inp h = Fault where_)
  \/ exists result w,
       dispatch inp h
       = (perform_all (deliver inp result (server_instance h)) ;;
          Ok {| worker := w; server_instance := server_instance h;
                events := events h
                          ++ deliver inp result (server_instance h) |}).
Proof.
  rewrite dispatch_run. unfold run_strategy.
  destruct (try_block inp (initial_result inp, worker h))
    as [[[] | what | where_] [result w]].
  - right. by exists result, w.
  - right. by exists (set_error_message what result), w.
  - left. by eexists.
Qed.

Lemma perform_all_returns (todo : list Event) :
  (forall e, perform e = Ok tt) -> perform_all todo = Ok tt.
Proof.
  intros Hreturns. induction todo as [| e todo IH]; [done |].
  simpl. by rewrite Hreturns, IH.
Qed.

(** X10: requests are answered in the order they were posted, each of them once.
    Posting is refused when the analysis thread is not to keep analyzing, and
    leaves the queue as it was; otherwise the request goes to the back of the
    queue.  One turn of the analysis thread empties the queue and dispatches
    what it held from front to back: when the turn ends normally the events
    it has added are the deliveries of one result per request, in the order
    of the queue, and when every callback and every post returns no exception
    leaves the turn. *)
Theorem queue_is_first_in_first_out (q : AnalysisQueue) (input : AnalysisInput)
    (h : Host Eng) :
  (g_keep_analyzing q = false ->
   post_analysis input q
   = (Throw "post_analysis(): Analysis thread not currently running", q))
  /\ (g_keep_analyzing q = true ->
      exists q',
        post_analysis input q = (Ok tt, q')
        /\ g_simple_ana_queue q' = g_simple_ana_queue q ++ [input]
        /\ analysis_queue_length q' = S (analysis_queue_length q)
        /\ exists q'' run,
             do_analysis_turn q' h = Some (q'', run)
             /\ analysis_queue_length q'' = 0%nat
             /\ ((forall e, perform e = Ok tt) ->
                 forall what, run <> Throw what)
             /\ forall h',
                  run = Ok h' ->
                  exists results,
                    length results = length (g_simple_ana_queue q')
                    /\ events h'
                       = events h
                         ++ concat
                              (zip_with
                                 (fun inp result =>
                                    deliver inp result (server_instance h))
                                 (g_simple_ana_queue q') results)).
Proof.
  split.
  - intros Hstop. unfold post_analysis. by rewrite Hstop.
  - intros Hrun. unfold post_analysis. rewrite Hrun. cbn [negb].
    eexists. split; [reflexivity |]. cbn [g_simple_ana_queue].
    split; [done |]. split.
    { unfold analysis_queue_length. cbn [g_simple_ana_queue].
      rewrite length_app. simpl. lia. }
    unfold do_analysis_turn. cbn [g_keep_analyzing g_simple_ana_queue].
    cbn [negb andb].
    eexists _, _. split; [reflexivity |]. split; [done |].
    generalize (g_simple_ana_queue q ++ [input]). intros queue.
    assert (Hgen : forall h0 : Host Eng,
              ((forall e, perform e = Ok tt) ->
               forall what, for_each queue dispatch h0 <> Throw what)
              /\ forall h', for_each queue dispatch h0 = Ok h' ->
                   server_instance h' = server_instance h0
                   /\ exists results,
                        length results = length queue
                        /\ events h'
                           = events h0
                             ++ concat
                                  (zip_with
                                     (fun inp result =>
                                        deliver inp result (server_instance h0))
                                     queue results)).
    { induction queue as [| inp queue IH]; intros h0.
      - split; [done |]. intros h' [= <-]. split; [done |].
        exists []. split; [done |]. simpl. by rewrite app_nil_r.
      - cbn [for_each].
        destruct (dispatch_delivers inp h0)
          as [[where_ Hfault] | (result & w & Hrun')].
        + rewrite Hfault. split; [done | done].
        + rewrite Hrun'. split.
          * intros Hreturns what. rewrite perform_all_returns by done.
            cbn [mbind outcome_bind obind].
            by apply (proj1 (IH _)).
          * destruct (perform_all (deliver inp result (server_instance h0)));
              cbn [mbind outcome_bind obind]; [| done | done].
            intros h' Hh'.
            destruct (proj2 (IH _) h' Hh') as (Hs & results & Hl & He).
            cbn [server_instance events] in Hs, He.
            split; [done |].
            exists (result :: results). split; [simpl; lia |].
            rewrite He. simpl. by rewrite <- app_assoc. }
    destruct (Hgen h) as [Hnothrow Hok]. split; [done |].
    intros h' Hh'. by destruct (Hok h' Hh') as (_ & results & Hl & He);
      exists results.
Qed.

End QueueProperties.

(** ** The inputs of the command line *)

Section CommandLineProperties.
Variable is_file : string -> bool.

Lemma nonempty_false (s : string) : nonempty s = false -> s = "".
Proof.
  unfold nonempty. intros H. apply negb_false_iff in H.
  by apply String.eqb_eq in H.
Qed.

Lemma find_none_all (l : list string) (x : string) :
  List.find (fun filename => negb (is_file filename)) l = None ->
  x ∈ l -> is_file x = true.
Proof.
  intros Hfind Hx. apply list_elem_of_In in Hx.
  pose proof (find_none _ _ Hfind x Hx) as H. simpl in H.
  by apply negb_false_iff in H.
Qed.

(** What the checks of the files have established when they let the
    function go on. *)
Lemma check_files_cases (cl : CommandLine) :
  (exists message, check_files is_file cl = ExitFailure message)
  \/ (check_files is_file cl = Proceed tt
      /\ ((positional_spec_files cl = [] /\ nonempty (fore_path cl) = false
           /\ nonempty (back_path cl) = false)
          \/ ((length (positional_spec_files cl)
               + Nat.b2n (nonempty (fore_path cl))
               + Nat.b2n (nonempty (back_path cl)) <= 2)%nat
              /\ (nonempty (fore_path cl) = true ->
                  is_file (fore_path cl) = true)
              /\ (nonempty (back_path cl) = true ->
                  is_file (back_path cl) = true)
              /\ forall x, x ∈ positional_spec_files cl -> is_file x = true))).
Proof.
  unfold check_files.
  destruct (negb (bool_decide (positional_spec_files cl = []))
            || nonempty (fore_path cl) || nonempty (back_path cl)
            || nonempty (drf_option cl)) eqn:Hany.
  2:{ right. split; [done |]. left.
      apply orb_false_iff in Hany as [Hany _].
      apply orb_false_iff in Hany as [Hany Hb].
      apply orb_false_iff in Hany as [Hp Hf].
      apply negb_false_iff, bool_decide_eq_true in Hp. done. }
  destruct (negb (bool_decide (is_Some (foreground_option cl)))
            && bool_decide (positional_spec_files cl = [])); [left; by eexists |].
  destruct (Nat.eqb_spec
              (length (positional_spec_files cl)
               + Nat.b2n (nonempty (fore_path cl))
               + Nat.b2n (nonempty (back_path cl))) 0); [left; by eexists |].
  destruct (Nat.ltb_spec 2
              (length (positional_spec_files cl)
               + Nat.b2n (nonempty (fore_path cl))
               + Nat.b2n (nonempty (back_path cl)))); [left; by eexists |].
  destruct (nonempty (fore_path cl) && negb (is_file (fore_path cl))) eqn:Hff;
    [left; by eexists |].
  destruct (nonempty (back_path cl) && negb (is_file (back_path cl))) eqn:Hbf;
    [left; by eexists |].
  destruct (List.find _ _) eqn:Hfind; [left; by eexists |].
  right. split; [done |]. right. split; [done |].
  split; [| split].
  - intros Hf. rewrite Hf in Hff. simpl in Hff. by apply negb_false_iff in Hff.
  - intros Hb. rewrite Hb in Hbf. simpl in Hbf. by apply negb_false_iff in Hbf.
  - intros x Hx. by eapply find_none_all.
Qed.

(** X18: the command line never trips one of its own [assert]s.  When it goes
    on to [create_input], every path it hands over was found to be a file;
    the first input is the foreground (as stated with [--foreground] or
    [--background], or as suspected from the order of the positional files)
    and the second, if there is one, the matching background, so that the
    clean-up of the types in [create_input] leaves the pair alone; a path
    given with [--foreground] is the first input and a path given with
    [--background] is the second. *)
Theorem command_line_inputs_consistent (cl : CommandLine) :
  match command_line_inputs is_file cl with
  | AssertFails _ => False
  | ExitFailure _ => True
  | Proceed (input1, input2) =>
      is_file input1.1.2 = true
      /\ (fore_path cl <> "" ->
          input1 = (SpecClassType.Foreground, fore_path cl, fore_path cl))
      /\ (back_path cl <> "" ->
          input2
          = Some (SpecClassType.Background, back_path cl, back_path cl))
      /\ match input2 with
         | None =>
             input1.1.1 = SpecClassType.Foreground
             \/ input1.1.1 = SpecClassType.SuspectForeground
         | Some second =>
             is_file second.1.2 = true
             /\ cleanup_types input1.1.1 second.1.1 = (input1.1.1, second.1.1)
             /\ types_cleaned input1.1.1 second.1.1 = true
         end
  end.
Proof.
  unfold command_line_inputs.
  destruct (check_files_cases cl) as [[message ->] | [-> Hchecked]]; [done |].
  unfold choose_inputs.
  destruct Hchecked as [(Hp & Hf & Hb) | (Hn & Hff & Hbf & Hpos)].
  { by rewrite Hf, Hb, Hp. }
  destruct (nonempty (fore_path cl)) eqn:Hf;
    destruct (nonempty (back_path cl)) eqn:Hb;
    destruct (positional_spec_files cl) as [| name [| name2 rest]] eqn:Hp;
    simpl in Hn; try lia; cbn [negb bool_decide decide_rel length Nat.eqb];
    try (apply nonempty_false in Hf); try (apply nonempty_false in Hb);
    try case_bool_decide; try done.
  - cbn [negb]. split; [by apply Hff |]. split; [done |]. split; [done |].
    split; [by apply Hbf | done].
  - split; [by apply Hff |]. split; [done |]. split; [done |]. by left.
  - split; [by apply Hff |]. split; [done |]. split; [done |].
    split; [apply Hpos; set_solver | done].
  - split; [apply Hpos; set_solver |]. split; [done |]. split; [done |].
    split; [by apply Hbf | done].
  - split; [apply Hpos; set_solver |]. split; [done |]. split; [done |].
    by right.
  - destruct rest as [| ? ?]; [| simpl in Hn; lia]. cbn [length Nat.eqb negb].
    split; [apply Hpos; set_solver |]. split; [done |]. split; [done |].
    split; [apply Hpos; set_solver | done].
Qed.

End CommandLineProperties.

(** ** The source types kept of a file *)

Section SourceTypeProperties.

Lemma has_type_filter_out (u t : SourceType) (ms : list Measurement) :
  t ∈ map source_type (filter_types_out [u] ms)
  <-> t ∈ map source_type ms /\ t <> u.
Proof.
  unfold filter_types_out.
  rewrite !list_elem_of_In, !in_map_iff. split.
  - intros (m & <- & Hm). apply filter_In in Hm as [Hm Hkeep].
    apply negb_true_iff, bool_decide_eq_false in Hkeep.
    split; [by exists m |]. intros Heq. apply Hkeep. rewrite Heq. set_solver.
  - intros [(m & <- & Hm) Hne]. exists m. split; [done |].
    apply filter_In. split; [done |].
    apply negb_true_iff, bool_decide_eq_false. set_solver.
Qed.

Lemma filter_all {A} (p : A -> bool) (l : list A) :
  (forall x, In x l -> p x = true) -> List.filter p l = l.
Proof.
  induction l as [| x l IH]; intros Hall; simpl; [done |].
  rewrite (Hall x) by (by left). f_equal. apply IH.
  intros y Hy. apply Hall. by right.
Qed.

Lemma filter_filter {A} (p q : A -> bool) (l : list A) :
  List.filter p (List.filter q l) = List.filter (fun x => q x && p x) l.
Proof.
  induction l as [| x l IH]; simpl; [done |].
  destruct (q x); simpl; [| done]. destruct (p x); by rewrite IH.
Qed.

Lemma no_unwanted_filter_out (u : SourceType) (l : list Measurement) :
  no_unwanted l -> no_unwanted (filter_types_out [u] l).
Proof.
  intros Hl m Hm. apply Hl. unfold filter_types_out in Hm.
  by apply filter_In in Hm as [Hm _].
Qed.

(** The set of source types of such a file, by which of the three types
    occur. *)
Lemma source_types_no_unwanted (l : list Measurement) :
  no_unwanted l ->
  source_types l
  = (if bool_decide (Background ∈ map source_type l) then [Background] else [])
    ++ (if bool_decide (Foreground ∈ map source_type l) then [Foreground]
        else [])
    ++ (if bool_decide (Unknown ∈ map source_type l) then [Unknown] else []).
Proof.
  intros Hl. unfold source_types. cbn [List.filter].
  assert (HI : bool_decide (IntrinsicActivity ∈ map source_type l) = false).
  { apply bool_decide_eq_false. rewrite list_elem_of_In, in_map_iff.
    intros (m & Hm & Hin). destruct (Hl m Hin) as [? | [? | ?]]; congruence. }
  assert (HC : bool_decide (Calibration ∈ map source_type l) = false).
  { apply bool_decide_eq_false. rewrite list_elem_of_In, in_map_iff.
    intros (m & Hm & Hin). destruct (Hl m Hin) as [? | [? | ?]]; congruence. }
  rewrite HI, HC.
  by destruct (bool_decide (Background ∈ _)), (bool_decide (Foreground ∈ _)),
    (bool_decide (Unknown ∈ _)).
Qed.

Lemma has_type_filter_out_bool (u t : SourceType) (l : list Measurement) :
  bool_decide (t ∈ map source_type (filter_types_out [u] l))
  = bool_decide (t ∈ map source_type l) && negb (bool_decide (t = u)).
Proof.
  apply eq_true_iff_eq.
  rewrite andb_true_iff, negb_true_iff, bool_decide_eq_false,
    !bool_decide_eq_true. apply has_type_filter_out.
Qed.

Lemma filter_by_type (keep : Measurement -> bool) (t : SourceType)
    (l : list Measurement) :
  (forall m, In m l -> keep m = bool_decide (source_type m = t)) ->
  List.filter keep l
  = List.filter (fun m => bool_decide (source_type m = t)) l.
Proof. intros H. by apply filter_ext_in. Qed.

Lemma unfiltered_by_type (t : SourceType) (l : list Measurement) :
  (forall m, In m l -> source_type m = t) ->
  l = List.filter (fun m => bool_decide (source_type m = t)) l.
Proof.
  intros H. symmetry. apply filter_all. intros m Hm.
  apply bool_decide_eq_true. by apply H.
Qed.

(** X13: for a file that holds measurements, none of them intrinsic or for
    calibration, the filter never throws: it keeps the measurements of one
    source type, the foreground ones if there are any, else the unknown
    ones, else the background ones. *)
Theorem filter_source_types_prefers_foreground (ms : list Measurement) :
  ms <> [] ->
  Forall (fun m => source_type m <> IntrinsicActivity
                   /\ source_type m <> Calibration) ms ->
  filter_source_types ms
  = Ok (List.filter
          (fun m => bool_decide (source_type m = preferred_type ms)) ms)
  /\ List.filter (fun m => bool_decide (source_type m = preferred_type ms)) ms
     <> [].
Proof.
  intros Hne Hclean.
  assert (Hms : no_unwanted ms).
  { intros m Hm. rewrite Forall_forall in Hclean.
    apply list_elem_of_In in Hm. destruct (Hclean m Hm).
    destruct (source_type m); naive_solver. }
  assert (Hpresent : forall m, In m ms -> source_type m ∈ map source_type ms).
  { intros m Hm. apply list_elem_of_In, in_map_iff. by exists m. }
  assert (Hnonempty : forall t, t ∈ map source_type ms ->
            List.filter (fun m => bool_decide (source_type m = t)) ms <> []).
  { intros t Ht Hnil. apply list_elem_of_In, in_map_iff in Ht as (m & Ht & Hm).
    assert (Hin : In m (List.filter
                          (fun m => bool_decide (source_type m = t)) ms))
      by (apply filter_In; split; [done | by apply bool_decide_eq_true]).
    by rewrite Hnil in Hin. }
  unfold filter_source_types, preferred_type.
  rewrite (source_types_no_unwanted ms Hms).
  destruct (bool_decide (Background ∈ map source_type ms)) eqn:HB;
    destruct (bool_decide (Foreground ∈ map source_type ms)) eqn:HF;
    destruct (bool_decide (Unknown ∈ map source_type ms)) eqn:HU;
    cbn [app length Nat.ltb Nat.leb];
    rewrite ?(source_types_no_unwanted _
                (no_unwanted_filter_out _ _ Hms)),
      ?has_type_filter_out_bool, ?HB, ?HF, ?HU;
    cbn [andb negb app length Nat.ltb Nat.leb Nat.eqb];
    rewrite ?(source_types_no_unwanted _
                (no_unwanted_filter_out _ _
                   (no_unwanted_filter_out _ _ Hms))),
      ?has_type_filter_out_bool, ?HB, ?HF, ?HU;
    cbn [andb negb app length Nat.ltb Nat.leb Nat.eqb].
  all: try apply bool_decide_eq_true in HB; try apply bool_decide_eq_false in HB.
  all: try apply bool_decide_eq_true in HF; try apply bool_decide_eq_false in HF.
  all: try apply bool_decide_eq_true in HU; try apply bool_decide_eq_false in HU.
  all: assert (Hm : forall m, In m ms ->
                 (source_type m = Background /\ Background ∈ map source_type ms)
                 \/ (source_type m = Foreground
                     /\ Foreground ∈ map source_type ms)
                 \/ (source_type m = Unknown /\ Unknown ∈ map source_type ms))
         by (intros m Hin; pose proof (Hpresent m Hin) as Hp;
             destruct (Hms m Hin) as [Ht | [Ht | Ht]]; rewrite Ht in Hp;
             naive_solver).
  8:{ exfalso. destruct ms as [| m ms']; [done |].
      destruct (Hm m (or_introl eq_refl)); naive_solver. }
  all: split; [| by apply Hnonempty].
  all: f_equal; unfold filter_types_out; rewrite ?filter_filter.
  all: first
         [ apply filter_by_type; intros m Hin;
           destruct (Hm m Hin) as [[-> ?] | [[-> ?] | [-> ?]]]; done
         | apply unfiltered_by_type; intros m Hin;
           destruct (Hm m Hin) as [[-> ?] | [[-> ?] | [-> ?]]]; done ].
Qed.

Lemma filter_source_types_outcomes (ms : list Measurement) :
  filter_source_types ms
  = Throw "Error filtering measurement types in spectrum file."
  \/ exists ms', filter_source_types ms = Ok ms'.
Proof.
  unfold filter_source_types.
  repeat match goal with
         | |- context [if ?b then _ else _] => destruct b
         end; by eauto.
Qed.

End SourceTypeProperties.

(** ** The input made of two files *)

Section TwoFileProperties.
Variable passthrough : list Measurement -> bool.
Variable num_samples : list Measurement -> nat.
Variable gamma_live_time : list Measurement -> float.
Variable gamma_count_sum : list Measurement -> double.


(** Evaluating the tests on two given types. *)
Ltac compute_types_step :=
  match goal with
  | |- context [cleanup_types ?a ?b] =>
      let r := eval vm_compute in (cleanup_types a b) in
      change (cleanup_types a b) with r
  | |- context [types_cleaned ?a ?b] =>
      let r := eval vm_compute in (types_cleaned a b) in
      change (types_cleaned a b) with r
  | |- context [@bool_decide (@eq SpecClassType.t ?a ?b) ?d] =>
      let r := eval vm_compute in (@bool_decide (@eq SpecClassType.t a b) d) in
      change (@bool_decide (@eq SpecClassType.t a b) d) with r
  end.

Ltac compute_types :=
  repeat (compute_types_step; cbn [negb andb orb]).

Ltac compute_types_in H :=
  revert H; compute_types; intros H.

(** X14: after the clean-up of the two types and the exchange that puts a
    background first, the pair is one of the three the [assert] names,
    whatever the two types were, as long as neither was "foreground and
    background": the function never stops at its [assert] and never throws
    its "Logic error". *)
Theorem two_file_types_always_cleaned (file1 file2 : list Measurement)
    (type1 type2 : SpecClassType.t) :
  (type1 <> SpecClassType.ForegroundAndBackground ->
   type2 <> SpecClassType.ForegroundAndBackground ->
   let '(t1, t2) := cleanup_types type1 type2 in
   types_cleaned
     (if bool_decide (t1 = SpecClassType.Background)
         || bool_decide (t1 = SpecClassType.SuspectBackground)
      then t2 else t1)
     (if bool_decide (t1 = SpecClassType.Background)
         || bool_decide (t1 = SpecClassType.SuspectBackground)
      then t1 else t2)
   = true)
  /\ (forall where_,
        choose_foreground_file passthrough num_samples gamma_live_time
          gamma_count_sum file1 file2 type1 type2 <> Fault where_)
  /\ choose_foreground_file passthrough num_samples gamma_live_time
       gamma_count_sum file1 file2 type1 type2
     <> Throw "Logic error in figuring out which file is foreground and background".
Proof.
  split; [by destruct type1, type2 |].
  unfold choose_foreground_file.
  destruct (passthrough file1 || passthrough file2);
    [split; [intros; discriminate | discriminate] |].
  destruct (bool_decide (file1 = []) || bool_decide (file2 = [])) eqn:Hempty.
  { destruct (bool_decide (type1 = _) || bool_decide (type2 = _));
      split; try (intros; discriminate); discriminate. }
  destruct type1, type2; compute_types;
    try (split; [intros; discriminate | discriminate]);
    repeat match goal with
           | |- context [filter_source_types ?f] =>
               destruct (filter_source_types_outcomes f) as [-> | [? ->]];
               cbn [mbind outcome_bind obind];
               try (split; [intros; discriminate | discriminate])
           end;
    repeat match goal with
           | |- context [if ?b then _ else _] => destruct b
           | |- context [count_rates ?g ?f ?a ?b] =>
               destruct (count_rates g f a b)
           end;
    split; try (intros; discriminate); discriminate.
Qed.

(** X15: a stated type is taken at its word: when the two types differ and one
    of them is "foreground" or "background" (the first one, if both are),
    the file it belongs to is the foreground or the background whatever the
    count rates are. *)
Theorem stated_type_decides (file1 file2 fore back : list Measurement)
    (type1 type2 : SpecClassType.t) :
  choose_foreground_file passthrough num_samples gamma_live_time
    gamma_count_sum file1 file2 type1 type2 = Ok (fore, back) ->
  type1 <> type2 ->
  (type1 = SpecClassType.Foreground
   \/ (type1 <> SpecClassType.Background /\ type2 = SpecClassType.Background) ->
   filter_source_types file1 = Ok fore /\ filter_source_types file2 = Ok back)
  /\ (type1 = SpecClassType.Background
      \/ (type1 <> SpecClassType.Foreground
          /\ type2 = SpecClassType.Foreground) ->
      filter_source_types file2 = Ok fore
      /\ filter_source_types file1 = Ok back).
Proof.
  unfold choose_foreground_file. intros Hrun Hne.
  destruct (passthrough file1 || passthrough file2); [done |].
  destruct (bool_decide (file1 = []) || bool_decide (file2 = [])) eqn:Hempty.
  { by destruct (bool_decide (type1 = _) || bool_decide (type2 = _)). }
  destruct type1, type2; try done; compute_types_in Hrun; try done;
    (split; intros [Ht | [Ht1 Ht2]]; try done);
    repeat match type of Hrun with
           | context [filter_source_types ?f] =>
               let Hf := fresh "Hf" in
               destruct (filter_source_types_outcomes f) as [Hf | [? Hf]];
               rewrite Hf in Hrun; cbn [mbind outcome_bind obind] in Hrun;
               try done
           end;
    repeat match type of Hrun with
           | context [if ?b then _ else _] => destruct b; try done
           | context [count_rates ?g ?f ?a ?b] =>
               destruct (count_rates g f a b)
           end;
    by injection Hrun as <- <-.
Qed.

(** X16: two files of the same stated type are told apart by their count rates
    alone: the function answers only if one rate is not within 75% of the
    other, and then the file with the higher rate is the foreground. *)
Theorem equal_types_count_rates_decide
    (file1 file2 fore back : list Measurement) (type1 : SpecClassType.t) :
  choose_foreground_file passthrough num_samples gamma_live_time
    gamma_count_sum file1 file2 type1 type1 = Ok (fore, back) ->
  exists kept1 kept2,
    filter_source_types file1 = Ok kept1
    /\ filter_source_types file2 = Ok kept2
    /\ let '(cps1, cps2) :=
         count_rates gamma_live_time gamma_count_sum kept1 kept2 in
       F64.ltb (F64.mul (F64.lit 75 100) cps2) cps1
       && F64.ltb (F64.mul (F64.lit 75 100) cps1) cps2 = false
       /\ (fore, back) = if F64.ltb cps1 cps2 then (kept2, kept1)
                         else (kept1, kept2).
Proof.
  unfold choose_foreground_file. intros Hrun.
  destruct (passthrough file1 || passthrough file2); [done |].
  destruct (bool_decide (type1 = SpecClassType.ForegroundAndBackground)
            || bool_decide (type1 = SpecClassType.ForegroundAndBackground));
    [done |].
  destruct (bool_decide (file1 = []) || bool_decide (file2 = [])); [done |].
  assert (Hc : cleanup_types type1 type1
               = (SpecClassType.Unknown, SpecClassType.Unknown))
    by (by destruct type1).
  rewrite Hc in Hrun. compute_types_in Hrun.
  destruct (filter_source_types_outcomes file1) as [Hf | [kept1 Hf]];
    rewrite Hf in Hrun; [done |].
  cbn [mbind outcome_bind obind] in Hrun.
  destruct (filter_source_types_outcomes file2) as [Hg | [kept2 Hg]];
    rewrite Hg in Hrun; [done |].
  cbn [mbind outcome_bind obind] in Hrun.
  destruct (negb (num_samples kept1 =? 1)%nat
            || negb (num_samples kept2 =? 1)%nat); [done |].
  exists kept1, kept2. split; [done |]. split; [done |].
  destruct (count_rates gamma_live_time gamma_count_sum kept1 kept2)
    as [cps1 cps2].
  destruct (F64.ltb (F64.mul (F64.lit 75 100) cps2) cps1
            && F64.ltb (F64.mul (F64.lit 75 100) cps1) cps2); [done |].
  split; [done |]. by destruct (F64.ltb cps1 cps2); injection Hrun as <- <-.
Qed.

End TwoFileProperties.

(** ** The input made of one file *)

Section OneFileProperties.
Variable meas_gamma_count_sum : Measurement -> double.

(** A sample with channels has at least one of the four kinds. *)
Lemma scan_sample_kinds (ms : list Measurement) :
  let s := scan_sample meas_gamma_count_sum ms in
  scan_nchannel s = 0%nat
  \/ scan_back s || scan_unwanted s || scan_fore s || scan_unknown s = true.
Proof.
  unfold scan_sample.
  apply (fold_left_invariant
    (fun s => scan_nchannel s = 0%nat
              \/ scan_back s || scan_unwanted s || scan_fore s
                 || scan_unknown s = true)).
  - by left.
  - intros s m _ _. right. simpl.
    destruct (negb (num_gamma_channels m =? 0)%nat); simpl;
      destruct (source_type m); simpl;
      rewrite ?orb_true_r; done.
Qed.

Lemma sort_sample_cases (file1 : SpecFile) (sample : Z) (sets : SampleSets) :
  sample ∈ sample_numbers file1 ->
  sets_sorted meas_gamma_count_sum file1 sets ->
  sort_sample meas_gamma_count_sum file1 sample sets
  = Throw "Could not definitively determine measurement type of all samples in spectrum file."
  \/ exists sets',
       sort_sample meas_gamma_count_sum file1 sample sets = Ok sets'
       /\ sets_sorted meas_gamma_count_sum file1 sets'.
Proof.
  intros Hin (Hback & Hfore & Hunk). unfold sort_sample.
  pose proof (scan_sample_kinds (sample_measurements file1 sample)) as Hkinds.
  cbv zeta in Hkinds.
  set (s := scan_sample meas_gamma_count_sum (sample_measurements file1 sample))
    in *.
  destruct (Nat.eqb_spec (scan_nchannel s) 0) as [Hz | Hnz].
  { right. eexists. split; [reflexivity |]. done. }
  destruct Hkinds as [? | Hkinds]; [done |].
  destruct (Nat.ltb_spec 1
              (Nat.b2n (scan_back s) + Nat.b2n (scan_unwanted s)
               + Nat.b2n (scan_fore s) + Nat.b2n (scan_unknown s)))
    as [Hmany | Hone]; [by left |].
  right.
  destruct (scan_back s) eqn:Hb, (scan_unwanted s) eqn:Hu,
    (scan_fore s) eqn:Hf, (scan_unknown s) eqn:Hk;
    simpl in Hone, Hkinds; try lia; try done;
    cbn [Nat.b2n Nat.add Nat.eqb];
    (eexists; split; [reflexivity |]);
    (split; [| split]); cbn [background_samples_ foreground_samples
                               unknown_samples];
    intros x Hx; try (by auto);
    apply elem_of_union in Hx as [Hx | Hx]; try (by auto);
    apply elem_of_singleton in Hx as ->; by fold s.
Qed.

Lemma sort_samples_cases (file1 : SpecFile) (samples : list Z)
    (sets : SampleSets) :
  (forall x, x ∈ samples -> x ∈ sample_numbers file1) ->
  sets_sorted meas_gamma_count_sum file1 sets ->
  for_each samples (sort_sample meas_gamma_count_sum file1) sets
  = Throw "Could not definitively determine measurement type of all samples in spectrum file."
  \/ exists sets',
       for_each samples (sort_sample meas_gamma_count_sum file1) sets = Ok sets'
       /\ sets_sorted meas_gamma_count_sum file1 sets'.
Proof.
  revert sets. induction samples as [| x samples IH]; intros sets Hin Hsorted.
  - right. by exists sets.
  - cbn [for_each].
    destruct (sort_sample_cases file1 x sets) as [-> | (sets1 & -> & Hs1)];
      [apply Hin; by left | done | by left |].
    cbn [mbind outcome_bind obind]. apply IH; [| done].
    intros y Hy. apply Hin. by right.
Qed.

(** The first and the last element of a set. *)
Lemma set_begin_elem (s : gset Z) : s <> ∅ -> set_begin s ∈ s.
Proof.
  intros Hne. unfold set_begin.
  destruct (in_order s) as [| x l] eqn:Hl.
  - exfalso. apply Hne. apply set_eq. intros y.
    rewrite <- elem_of_in_order, Hl. set_solver.
  - simpl. apply elem_of_in_order. rewrite Hl. by left.
Qed.

Lemma in_order_length (s : gset Z) : length (in_order s) = size s.
Proof. unfold in_order. by rewrite merge_sort_Permutation. Qed.

Lemma in_order_NoDup (s : gset Z) : NoDup (in_order s).
Proof. unfold in_order. rewrite merge_sort_Permutation. apply NoDup_elements. Qed.

Lemma set_of_two (s : gset Z) :
  size s = 2%nat ->
  set_begin s ∈ s /\ set_rbegin s ∈ s /\ set_begin s <> set_rbegin s.
Proof.
  intros Hsize. unfold set_begin, set_rbegin.
  pose proof (in_order_length s) as Hlen. rewrite Hsize in Hlen.
  pose proof (in_order_NoDup s) as Hnd.
  pose proof (elem_of_in_order s) as Hin.
  destruct (in_order s) as [| a [| b [| c l]]]; try done. simpl.
  apply NoDup_cons in Hnd as [Hab _].
  split; [apply Hin; set_solver |]. split; [apply Hin; set_solver |].
  set_solver.
Qed.

Lemma size_one_begin (s : gset Z) : size s = 1%nat -> set_begin s ∈ s.
Proof.
  intros Hsize. apply set_begin_elem. intros ->.
  by rewrite size_empty in Hsize.
Qed.

(** The last check of the choice lets through two samples that the sets
    have sorted apart. *)
Lemma picked_samples_checked (file1 : SpecFile) (sets : SampleSets)
    (fore_sample back_sample : Z) :
  sets_sorted meas_gamma_count_sum file1 sets ->
  fore_sample ∈ foreground_samples sets
  \/ fore_sample ∈ unknown_samples sets ->
  back_sample ∈ background_samples_ sets
  \/ back_sample ∈ unknown_samples sets ->
  fore_sample <> back_sample ->
  negb (bool_decide (fore_sample ∈ sample_numbers file1))
  || negb (bool_decide (back_sample ∈ sample_numbers file1))
  || (fore_sample =? back_sample) = false
  /\ fore_sample ∈ sample_numbers file1
  /\ back_sample ∈ sample_numbers file1
  /\ scan_back (scan_sample meas_gamma_count_sum
                  (sample_measurements file1 fore_sample)) = false
  /\ scan_fore (scan_sample meas_gamma_count_sum
                  (sample_measurements file1 back_sample)) = false.
Proof.
  intros (Hback & Hfore & Hunk) Hf Hb Hne.
  assert (Hf' : fore_sample ∈ sample_numbers file1
                /\ scan_back (scan_sample meas_gamma_count_sum
                                (sample_measurements file1 fore_sample))
                   = false).
  { destruct Hf as [Hf | Hf];
      [destruct (Hfore _ Hf) as (? & ? & ?)
      | destruct (Hunk _ Hf) as (? & ? & ?)]; done. }
  assert (Hb' : back_sample ∈ sample_numbers file1
                /\ scan_fore (scan_sample meas_gamma_count_sum
                                (sample_measurements file1 back_sample))
                   = false).
  { destruct Hb as [Hb | Hb];
      [destruct (Hback _ Hb) as (? & ? & ?)
      | destruct (Hunk _ Hb) as (? & ? & ?)]; done. }
  destruct Hf' as [Hf1 Hf2], Hb' as [Hb1 Hb2].
  repeat split; try done.
  rewrite !bool_decide_eq_true_2 by done. simpl.
  by apply Z.eqb_neq.
Qed.

(** X17: when one file is sorted into a foreground and a background sample, the
    two samples are different samples of the file; a sample with a
    measurement marked background is never taken as the foreground, and a
    sample with a measurement marked foreground never as the background.
    The function accesses nothing out of bounds, and two of the messages it
    could throw never occur: "Error interpreting sample type" needs a sample
    with channels and no measurement, and "Error determining
    foreground/background sample numbers" needs the two choices to
    coincide. *)
Theorem single_file_samples_sound (file1 : SpecFile) (type1 : SpecClassType.t) :
  let result := single_file_samples meas_gamma_count_sum file1 type1 in
  (forall fore_sample back_sample,
     result = Ok (fore_sample, back_sample) ->
     fore_sample <> back_sample
     /\ fore_sample ∈ sample_numbers file1
     /\ back_sample ∈ sample_numbers file1
     /\ scan_back (scan_sample meas_gamma_count_sum
                     (sample_measurements file1 fore_sample)) = false
     /\ scan_fore (scan_sample meas_gamma_count_sum
                     (sample_measurements file1 back_sample)) = false)
  /\ (forall where_, result <> Fault where_)
  /\ result <> Throw "Error interpreting sample type in spectrum file."
  /\ result
     <> Throw "Error determining foreground/background sample numbers.".
Proof.
  intros result. subst result. unfold single_file_samples.
  case_bool_decide as Htype; [by repeat split |].
  destruct (sort_samples_cases file1 (sample_numbers file1)
              {| sample_cps := ∅; foreground_samples := ∅;
                 background_samples_ := ∅; unknown_samples := ∅ |})
    as [-> | (sets & -> & Hsorted)];
    [done | by (split; [| split]); intros y Hy; set_solver
    | by repeat split |].
  cbn [mbind outcome_bind obind]. unfold pick_samples.
  pose proof Hsorted as (Hback & Hfore & Hunk).
  assert (Hfb : forall x y, x ∈ foreground_samples sets ->
                  y ∈ background_samples_ sets -> x <> y).
  { intros x y Hx Hy ->. destruct (Hfore _ Hx) as (_ & Hx1 & _).
    destruct (Hback _ Hy) as (_ & Hy1 & _). congruence. }
  assert (Hfu : forall x y, x ∈ foreground_samples sets ->
                  y ∈ unknown_samples sets -> x <> y).
  { intros x y Hx Hy ->. destruct (Hfore _ Hx) as (_ & _ & Hx1).
    destruct (Hunk _ Hy) as (_ & _ & Hy1). congruence. }
  assert (Hub : forall x y, x ∈ unknown_samples sets ->
                  y ∈ background_samples_ sets -> x <> y).
  { intros x y Hx Hy ->. destruct (Hunk _ Hx) as (_ & Hx1 & _).
    destruct (Hback _ Hy) as (_ & Hy1 & _). congruence. }
  destruct (Nat.eqb_spec
              (size (background_samples_ sets) + size (foreground_samples sets)
               + size (unknown_samples sets)) 1); [by repeat split |].
  destruct (Nat.ltb_spec 1 (size (foreground_samples sets)));
    [by repeat split |].
  destruct (Nat.ltb_spec 1 (size (background_samples_ sets)));
    [by repeat split |].
  assert (Hdone : forall fore_sample back_sample,
            fore_sample ∈ foreground_samples sets
            \/ fore_sample ∈ unknown_samples sets ->
            back_sample ∈ background_samples_ sets
            \/ back_sample ∈ unknown_samples sets ->
            fore_sample <> back_sample ->
            forall picked, picked = Ok (fore_sample, back_sample) ->
            let result :=
              picked ≫= (fun '(fore_sample, back_sample) =>
                if negb (bool_decide (fore_sample ∈ sample_numbers file1))
                   || negb (bool_decide (back_sample ∈ sample_numbers file1))
                   || (fore_sample =? back_sample)
                then Throw "Error determining foreground/background sample numbers."
                else Ok (fore_sample, back_sample)) in
            (forall f b, result = Ok (f, b) ->
               f <> b /\ f ∈ sample_numbers file1 /\ b ∈ sample_numbers file1
               /\ scan_back (scan_sample meas_gamma_count_sum
                               (sample_measurements file1 f)) = false
               /\ scan_fore (scan_sample meas_gamma_count_sum
                               (sample_measurements file1 b)) = false)
            /\ (forall where_, result <> Fault where_)
            /\ result <> Throw "Error interpreting sample type in spectrum file."
            /\ result
               <> Throw "Error determining foreground/background sample numbers.").
  { intros f b Hf Hb Hne picked -> result. subst result.
    cbn [mbind outcome_bind obind].
    destruct (picked_samples_checked file1 sets f b Hsorted Hf Hb Hne)
      as (-> & Hf1 & Hb1 & Hf2 & Hb2).
    repeat split; try done; by injection H1 as <- <-. }
  destruct (Nat.eqb_spec (size (foreground_samples sets)) 1) as [Hf1 | Hf1];
    destruct (Nat.eqb_spec (size (background_samples_ sets)) 1) as [Hb1 | Hb1];
    destruct (Nat.eqb_spec (size (unknown_samples sets)) 1) as [Hu1 | Hu1];
    destruct (Nat.eqb_spec (size (foreground_samples sets)) 0) as [Hf0 | Hf0];
    destruct (Nat.eqb_spec (size (background_samples_ sets)) 0) as [Hb0 | Hb0];
    destruct (Nat.eqb_spec (size (unknown_samples sets)) 2) as [Hu2 | Hu2];
    try lia; cbn [andb];
    try (by repeat split);
    try (eapply Hdone; [| | | reflexivity];
         [ first [ left; by apply size_one_begin
                 | right; by apply size_one_begin ]
         | first [ left; by apply size_one_begin
                 | right; by apply size_one_begin ]
         | first [ apply Hfb; by apply size_one_begin
                 | apply Hfu; by apply size_one_begin
                 | apply Hub; by apply size_one_begin ] ]).
  all: destruct (set_of_two _ Hu2) as (Hbegin & Hrbegin & Hdiff).
  all: destruct (F64.ltb _ _ && F64.ltb _ _); [by repeat split |].
  all: destruct (F64.ltb _ _);
    (eapply Hdone; [| | | reflexivity]; [by right | by right | done]).
Qed.

End OneFileProperties.

(** ** The properties on concrete inputs *)

Section InputExamples.
#[local] Existing Instance Reference.reference_numerics.
#[local] Existing Instance Reference.scripted_gadras.
#[local] Existing Instance Reference.plain_collaborators.

(** X4, witness: a K40 peak found at 1458 keV with a calibration of 3 keV
    per channel; the offset stays zero. *)
Lemma k40_gain_fit_changes_gain_only_witness :
  exists chi2 coefs' uncert',
    k40_gain_fit Scenarios.cal_3keV 1024 (F32.of_Z 1458)
    = Ok (chi2, coefs', uncert')
    /\ length coefs' = 2%nat /\ coefs' !! 0%nat = Some F32.zero.
Proof.
  assert (Hok : is_ok (k40_gain_fit Scenarios.cal_3keV 1024 (F32.of_Z 1458))
                = true) by (vm_compute; reflexivity).
  destruct (k40_gain_fit Scenarios.cal_3keV 1024 (F32.of_Z 1458))
    as [[[chi2 coefs'] uncert'] | what | where_] eqn:Hrun;
    [| discriminate Hok | discriminate Hok].
  destruct (k40_gain_fit_changes_gain_only Scenarios.cal_3keV 1024
              (F32.of_Z 1458)) as [Hfit _].
  destruct (Hfit chi2 coefs' uncert' Hrun) as (_ & Hlen & _ & Hrest).
  exists chi2, coefs', uncert'. split; [reflexivity |].
  split; [exact Hlen |]. apply (Hrest 0%nat). discriminate.
Defined.

(** X10, witness: one request posted to a running thread, and one turn of
    the thread. *)
Lemma queue_is_first_in_first_out_witness :
  let input := Scenarios.request Simple "" (Some Scenarios.three_foregrounds) in
  exists q' q'' run,
    post_analysis input ReferenceFiles.running_queue = (Ok tt, q')
    /\ analysis_queue_length q' = 1%nat
    /\ do_analysis_turn q' (Reference.fresh_host [] false) = Some (q'', run)
    /\ analysis_queue_length q'' = 0%nat
    /\ forall what, run <> Throw what.
Proof.
  intros input.
  destruct (queue_is_first_in_first_out ReferenceFiles.running_queue input
              (Reference.fresh_host [] false)) as [_ Hrunning].
  destruct (Hrunning eq_refl)
    as (q' & Hpost & _ & Hlen & q'' & run & Hturn & Hempty & Hnothrow & _).
  exists q', q'', run.
  split; [exact Hpost |]. split; [exact Hlen |]. split; [exact Hturn |].
  split; [exact Hempty |]. apply Hnothrow. by intros [].
Defined.

(** X11, witness: a background of 120 s and three one-second foregrounds
    are portal data. *)
Lemma is_portal_data_spec_witness :
  is_portal_data (Some ReferenceFiles.portal_file) = true.
Proof.
  apply (is_portal_data_spec ReferenceFiles.portal_file). split.
  - exists (Scenarios.spectrum 1 Background (F32.of_Z 120)).
    split; [by left | reflexivity].
  - vm_compute. lia.
Defined.

(** X13, witness: of a background, an unknown and a foreground measurement
    the foreground is kept. *)
Lemma filter_source_types_prefers_foreground_witness :
  filter_source_types ReferenceFiles.mixed_file
  = Ok [Scenarios.spectrum 3 Foreground (F32.of_Z 100)].
Proof.
  apply (filter_source_types_prefers_foreground ReferenceFiles.mixed_file).
  - discriminate.
  - repeat constructor; discriminate.
Defined.

(** X15, witness: the second file is stated to be the foreground. *)
Lemma stated_type_decides_witness :
  exists fore back,
    choose_foreground_file ReferenceFiles.never_passthrough
      ReferenceFiles.num_samples ReferenceFiles.gamma_live_time
      ReferenceFiles.gamma_count_sum ReferenceFiles.room_file
      ReferenceFiles.item_file SpecClassType.Unknown SpecClassType.Foreground
    = Ok (fore, back)
    /\ filter_source_types ReferenceFiles.item_file = Ok fore
    /\ filter_source_types ReferenceFiles.room_file = Ok back.
Proof.
  assert (Hok : is_ok (choose_foreground_file ReferenceFiles.never_passthrough
                         ReferenceFiles.num_samples
                         ReferenceFiles.gamma_live_time
                         ReferenceFiles.gamma_count_sum
                         ReferenceFiles.room_file ReferenceFiles.item_file
                         SpecClassType.Unknown SpecClassType.Foreground)
                = true) by (vm_compute; reflexivity).
  destruct (choose_foreground_file ReferenceFiles.never_passthrough
              ReferenceFiles.num_samples ReferenceFiles.gamma_live_time
              ReferenceFiles.gamma_count_sum ReferenceFiles.room_file
              ReferenceFiles.item_file SpecClassType.Unknown
              SpecClassType.Foreground)
    as [[fore back] | what | where_] eqn:Hrun;
    [| discriminate Hok | discriminate Hok].
  exists fore, back. split; [reflexivity |].
  destruct (stated_type_decides _ _ _ _ _ _ _ _ _ _ Hrun) as [_ Hsecond];
    [discriminate |].
  apply Hsecond. right. split; [discriminate | reflexivity].
Defined.

(** X16, witness: two files without a stated type; the one with ten times
    the count rate is the foreground. *)
Lemma equal_types_count_rates_decide_witness :
  exists fore back,
    choose_foreground_file ReferenceFiles.never_passthrough
      ReferenceFiles.num_samples ReferenceFiles.gamma_live_time
      ReferenceFiles.gamma_count_sum ReferenceFiles.room_file
      ReferenceFiles.item_file SpecClassType.Unknown SpecClassType.Unknown
    = Ok (fore, back)
    /\ exists kept1 kept2,
         filter_source_types ReferenceFiles.room_file = Ok kept1
         /\ filter_source_types ReferenceFiles.item_file = Ok kept2.
Proof.
  assert (Hok : is_ok (choose_foreground_file ReferenceFiles.never_passthrough
                         ReferenceFiles.num_samples
                         ReferenceFiles.gamma_live_time
                         ReferenceFiles.gamma_count_sum
                         ReferenceFiles.room_file ReferenceFiles.item_file
                         SpecClassType.Unknown SpecClassType.Unknown)
                = true) by (vm_compute; reflexivity).
  destruct (choose_foreground_file ReferenceFiles.never_passthrough
              ReferenceFiles.num_samples ReferenceFiles.gamma_live_time
              ReferenceFiles.gamma_count_sum ReferenceFiles.room_file
              ReferenceFiles.item_file SpecClassType.Unknown
              SpecClassType.Unknown)
    as [[fore back] | what | where_] eqn:Hrun;
    [| discriminate Hok | discriminate Hok].
  exists fore, back. split; [reflexivity |].
  destruct (equal_types_count_rates_decide _ _ _ _ _ _ _ _ _ Hrun)
    as (kept1 & kept2 & H1 & H2 & _).
  exists kept1, kept2. split; [exact H1 | exact H2].
Defined.

(** X17, witness: one file with a foreground in sample 1 and a background
    in sample 2. *)
Lemma single_file_samples_sound_witness :
  single_file_samples ReferenceFiles.meas_gamma_count_sum
    Scenarios.foreground_and_background SpecClassType.ForegroundAndBackground
  = Ok (1, 2)
  /\ 1 <> 2.
Proof.
  split; [vm_compute; reflexivity |].
  destruct (single_file_samples_sound ReferenceFiles.meas_gamma_count_sum
              Scenarios.foreground_and_background
              SpecClassType.ForegroundAndBackground) as [Hok _].
  apply (Hok 1 2). vm_compute. reflexivity.
Defined.

(** X18, witness: [--foreground item.n42 --background room.n42] *)
Lemma command_line_inputs_consistent_witness :
  command_line_inputs ReferenceFiles.every_path_is_file
    ReferenceFiles.two_options
  = Proceed ((SpecClassType.Foreground, "item.n42", "item.n42"),
             Some (SpecClassType.Background, "room.n42", "room.n42")).
Proof.
  assert (Hgo : match command_line_inputs ReferenceFiles.every_path_is_file
                        ReferenceFiles.two_options with
                | Proceed _ => true
                | _ => false
                end = true) by (vm_compute; reflexivity).
  pose proof (command_line_inputs_consistent ReferenceFiles.every_path_is_file
                ReferenceFiles.two_options) as Hcl.
  destruct (command_line_inputs ReferenceFiles.every_path_is_file
              ReferenceFiles.two_options) as [[input1 input2] | ? | ?];
    [| discriminate Hgo | discriminate Hgo].
  destruct Hcl as (_ & Hfore & Hback & _).
  assert (Hf : fore_path ReferenceFiles.two_options <> "")
    by (vm_compute; discriminate).
  assert (Hb : back_path ReferenceFiles.two_options <> "")
    by (vm_compute; discriminate).
  rewrite (Hfore Hf), (Hback Hb). reflexivity.
Defined.

End InputExamples.
